(** * pyPraat: the TextGrid parser and the Praat formant-report parser

    A shallow embedding of [TextGrid.py] (class [TextGrid]) and of
    [get_formants.py] (class [Formants]).

    Conventions of the embedding.
    - A Python [str] is a [string] (a sequence of 8-bit characters, read as
      code points 0 to 255); a file is the list of its lines.
    - A Python exception is a value of [pyerr]; a computation that may raise
      returns a [result].  Loops that Python writes with [while] are given
      fuel; running out of it is the separate outcome [OutOfFuel], and the
      totality lemmas show that it never happens.
    - Python floats are kept abstract (class [PyFloat]): the parsers only
      convert, add and multiply them, so every general theorem holds for any
      implementation of these operations, IEEE binary64 included.  Concrete
      examples run on [exact_float], which computes with exact rationals and
      agrees with binary64 wherever the latter is exact. *)

From Stdlib Require Import ZArith QArith Ascii String DecimalString Sorted Lia.
From stdpp Require Import base tactics option list.

Local Open Scope string_scope.
Local Open Scope nat_scope.
Local Open Scope list_scope.

Infix "+:+" := String.append (at level 60, right associativity).

(** ** Python exceptions and results *)

Inductive exn_kind : Set :=
| Exception        (* raise Exception(...) *)
| ValueError
| TypeError
| IndexError
| AttributeError
| OverflowError.

(** [msg] is the message of an explicit [raise]; exceptions raised by the
    interpreter itself (a failed conversion, [None + 1], an index out of
    range, [None.group]) carry [None]: their text is not modelled. *)
Record pyerr : Set := PyErr { kind : exn_kind; msg : option string }.

Inductive result (A : Type) : Type :=
| Ok (a : A)
| Raise (e : pyerr)
| OutOfFuel.
Arguments Ok {A} a.
Arguments Raise {A} e.
Arguments OutOfFuel {A}.

Definition raise_builtin {A : Type} (k : exn_kind) : result A :=
  Raise (PyErr k None).
Definition raise_msg {A : Type} (k : exn_kind) (m : string) : result A :=
  Raise (PyErr k (Some m)).

#[global] Instance result_ret : MRet result := fun A a => Ok a.
#[global] Instance result_bind : MBind result := fun A B k r =>
  match r with
  | Ok a => k a
  | Raise e => Raise e
  | OutOfFuel => OutOfFuel
  end.

#[global] Instance result_fmap : FMap result := fun A B g r =>
  match r with
  | Ok a => Ok (g a)
  | Raise e => Raise e
  | OutOfFuel => OutOfFuel
  end.

(** [l[i]] for a non-negative index. *)
Definition getitem {A : Type} (l : list A) (i : nat) : result A :=
  match l !! i with
  | Some x => Ok x
  | None => raise_builtin IndexError
  end.

(** The position a Python index [i] denotes in a list of length [len]: a
    negative index counts from the end, and an index outside
    [-len .. len-1] denotes none. *)
Definition slot_of (len : nat) (i : Z) : option nat :=
  if (0 <=? i)%Z && (i <? Z.of_nat len)%Z then Some (Z.to_nat i)
  else if (i <? 0)%Z && (- Z.of_nat len <=? i)%Z
       then Some (Z.to_nat (Z.of_nat len + i))
       else None.

(** [l[i] = x]; IndexError when [i] is out of range. *)
Definition setitem {A : Type} (l : list A) (i : Z) (x : A) : result (list A) :=
  match slot_of (length l) i with
  | Some k => Ok (<[k := x]> l)
  | None => raise_builtin IndexError
  end.

(** ** Characters and strings *)

Definition quote : ascii := Ascii.ascii_of_nat 34.

Definition is_digit (c : ascii) : bool :=
  let n := Ascii.nat_of_ascii c in (48 <=? n) && (n <=? 57).

Definition digit_val (c : ascii) : Z := Z.of_nat (Ascii.nat_of_ascii c) - 48.

(** Whitespace of a Python 2 byte string: space, \t, \n, \v, \f, \r. *)
Definition is_space2 (c : ascii) : bool :=
  let n := Ascii.nat_of_ascii c in ((9 <=? n) && (n <=? 13)) || (n =? 32).

(** Whitespace of a Python 3 [str] among the code points below 256
    ([str.isspace], also the class \s of [re]). *)
Definition is_space3 (c : ascii) : bool :=
  let n := Ascii.nat_of_ascii c in
  ((9 <=? n) && (n <=? 13)) || ((28 <=? n) && (n <=? 32))
  || (n =? 133) || (n =? 160).

Definition is_char (a c : ascii) : bool := Ascii.eqb c a.

(** [s.lstrip(chars)], [s.rstrip(chars)] and [s.strip(chars)]: every leading
    and trailing character of the set is removed. *)
Fixpoint lstrip (p : ascii -> bool) (s : string) : string :=
  match s with
  | String c s' => if p c then lstrip p s' else s
  | EmptyString => EmptyString
  end.

Fixpoint rstrip (p : ascii -> bool) (s : string) : string :=
  match s with
  | String c s' =>
      match rstrip p s' with
      | EmptyString => if p c then EmptyString else String c EmptyString
      | r => String c r
      end
  | EmptyString => EmptyString
  end.

Definition strip (p : ascii -> bool) (s : string) : string :=
  rstrip p (lstrip p s).

(** Every character of [s] is in the set [p]. *)
Fixpoint all_chars (p : ascii -> bool) (s : string) : bool :=
  match s with
  | String c s' => p c && all_chars p s'
  | EmptyString => true
  end.

Fixpoint last_char (s : string) : option ascii :=
  match s with
  | EmptyString => None
  | String c EmptyString => Some c
  | String _ r => last_char r
  end.

(** [s.startswith(pre)] *)
Definition startswith (pre s : string) : bool := String.prefix pre s.

(** [s.replace(old, '')] for a non-empty [old]: the occurrences of [old] are
    deleted from left to right, without overlap.  [skip] counts the
    characters of the occurrence being deleted that are still to drop. *)
Fixpoint delete_all_from (old : string) (skip : nat) (s : string) : string :=
  match s with
  | EmptyString => EmptyString
  | String c s' =>
      match skip with
      | S k => delete_all_from old k s'
      | O =>
          if startswith old s
          then delete_all_from old (String.length old - 1) s'
          else String c (delete_all_from old 0 s')
      end
  end.

Definition delete_all (old s : string) : string := delete_all_from old 0 s.

(** [s.replace(old, new)] for a non-empty [old]: the occurrences of [old]
    are replaced from left to right, without overlap. *)
Fixpoint replace_from (old new : string) (skip : nat) (s : string) : string :=
  match s with
  | EmptyString => EmptyString
  | String c s' =>
      match skip with
      | S k => replace_from old new k s'
      | O =>
          if startswith old s
          then new +:+ replace_from old new (String.length old - 1) s'
          else String c (replace_from old new 0 s')
      end
  end.

Definition replace_all (old new s : string) : string :=
  replace_from old new 0 s.

(** The longest prefix of characters in [p], and the rest. *)
Fixpoint span (p : ascii -> bool) (s : string) : string * string :=
  match s with
  | String c s' =>
      if p c then let '(a, b) := span p s' in (String c a, b)
      else (EmptyString, s)
  | EmptyString => (EmptyString, EmptyString)
  end.

(** [expect lit s]: [s] without its prefix [lit], when it has it. *)
Fixpoint expect (lit s : string) : option string :=
  match lit with
  | EmptyString => Some s
  | String a lit' =>
      match s with
      | String c s' => if Ascii.eqb c a then expect lit' s' else None
      | EmptyString => None
      end
  end.

(** The value of a string of decimal digits, most significant first. *)
Fixpoint digits_value_from (acc : Z) (s : string) : Z :=
  match s with
  | String c s' => digits_value_from (10 * acc + digit_val c)%Z s'
  | EmptyString => acc
  end.
Definition digits_value (s : string) : Z := digits_value_from 0 s.

Definition all_digits (s : string) : bool :=
  match span is_digit s with
  | (String _ _, EmptyString) => true
  | _ => false
  end.

(** [int(s)] on a byte string, base 10: surrounding whitespace, an optional
    sign, one or more digits; anything else raises ValueError. *)
Definition int_of_string (sp : ascii -> bool) (s : string) : result Z :=
  let body := strip sp s in
  let '(neg, ds) :=
    match body with
    | String c r =>
        if Ascii.eqb c "-" then (true, r)
        else if Ascii.eqb c "+" then (false, r)
        else (false, body)
    | EmptyString => (false, body)
    end in
  if all_digits ds
  then Ok (if neg then - digits_value ds else digits_value ds)%Z
  else raise_builtin ValueError.

(** [n] spaces *)
Fixpoint indent (n : nat) : string :=
  match n with
  | O => EmptyString
  | S n' => String " " (indent n')
  end.

(** ['%d' % z] *)
Definition fmt_d (z : Z) : string := NilZero.string_of_int (Z.to_int z).

(** ** Regular expressions of the two parsers, compiled by hand

    Every pattern is used with [match], which anchors it at the start of the
    line.  None of them needs backtracking: each greedy repetition is
    followed by a character outside its class, or by the end of the
    pattern. *)

(** [[0-9]+(?:\.[0-9]+)?(?:e[+-]?[0-9]+)?]: the matched text and the rest. *)
Definition take_fraction (s : string) : string * string :=
  match s with
  | String c r =>
      if Ascii.eqb c "." then
        match span is_digit r with
        | (String d ds, r') => (String c (String d ds), r')
        | _ => (EmptyString, s)
        end
      else (EmptyString, s)
  | EmptyString => (EmptyString, s)
  end.

Definition take_sign (s : string) : string * string :=
  match s with
  | String c r =>
      if Ascii.eqb c "+" || Ascii.eqb c "-" then (String c EmptyString, r)
      else (EmptyString, s)
  | EmptyString => (EmptyString, s)
  end.

Definition take_exponent (s : string) : string * string :=
  match s with
  | String c r =>
      if Ascii.eqb c "e" then
        let '(sg, r1) := take_sign r in
        match span is_digit r1 with
        | (String d ds, r') => (String c (sg +:+ String d ds), r')
        | _ => (EmptyString, s)
        end
      else (EmptyString, s)
  | EmptyString => (EmptyString, s)
  end.

Definition take_number (s : string) : option (string * string) :=
  match span is_digit s with
  | (String d ds, r) =>
      let '(fr, r1) := take_fraction r in
      let '(ex, r2) := take_exponent r1 in
      Some (String d ds +:+ fr +:+ ex, r2)
  | _ => None
  end.

(** The strings the number pattern matches entirely. *)
Definition number_literal (s : string) : bool :=
  match take_number s with
  | Some (_, EmptyString) => true
  | _ => false
  end.

(** [reIntervals = re.compile(r' +intervals \[[0-9]+\]:')] *)
Definition reIntervals_match (l : string) : bool :=
  match span (is_char " ") l with
  | (String _ _, r) =>
      match expect "intervals [" r with
      | Some r1 =>
          match span is_digit r1 with
          | (String _ _, r2) =>
              match expect "]:" r2 with Some _ => true | None => false end
          | _ => false
          end
      | None => false
      end
  | _ => false
  end.

(** ** Python floats *)

Class PyFloat : Type := {
  pyfloat : Type;
  (** [numpy.nan] *)
  nan : pyfloat;
  (** [float(s)]; [None] is ValueError *)
  parse_float : string -> option pyfloat;
  (** [int(x)]; [None] is OverflowError (an infinite [x]) *)
  float_to_int : pyfloat -> option Z;
  (** the conversion of the integer operand in [int * float]; [None] is
      OverflowError (an integer too large for a float) *)
  int_to_float : Z -> option pyfloat;
  fadd : pyfloat -> pyfloat -> pyfloat;
  fmul : pyfloat -> pyfloat -> pyfloat;
  (** A decimal literal always converts, and never to NaN. *)
  parse_float_number : forall s,
    number_literal s = true -> exists x, parse_float s = Some x /\ x <> nan;
  (** Nor does an integer convert to NaN. *)
  int_to_float_number : forall z x, int_to_float z = Some x -> x <> nan
}.

Definition float_of_string `{PyFloat} (s : string) : result pyfloat :=
  match parse_float s with
  | Some x => Ok x
  | None => raise_builtin ValueError
  end.

(** * TextGrid.py *)

Module TextGrid.

(** The dictionary built for an interval; [F] is the type of floats. *)
Record interval_of (F : Type) : Type := Interval {
  xmin : F;
  xmax : F;
  text : string
}.
Arguments Interval {F} _ _ _.
Arguments xmin {F} _.
Arguments xmax {F} _.
Arguments text {F} _.

(** The attributes [parse] sets on the object. *)
Record textgrid_of (F : Type) : Type := Build {
  size : Z;
  itemRanges : list (nat * option nat);
  intervals : list (list (interval_of F))
}.
Arguments Build {F} _ _ _.
Arguments size {F} _.
Arguments itemRanges {F} _.
Arguments intervals {F} _.

Section WithFloat.
Context `{FL : PyFloat}.

Definition interval : Type := interval_of pyfloat.
Definition textgrid : Type := textgrid_of pyfloat.

(** [findLineSW(line, start, end)]: [(i, l)] for the first line of
    [content[start:end]] that starts with [line], [None] for [(None, None)]. *)
Fixpoint findLineSW_in (line : string) (ls : list string) (i : nat)
  : option (nat * string) :=
  match ls with
  | l :: ls' =>
      if startswith line l then Some (i, l)
      else findLineSW_in line ls' (S i)
  | [] => None
  end.

Definition findLineSW (content : list string) (line : string)
    (start : nat) (end_ : option nat) : option (nat * string) :=
  let stop := default (length content) end_ in
  findLineSW_in line (take (stop - start) (drop start content)) start.

Definition object_class_line : string :=
  "Object class = " +:+ String quote "TextGrid" +:+ String quote EmptyString.

(** ['    item [%d]:' % k] *)
Definition item_marker (k : Z) : string := "    item [" +:+ fmt_d k +:+ "]:".

(** The first loop of [parse]: the lines of the item markers.  [i] is the
    variable [i], [None] after a search that found nothing; [i+1] then
    raises TypeError. *)
Fixpoint find_items (content : list string) (js : list nat)
    (i : option nat) (idx : list (option nat)) : result (list (option nat)) :=
  match js with
  | [] => Ok idx
  | j :: js' =>
      match i with
      | None => raise_builtin TypeError
      | Some i0 =>
          let i' := fst <$> findLineSW content (item_marker (Z.of_nat j + 1))
                              (i0 + 1) None in
          find_items content js' i' (idx ++ [i'])
      end
  end.

(** The second loop: [itemRanges.append((idx[j]+1, idx[j+1]))]. *)
Fixpoint item_ranges (idx : list (option nat)) (js : list nat)
    (acc : list (nat * option nat)) : result (list (nat * option nat)) :=
  match js with
  | [] => Ok acc
  | j :: js' =>
      a ← getitem idx j;
      match a with
      | None => raise_builtin TypeError
      | Some a0 =>
          b ← getitem idx (j + 1);
          item_ranges idx js' (acc ++ [(a0 + 1, b)])
      end
  end.

(** The three field lines after an interval header on line [i1]. *)
Definition read_interval (content : list string) (i1 : nat) : result interval :=
  l1 ← getitem content (i1 + 1);
  x0 ← float_of_string (delete_all "xmin = " (strip is_space2 l1));
  l2 ← getitem content (i1 + 2);
  x1 ← float_of_string (delete_all "xmax = " (strip is_space2 l2));
  l3 ← getitem content (i1 + 3);
  Ok (Interval x0 x1
        (strip (is_char quote) (delete_all "text = " (strip is_space2 l3)))).

(** [while i1<i2: ...] for one tier; [acc] is [self.intervals[j]]. *)
Fixpoint intervals_loop (fuel : nat) (content : list string)
    (i1 i2 : nat) (acc : list interval) : result (list interval) :=
  if i2 <=? i1 then Ok acc else
  match fuel with
  | O => OutOfFuel
  | S fuel' =>
      l ← getitem content i1;
      if reIntervals_match l then
        iv ← read_interval content i1;
        intervals_loop fuel' content (i1 + 4) i2 (acc ++ [iv])
      else intervals_loop fuel' content (i1 + 1) i2 acc
  end.

(** One tier.  A bound that is [None] cannot reach this loop (the second
    loop raises first); Python 2 orders [None] below every integer, so the
    loop would not run. *)
Definition tier_intervals (content : list string) (r : nat * option nat)
  : result (list interval) :=
  match r.2 with
  | Some i2 => intervals_loop (i2 - r.1) content r.1 i2 []
  | None => Ok []
  end.

(** The third loop, over [j in range(self.size)]. *)
Fixpoint all_intervals (content : list string)
    (ranges : list (nat * option nat)) (js : list nat)
    (acc : list (list interval)) : result (list (list interval)) :=
  match js with
  | [] => Ok acc
  | j :: js' =>
      r ← getitem ranges j;
      ivs ← tier_intervals content r;
      all_intervals content ranges js' (acc ++ [ivs])
  end.

(** [range(n)] *)
Definition range (n : Z) : list nat := seq 0 (Z.to_nat n).

(** The first half of [parse]: the header, [self.size] and
    [self.itemRanges]. *)
Definition locate_tiers (content : list string)
  : result (Z * list (nat * option nat)) :=
  match findLineSW content "Object class" 0 None with
  | None => raise_msg Exception "Not a valid TextGrid file"
  | Some (_, l) =>
      if negb (String.eqb (strip is_space2 l) object_class_line)
      then raise_msg Exception "Not a valid TextGrid file"
      else
        match findLineSW content "size = " 0 None with
        | None => raise_msg Exception "Size can't be determined...'"
        | Some (i, l) =>
            sz ← int_of_string is_space2
                   (delete_all "size = " (strip is_space2 l));
            idx ← find_items content (range sz) (Some i) [];
            let idx := idx ++ [Some (length content)] in
            ranges ← item_ranges idx (range sz) [];
            Ok (sz, ranges)
        end
  end.

Definition parse (content : list string) : result textgrid :=
  '(sz, ranges) ← locate_tiers content;
  ivs ← all_intervals content ranges (range sz) [];
  Ok (Build sz ranges ivs).

(** ** Notions used to state the properties of the scan *)

(** [visits content a p acc]: the scan of a tier that starts on line [a]
    arrives on line [p], having appended the intervals [acc]. *)
Inductive visits (content : list string) (a : nat)
  : nat -> list interval -> Prop :=
| visits_start : visits content a a []
| visits_skip p acc l :
    visits content a p acc ->
    content !! p = Some l -> reIntervals_match l = false ->
    visits content a (p + 1) acc
| visits_read p acc l iv :
    visits content a p acc ->
    content !! p = Some l -> reIntervals_match l = true ->
    read_interval content p = Ok iv ->
    visits content a (p + 4) (acc ++ [iv]).

(** Line [p] carries an interval header. *)
Definition header_at (content : list string) (p : nat) : Prop :=
  exists l, content !! p = Some l /\ reIntervals_match l = true.

(** The header line is there and reads as expected. *)
Definition header_valid (content : list string) : Prop :=
  exists i l, findLineSW content "Object class" 0 None = Some (i, l) /\
              strip is_space2 l = object_class_line.

(** Every marker [item [j+1]:], for [j] in [js], is found after the line of
    the one before it; [i] is the line the search starts after. *)
Fixpoint markers_located (content : list string) (i : nat) (js : list nat)
  : bool :=
  match js with
  | [] => true
  | j :: js' =>
      match findLineSW content (item_marker (Z.of_nat j + 1)) (i + 1) None with
      | Some (i', _) => markers_located content i' js'
      | None => false
      end
  end.

(** The field lines that exist after the header on line [p] convert, as
    far as the reads go before one falls outside the file. *)
Definition fields_convert (content : list string) (p : nat) : Prop :=
  (forall l1, content !! (p + 1) = Some l1 ->
     is_Some (parse_float (delete_all "xmin = " (strip is_space2 l1)))) /\
  (forall l2, content !! (p + 2) = Some l2 ->
     is_Some (parse_float (delete_all "xmax = " (strip is_space2 l2)))).

(** The label as the specification words it: the keyword prefix removed,
    then one layer of surrounding quote characters. *)
Definition spec_unquote_once (s : string) : string :=
  let s1 := match s with
            | String c r => if Ascii.eqb c quote then r else s
            | EmptyString => s
            end in
  match last_char s1 with
  | Some c =>
      if Ascii.eqb c quote
      then String.substring 0 (String.length s1 - 1) s1
      else s1
  | None => s1
  end.

Definition spec_text_field (l : string) : string :=
  let s := strip is_space2 l in
  spec_unquote_once (match expect "text = " s with Some r => r | None => s end).

(** What a finished scan of the range from [a] to [b] returns: the
    intervals read at the headers it visited.  The headers visited lie in
    the range, at least four lines apart, and every other header line of
    the range is one of the three field lines of a visited header. *)
Definition scan_result (content : list string) (a b : nat) (ps : list nat)
    (tier : list interval) : Prop :=
  Forall2 (fun p iv => read_interval content p = Ok iv) ps tier /\
  Forall (fun p => a <= p < b /\ header_at content p) ps /\
  StronglySorted (fun p q => p + 4 <= q) ps /\
  forall k, a <= k < b -> header_at content k ->
            k ∈ ps \/ exists p, p ∈ ps /\ p < k <= p + 3.

(** ** [matlabDisp] and the script *)

Definition newline : string := String (Ascii.ascii_of_nat 10) EmptyString.

(** The strings of a list, one after the other. *)
Definition flatten (parts : list string) : string :=
  foldr String.append EmptyString parts.

Section Display.
(** ['%f' % x]: the digits of a float are not modelled. *)
Variable fmt_f : pyfloat -> string.

(** The two statements written for interval [i] of tier [j]. *)
Definition label_x (j i : nat) (iv : interval) : string :=
  "x.interval(" +:+ fmt_d (Z.of_nat j + 1) +:+ ").label("
    +:+ fmt_d (Z.of_nat i + 1) +:+ ").x = [" +:+ fmt_f (xmin iv) +:+ ", "
    +:+ fmt_f (xmax iv) +:+ "];" +:+ newline.

Definition label_text (j i : nat) (iv : interval) : string :=
  "x.interval(" +:+ fmt_d (Z.of_nat j + 1) +:+ ").label("
    +:+ fmt_d (Z.of_nat i + 1) +:+ ").text = '" +:+ text iv +:+ "';"
    +:+ newline.

(** [for i in range(len(self.intervals[j])): s += ...]; the interval
    [self.intervals[j][i]] is looked up once for the four uses the two
    statements make of it. *)
Fixpoint labels_loop (ivs : list (list interval)) (j : nat) (is_ : list nat)
    (s : string) : result string :=
  match is_ with
  | [] => Ok s
  | i :: is' =>
      tier ← getitem ivs j;
      iv ← getitem tier i;
      labels_loop ivs j is' (s +:+ label_x j i iv +:+ label_text j i iv)
  end.

(** [for j in range(self.size): ...] *)
Fixpoint tiers_loop (ivs : list (list interval)) (js : list nat) (s : string)
  : result string :=
  match js with
  | [] => Ok s
  | j :: js' =>
      let s := if j =? 0
               then s +:+ "x.interval(" +:+ fmt_d (Z.of_nat j + 1)
                      +:+ ") = struct();" +:+ newline
               else s in
      tier ← getitem ivs j;
      s ← labels_loop ivs j (seq 0 (length tier)) s;
      tiers_loop ivs js' s
  end.

(** [matlabDisp()]: the string [s] it hands to [print]. *)
Definition matlabDisp (tg : textgrid) : result string :=
  tiers_loop (intervals tg) (range (size tg)) ("x = struct();" +:+ newline).

(** The script: [tg = TextGrid(sys.argv[1])], which parses the lines of the
    file, then [tg.matlabDisp()]. *)
Definition script (content : list string) : result string :=
  tg ← parse content; matlabDisp tg.

(** The statements of the labels of tier [j], and of all the tiers. *)
Definition tier_statements (j : nat) (tier : list interval) : string :=
  flatten (imap (fun i iv => label_x j i iv +:+ label_text j i iv) tier).

Definition all_statements (ivs : list (list interval)) : string :=
  flatten (imap tier_statements ivs).

End Display.

(** ** Notions used to state how the tiers are located *)

(** Line [m] is the first line after line [p] that starts with the marker
    of item [k]. *)
Definition marker_after (content : list string) (k : Z) (p m : nat) : Prop :=
  exists l, findLineSW content (item_marker k) (p + 1) None = Some (m, l).

End WithFloat.
End TextGrid.

(** * get_formants.py *)

Module Formants.

(** The compiled patterns of the dictionary [re_]. *)
Inductive regex : Set :=
| Re_kw (keyword : string)   (* r'%s\s*=\s*(number)' % keyword *)
| Re_frames_array            (* r'frames\s*\[\s*\]:' *)
| Re_frames                  (* r'frames\s*\[([0-9]+)\]:' *)
| Re_formant_array           (* r'formant\s*\[\s*\]:' *)
| Re_formant.                (* r'formant\s*\[([0-9]+)\]:' *)

(** A match object, reduced to what the parser reads of it: [group(1)],
    absent when the pattern has no group. *)
Abbreviation match_object := (option string).

Definition match_array (name l : string) : option match_object :=
  r ← expect name l;
  r ← expect "[" (span is_space3 r).2;
  _ ← expect "]:" (span is_space3 r).2;
  Some None.

Definition match_indexed (name l : string) : option match_object :=
  r ← expect name l;
  r ← expect "[" (span is_space3 r).2;
  match span is_digit r with
  | (String d ds, r') => _ ← expect "]:" r'; Some (Some (String d ds))
  | _ => None
  end.

(** [pattern.match(l)]; [None] is Python's [None]. *)
Definition re_match (p : regex) (l : string) : option match_object :=
  match p with
  | Re_kw keyword =>
      r ← expect keyword l;
      r ← expect "=" (span is_space3 r).2;
      '(g, _) ← take_number (span is_space3 r).2;
      Some (Some g)
  | Re_frames_array => match_array "frames" l
  | Re_frames => match_indexed "frames" l
  | Re_formant_array => match_array "formant" l
  | Re_formant => match_indexed "formant" l
  end.

(** What [_find_line] accepts as [pattern]. *)
Inductive pattern : Set :=
| PRe (r : regex)
| PStr (s : string).

(** The attributes of the object that the parser reads and writes while it
    scans: [self.i] and [self.last_match] ([None] also stands for the
    attribute not being set yet: both make [.group] raise AttributeError). *)
Record cursor : Set := Cursor {
  self_i : nat;
  last_match : option match_object
}.

(** Computations over the cursor that may raise. *)
Definition M (A : Type) : Type := cursor -> result (A * cursor).

#[export] Instance M_ret : MRet M := fun A a st => Ok (a, st).
#[export] Instance M_bind : MBind M := fun A B k m st =>
  match m st with
  | Ok (a, st') => k a st'
  | Raise e => Raise e
  | OutOfFuel => OutOfFuel
  end.

Definition lift {A : Type} (r : result A) : M A := fun st =>
  match r with
  | Ok a => Ok (a, st)
  | Raise e => Raise e
  | OutOfFuel => OutOfFuel
  end.

Definition get_i : M nat := fun st => Ok (self_i st, st).
Definition set_i (k : nat) : M unit := fun st =>
  Ok (tt, Cursor k (last_match st)).

(** [self.last_match.group(1)] *)
Definition group1 : M string := fun st =>
  match last_match st with
  | None => raise_builtin AttributeError
  | Some None => raise_builtin IndexError
  | Some (Some g) => Ok (g, st)
  end.

(** The loop of [_find_line] over [k in range(i, self.n)], on the lines
    [ls = self.f[k:]]: the line found and its index, and the last value
    assigned to [self.last_match] ([lm] when nothing was assigned). *)
Fixpoint search (p : pattern) (ls : list string) (k : nat)
    (lm : option match_object)
  : option (nat * string) * option match_object :=
  match ls with
  | [] => (None, lm)
  | l :: ls' =>
      match p with
      | PRe r =>
          match re_match r l with
          | Some m => (Some (k, l), Some m)
          | None => search p ls' (S k) None
          end
      | PStr s =>
          if startswith s l then (Some (k, l), lm)
          else search p ls' (S k) lm
      end
  end.

(** [self._find_line(pattern, i)]: the line found, or [None] for [False]. *)
Definition _find_line (f : list string) (p : pattern) (i : option nat)
  : M (option string) := fun st =>
  let i := default (self_i st) i in
  match search p (drop i f) i (last_match st) with
  | (Some (k, l), lm) => Ok (Some l, Cursor k lm)
  | (None, lm) => Ok (None, Cursor (self_i st) lm)
  end.

(** Truth value of what [_find_line] returns. *)
Definition truthy (r : option string) : bool :=
  match r with
  | Some l => negb (String.eqb l EmptyString)
  | None => false
  end.

(** The test [_find_line] makes on a line. *)
Definition hits (p : pattern) (l : string) : bool :=
  match p with
  | PRe r => match re_match r l with Some _ => true | None => false end
  | PStr s => startswith s l
  end.

(** The keyword a pattern starts with. *)
Definition regex_keyword (r : regex) : string :=
  match r with
  | Re_kw k => k
  | Re_frames_array | Re_frames => "frames"
  | Re_formant_array | Re_formant => "formant"
  end.

(** The keywords of the scalar fields, in the order the parser reads them. *)
Definition scalar_keys : list string :=
  ["xmin"; "xmax"; "nx"; "dx"; "x1"; "maxnFormants"].

(** The cursor holds no match left over from a search that went past the
    last line. *)
Definition cursor_ok (f : list string) (st : cursor) : Prop :=
  self_i st < length f \/ last_match st = None.

(** A formant sub-record the parser has stored: the line of its marker, the
    index read there, and the position it was stored at. *)
Record stored : Set := Stored {
  st_line : nat;
  st_index : Z;
  st_slot : nat
}.

Definition stored_at (f : list string) (width : nat) (rec : stored) : Prop :=
  exists l g, f !! st_line rec = Some l /\
    re_match Re_formant l = Some (Some g) /\
    st_index rec = digits_value g /\
    slot_of width (st_index rec - 1) = Some (st_slot rec).

(** [self.data] once [from_praat_text] has filled it; [F] is the type of
    floats. *)
Record data_of (F : Type) : Type := Data {
  xmin : F;
  xmax : F;
  nx : Z;
  dx : F;
  x1 : F;
  maxnFormants : Z;
  t : list F;
  formants : list (list F);
  bandwidths : list (list F);
  intensity : list F
}.
Arguments Data {F} _ _ _ _ _ _ _ _ _ _.
Arguments xmin {F} _.
Arguments xmax {F} _.
Arguments nx {F} _.
Arguments dx {F} _.
Arguments x1 {F} _.
Arguments maxnFormants {F} _.
Arguments t {F} _.
Arguments formants {F} _.
Arguments bandwidths {F} _.
Arguments intensity {F} _.

(** The object: [self.data] is [None] until a parse has built it. *)
Record object_of (F : Type) : Type := Object {
  self_data : option (data_of F)
}.
Arguments Object {F} _.
Arguments self_data {F} _.

(** A call that leaves the program: [scipy.io.savemat(file_name, mdict,
    do_compression)]. *)
Inductive external_call_of (F : Type) : Type :=
| Savemat (file_name : string) (mdict : option (data_of F))
    (do_compression : bool).
Arguments Savemat {F} _ _ _.

(** The values the options of [call] take: a string, a float, an integer,
    [None]. *)
Inductive arg_of (F : Type) : Type :=
| AStr (s : string)
| AFloat (x : F)
| AInt (z : Z)
| ANone.
Arguments AStr {F} _.
Arguments AFloat {F} _.
Arguments AInt {F} _.
Arguments ANone {F}.

(** What [call] and [from_wav_file] do outside the program, in order. *)
Inductive action : Set :=
| WriteFile (name content : string)
| Popen (cmd : list string).

(** How [call] ends: with its four results, or with an exception. *)
Inductive call_outcome : Set :=
| Returned (filename_formant : string) (returncode : Z)
    (stdout stderr : string)
| NoFilename            (* ValueError('You need to provide a filename...') *)
| KeyError (k : string) (* args[k] for a key that is not there *)
| NotAString.           (* a file name or a method that is not a string *)

(** How [from_wav_file] ends: [from_praat_text] has run on the lines of
    the formant file, or the file could not be opened, or [call] raised. *)
Inductive wav_outcome_of (F : Type) : Type :=
| Parsed (r : result (data_of F))
| CannotOpen
| CallRaised (o : call_outcome).
Arguments Parsed {F} _.
Arguments CannotOpen {F}.
Arguments CallRaised {F} _.

(** The namespace [parser.parse_args()] returns: one attribute for each
    argument the parser declares.  The method and the export format are
    among the declared choices, hence strings; the four numbers are floats
    when given on the command line, the declared defaults otherwise. *)
Record namespace_of (F : Type) : Type := Namespace {
  ns_filename : string;
  ns_method : string;
  ns_timestep : arg_of F;
  ns_wlen : arg_of F;
  ns_maxfreq : arg_of F;
  ns_nformants : arg_of F;
  ns_export : string;
  ns_exportfile : option string
}.
Arguments Namespace {F} _ _ _ _ _ _ _ _.
Arguments ns_filename {F} _.
Arguments ns_method {F} _.
Arguments ns_timestep {F} _.
Arguments ns_wlen {F} _.
Arguments ns_maxfreq {F} _.
Arguments ns_nformants {F} _.
Arguments ns_export {F} _.
Arguments ns_exportfile {F} _.

(** What the command-line program does, in order: the actions of [call],
    a line printed, the call of [scipy.io.savemat], the data handed to
    [json] (to [json.dumps] for printing, or to [json.dump] with the name
    of the file). *)
Inductive effect_of (F : Type) : Type :=
| Did (a : action)
| Print (s : string)
| Export (c : external_call_of F)
| Json (file_name : option string) (d : data_of F).
Arguments Did {F} _.
Arguments Print {F} _.
Arguments Export {F} _.
Arguments Json {F} _ _.

(** How the program ends.  [ExtractionFailed] is the exception raised for
    a return code that is not zero. *)
Inductive main_outcome_of (F : Type) : Type :=
| Finished
| ExtractionFailed (stderr : string)
| CallStopped (o : call_outcome)
| CannotOpenFormant
| ParseStopped (r : result (data_of F))
| ExportStopped (r : result string).
Arguments Finished {F}.
Arguments ExtractionFailed {F} _.
Arguments CallStopped {F} _.
Arguments CannotOpenFormant {F}.
Arguments ParseStopped {F} _.
Arguments ExportStopped {F} _.

Section WithFloat.
Context `{FL : PyFloat}.

Definition data : Type := data_of pyfloat.
Definition arg : Type := arg_of pyfloat.
Definition namespace : Type := namespace_of pyfloat.
Definition effect : Type := effect_of pyfloat.
Definition main_outcome : Type := main_outcome_of pyfloat.
Definition formants_object : Type := object_of pyfloat.
Definition external_call : Type := external_call_of pyfloat.

(** [float(self.last_match.group(1))] *)
Definition float_group1 : M pyfloat :=
  g ← group1; lift (float_of_string g).

(** [int(self.last_match.group(1))] *)
Definition int_group1 : M Z :=
  g ← group1; lift (int_of_string is_space3 g).

(** [int(x)] for a float [x] *)
Definition int_of_float (x : pyfloat) : result Z :=
  match float_to_int x with
  | Some z => Ok z
  | None => raise_builtin OverflowError
  end.

(** [z * x] for an integer [z] and a float [x] *)
Definition int_mul_float (z : Z) (x : pyfloat) : result pyfloat :=
  match int_to_float z with
  | Some y => Ok (fmul y x)
  | None => raise_builtin OverflowError
  end.

(** [self._find_line(re_[k])] followed by
    [float(self.last_match.group(1))] *)
Definition find_field (f : list string) (k : string) : M pyfloat :=
  _ ← _find_line f (PRe (Re_kw k)) None;
  float_group1.

(** The loop [while self._find_line(re_['formant'])] of one frame. *)
Fixpoint formant_loop (fuel : nat) (f : list string) (next_frame : nat)
    (fs bs : list pyfloat) : M (list pyfloat * list pyfloat) :=
  match fuel with
  | O => fun _ => OutOfFuel
  | S fuel' =>
      r ← _find_line f (PRe Re_formant) None;
      if truthy r then
        idx ← int_group1;
        let formant_i := (idx - 1)%Z in
        i ← get_i;
        if next_frame <? i then
          _ ← set_i next_frame; mret (fs, bs)
        else
          frq ← find_field f "frequency";
          fs ← lift (setitem fs formant_i frq);
          bw ← find_field f "bandwidth";
          bs ← lift (setitem bs formant_i bw);
          formant_loop fuel' f next_frame fs bs
      else mret (fs, bs)
  end.

(** The loop [while self._find_line(re_['frames'])]. *)
Fixpoint frames_loop (fuel : nat) (f : list string) (d : data) : M data :=
  match fuel with
  | O => fun _ => OutOfFuel
  | S fuel' =>
      r ← _find_line f (PRe Re_frames) None;
      if truthy r then
        idx ← int_group1;
        let frame := (idx - 1)%Z in
        off ← lift (int_mul_float frame (dx d));
        let t' := t d ++ [fadd (x1 d) off] in
        v ← find_field f "intensity";
        let intensity' := intensity d ++ [v] in
        i_frame ← get_i;
        r ← _find_line f (PRe Re_frames) (Some (i_frame + 1));
        next_frame ← (if truthy r then get_i else mret (length f));
        _ ← set_i i_frame;
        _ ← _find_line f (PRe Re_formant_array) None;
        let width := Z.to_nat (maxnFormants d) in
        '(fs, bs) ← formant_loop (S (length f)) f next_frame
                      (replicate width nan) (replicate width nan);
        frames_loop fuel' f
          (Data (xmin d) (xmax d) (nx d) (dx d) (x1 d) (maxnFormants d)
             t' (formants d ++ [fs]) (bandwidths d ++ [bs]) intensity')
      else mret d
  end.

(** ** Notions used to state the properties of the parse *)

(** [x1 + (idx - 1) * dx], the time of the frame whose marker carries the
    index [idx]. *)
Definition frame_time (x1_ dx_ : pyfloat) (idx : Z) : result pyfloat :=
  off ← int_mul_float (idx - 1) dx_; Ok (fadd x1_ off).

(** A frame the parser has appended: the line of its marker, the index
    read there, what went into the four lists, and the formant sub-records
    stored. *)
Record frame_row : Type := Row {
  row_line : nat;
  row_index : Z;
  row_t : pyfloat;
  row_intensity : pyfloat;
  row_formants : list pyfloat;
  row_bandwidths : list pyfloat;
  row_stored : list stored
}.

Definition frame_row_ok (f : list string) (x1_ dx_ : pyfloat) (width : nat)
    (row : frame_row) : Prop :=
  (exists l g, f !! row_line row = Some l /\
     re_match Re_frames l = Some (Some g) /\
     row_index row = digits_value g) /\
  frame_time x1_ dx_ (row_index row) = Ok (row_t row) /\
  (exists p l g, row_line row < p /\ f !! p = Some l /\
     re_match (Re_kw "intensity") l = Some (Some g) /\
     parse_float g = Some (row_intensity row)) /\
  row_intensity row <> nan /\
  length (row_formants row) = width /\
  length (row_bandwidths row) = width /\
  Forall (fun rec => row_line row < st_line rec /\ stored_at f width rec)
         (row_stored row) /\
  (forall k, k < width -> k ∉ (st_slot <$> row_stored row) ->
     row_formants row !! k = Some nan /\ row_bandwidths row !! k = Some nan) /\
  (forall k, k ∈ (st_slot <$> row_stored row) ->
     exists x y, row_formants row !! k = Some x /\
                 row_bandwidths row !! k = Some y /\ x <> nan /\ y <> nan).

(** The data [d'] extend the data [d] by the frames [rows]. *)
Definition extends_by (d d' : data) (rows : list frame_row) : Prop :=
  xmin d' = xmin d /\ xmax d' = xmax d /\ nx d' = nx d /\ dx d' = dx d /\
  x1 d' = x1 d /\ maxnFormants d' = maxnFormants d /\
  t d' = t d ++ (row_t <$> rows) /\
  intensity d' = intensity d ++ (row_intensity <$> rows) /\
  formants d' = formants d ++ (row_formants <$> rows) /\
  bandwidths d' = bandwidths d ++ (row_bandwidths <$> rows).

(** Line [i] is the first line at or after line [from] on which the field
    [k] is found, and the number written there converts to [x]. *)
Definition field_at (f : list string) (k : string) (from i : nat)
    (x : pyfloat) : Prop :=
  from <= i /\
  (exists l g, f !! i = Some l /\
     re_match (Re_kw k) l = Some (Some g) /\ parse_float g = Some x) /\
  forall j l', from <= j < i -> f !! j = Some l' ->
               re_match (Re_kw k) l' = None.

(** Line [m] carries a frame marker. *)
Definition frame_marker_at (f : list string) (m : nat) : Prop :=
  exists l g, f !! m = Some l /\ re_match Re_frames l = Some (Some g).

(** A formant sub-record as the parser reads it: the line of its marker,
    the position its index denotes in the arrays, the lines of its
    frequency and of its bandwidth, and the two numbers. *)
Record reading : Type := Reading {
  rd_line : nat;
  rd_slot : nat;
  rd_frequency_line : nat;
  rd_frequency : pyfloat;
  rd_bandwidth_line : nat;
  rd_bandwidth : pyfloat
}.

(** The marker carries an index that denotes the position [rd_slot]; the
    frequency is read on the first line that carries one from the marker
    on, the bandwidth on the first line that carries one from there on. *)
Definition reading_ok (f : list string) (width : nat) (r : reading) : Prop :=
  (exists l g, f !! rd_line r = Some l /\
     re_match Re_formant l = Some (Some g) /\
     slot_of width (digits_value g - 1) = Some (rd_slot r)) /\
  field_at f "frequency" (rd_line r) (rd_frequency_line r) (rd_frequency r) /\
  field_at f "bandwidth" (rd_frequency_line r) (rd_bandwidth_line r)
    (rd_bandwidth r).

(** The array [init] after the numbers [sel r] of the readings have been
    stored at their positions, in order: a later reading overwrites an
    earlier one at the same position. *)
Definition store_all (sel : reading -> pyfloat) (rds : list reading)
    (init : list pyfloat) : list pyfloat :=
  foldl (fun acc r => <[rd_slot r := sel r]> acc) init rds.

(** A frame with the lines it was read from: the line of its marker, the
    line of its intensity, the bound [next_frame] the parser computes for
    it, and the formant sub-records read for it. *)
Record frame_window : Type := Window {
  w_line : nat;
  w_intensity_line : nat;
  w_next : nat;
  w_intensity : pyfloat;
  w_readings : list reading
}.

(** The intensity is read on the first line that carries one from the
    marker on; the bound is the first frame marker after that line, or the
    end of the file; the sub-records read have their markers between the
    two. *)
Definition frame_window_ok (f : list string) (width : nat)
    (w : frame_window) : Prop :=
  frame_marker_at f (w_line w) /\
  field_at f "intensity" (w_line w) (w_intensity_line w) (w_intensity w) /\
  w_intensity_line w < w_next w <= length f /\
  (forall j l', w_intensity_line w < j < w_next w -> f !! j = Some l' ->
                re_match Re_frames l' = None) /\
  (w_next w < length f -> frame_marker_at f (w_next w)) /\
  Forall (fun r => w_intensity_line w < rd_line r < w_next w /\
                   reading_ok f width r) (w_readings w).

(** The two arrays of a frame: NaN everywhere, then the sub-records
    stored. *)
Definition w_formants (width : nat) (w : frame_window) : list pyfloat :=
  store_all rd_frequency (w_readings w) (replicate width nan).

Definition w_bandwidths (width : nat) (w : frame_window) : list pyfloat :=
  store_all rd_bandwidth (w_readings w) (replicate width nan).

(** The line [l'] is the line [l] with whitespace added at its ends. *)
Definition padded (l l' : string) : Prop :=
  exists a b, all_chars is_space3 a = true /\ all_chars is_space3 b = true /\
              l' = a +:+ l +:+ b.

(** ** Reports listed by their records

    A report as its writer sees it: six scalars, then frames, each with the
    index of its marker, its intensity and its formants.  The numbers are
    kept as written. *)

Record formant_record : Set := Formant {
  fr_index : string;
  fr_frequency : string;
  fr_bandwidth : string
}.

Record frame_record : Set := Frame {
  fm_index : string;
  fm_intensity : string;
  fm_formants : list formant_record
}.

Record report_header : Set := Header {
  h_xmin : string;
  h_xmax : string;
  h_nx : string;
  h_dx : string;
  h_x1 : string;
  h_maxnFormants : string
}.

Definition wf_formant (r : formant_record) : Prop :=
  all_digits (fr_index r) = true /\
  number_literal (fr_frequency r) = true /\
  number_literal (fr_bandwidth r) = true.

Definition wf_frame (fr : frame_record) : Prop :=
  all_digits (fm_index fr) = true /\
  number_literal (fm_intensity fr) = true /\
  Forall wf_formant (fm_formants fr).

Definition wf_header (h : report_header) : Prop :=
  number_literal (h_xmin h) = true /\ number_literal (h_xmax h) = true /\
  number_literal (h_nx h) = true /\ number_literal (h_dx h) = true /\
  number_literal (h_x1 h) = true /\ number_literal (h_maxnFormants h) = true.

(** A line on which a pattern finds nothing; a line that opens neither a
    frame nor a formant. *)
Definition no_match (r : regex) (l : string) : Prop := re_match r l = None.

Definition quiet_line (l : string) : Prop :=
  re_match Re_frames l = None /\ re_match Re_formant l = None.

(** The numbers of a report are in range: the two counts of the header are
    the integers [nx_] and [maxn_], the index of every frame converts to a
    float, and the index of every formant names a slot of the arrays of
    its frame.  Nothing relates [nx_] to the number of frame records. *)
Definition formant_in_range (width : nat) (r : formant_record) : Prop :=
  is_Some (slot_of width (digits_value (fr_index r) - 1)).

Definition frame_in_range (width : nat) (fr : frame_record) : Prop :=
  is_Some (int_to_float (digits_value (fm_index fr) - 1)) /\
  Forall (formant_in_range width) (fm_formants fr).

Definition count_reads (s : string) (z : Z) : Prop :=
  exists x, parse_float s = Some x /\ float_to_int x = Some z.

Definition report_in_range (h : report_header) (frs : list frame_record)
    (nx_ maxn_ : Z) : Prop :=
  count_reads (h_nx h) nx_ /\ count_reads (h_maxnFormants h) maxn_ /\
  Forall (frame_in_range (Z.to_nat maxn_)) frs.

(** What the records store, computed without any text: the operations of
    the parser on the numbers, in the order it performs them. *)
Fixpoint eval_formants (recs : list formant_record) (fs bs : list pyfloat)
  : result (list pyfloat * list pyfloat) :=
  match recs with
  | [] => Ok (fs, bs)
  | r :: recs' =>
      let formant_i := (digits_value (fr_index r) - 1)%Z in
      frq ← float_of_string (fr_frequency r);
      fs ← setitem fs formant_i frq;
      bw ← float_of_string (fr_bandwidth r);
      bs ← setitem bs formant_i bw;
      eval_formants recs' fs bs
  end.

Fixpoint eval_frames (d : data) (frs : list frame_record) : result data :=
  match frs with
  | [] => Ok d
  | fr :: frs' =>
      off ← int_mul_float (digits_value (fm_index fr) - 1) (dx d);
      v ← float_of_string (fm_intensity fr);
      let width := Z.to_nat (maxnFormants d) in
      '(fs, bs) ← eval_formants (fm_formants fr)
                    (replicate width nan) (replicate width nan);
      eval_frames
        (Data (xmin d) (xmax d) (nx d) (dx d) (x1 d) (maxnFormants d)
           (t d ++ [fadd (x1 d) off]) (formants d ++ [fs])
           (bandwidths d ++ [bs]) (intensity d ++ [v]))
        frs'
  end.

Definition eval_report (h : report_header) (frs : list frame_record)
  : result data :=
  xmin_ ← float_of_string (h_xmin h);
  xmax_ ← float_of_string (h_xmax h);
  nx_ ← float_of_string (h_nx h);
  dx_ ← float_of_string (h_dx h);
  x1_ ← float_of_string (h_x1 h);
  maxn_ ← float_of_string (h_maxnFormants h);
  nx_ ← int_of_float nx_;
  maxn_ ← int_of_float maxn_;
  eval_frames (Data xmin_ xmax_ nx_ dx_ x1_ maxn_ [] [] [] []) frs.

Definition file_type_line : string :=
  "File type = " +:+ String quote "ooTextFile" +:+ String quote EmptyString.
Definition formant_class_line : string :=
  "Object class = " +:+ String quote "Formant 2" +:+ String quote EmptyString.

(** The lines of a report, blanks at both ends removed. *)
Definition formant_lines (r : formant_record) : list string :=
  [ "formant [" +:+ fr_index r +:+ "]:";
    "frequency = " +:+ fr_frequency r;
    "bandwidth = " +:+ fr_bandwidth r ].

Definition frame_lines (fr : frame_record) : list string :=
  [ "frames [" +:+ fm_index fr +:+ "]:";
    "intensity = " +:+ fm_intensity fr;
    "nFormants = " +:+ fmt_d (Z.of_nat (length (fm_formants fr)));
    "formant []:" ]
  ++ concat (formant_lines <$> fm_formants fr).

Definition header_lines (h : report_header) : list string :=
  [ file_type_line; formant_class_line; EmptyString;
    "xmin = " +:+ h_xmin h; "xmax = " +:+ h_xmax h; "nx = " +:+ h_nx h;
    "dx = " +:+ h_dx h; "x1 = " +:+ h_x1 h;
    "maxnFormants = " +:+ h_maxnFormants h;
    "frames []:" ].

Definition report_lines (h : report_header) (frs : list frame_record)
  : list string :=
  header_lines h ++ concat (frame_lines <$> frs).

(** The six scalar fields, searched in this order, then [int(...)] of [nx]
    and of [maxnFormants]; the four lists start empty. *)
Definition read_scalars (f : list string) : M data :=
  xmin_ ← find_field f "xmin";
  xmax_ ← find_field f "xmax";
  nx_ ← find_field f "nx";
  dx_ ← find_field f "dx";
  x1_ ← find_field f "x1";
  maxn_ ← find_field f "maxnFormants";
  nx_ ← lift (int_of_float nx_);
  maxn_ ← lift (int_of_float maxn_);
  mret (Data xmin_ xmax_ nx_ dx_ x1_ maxn_ [] [] [] []).

(** The scan, from [self.i = 2] on. *)
Definition scan_report (f : list string) : M data :=
  d ← read_scalars f;
  _ ← _find_line f (PRe Re_frames_array) None;
  frames_loop (S (length f)) f d.

(** The body of [from_praat_text] on [self.f], the stripped lines. *)
Definition parse_lines (f : list string) : result data :=
  f0 ← getitem f 0;
  if negb (String.eqb f0 file_type_line) then
    raise_msg ValueError
      ("The file isn't a valid Praat Text file (header: '" +:+ f0 +:+ "')")
  else
  f1 ← getitem f 1;
  if negb (String.eqb f1 formant_class_line) then
    raise_msg ValueError
      ("The file isn't a valid Praat Formant 2 file (header: '" +:+ f0 +:+ "')")
  else
  '(d, _) ← scan_report f (Cursor 2 None);
  Ok d.

(** [from_praat_text] on the lines of the file:
    [self.f = [x.strip() for x in open(filename, 'r')]]. *)
Definition from_praat_text (lines : list string) : result data :=
  parse_lines (strip is_space3 <$> lines).

(** ** The exports *)

(** [Formants()] *)
Definition init : formants_object := Object None.

Section Exports.
(** [str(x)] of a float and of an integer: the built-in conversions, whose
    digits are not modelled. *)
Variable str_float : pyfloat -> string.
Variable str_int : Z -> string.

(** [sep.join(parts)] *)
Fixpoint join (sep : string) (parts : list string) : string :=
  match parts with
  | [] => EmptyString
  | [p] => p
  | p :: ps => p +:+ sep +:+ join sep ps
  end.

(** The values of [self.data]. *)
Inductive value : Type :=
| VFloat (x : pyfloat)
| VInt (z : Z)
| VList (xs : list pyfloat)
| VTable (rows : list (list pyfloat)).

(** [self.data.items()], in insertion order. *)
Definition items (d : data) : list (string * value) :=
  [("xmin", VFloat (xmin d)); ("xmax", VFloat (xmax d)); ("nx", VInt (nx d));
   ("dx", VFloat (dx d)); ("x1", VFloat (x1 d));
   ("maxnFormants", VInt (maxnFormants d));
   ("t", VList (t d)); ("formants", VTable (formants d));
   ("bandwidths", VTable (bandwidths d)); ("intensity", VList (intensity d))].

(** [_list_to_matlab_string(a)]; [a[0]] raises IndexError on an empty list. *)
Definition _list_to_matlab_string (a : value) : result string :=
  match a with
  | VFloat x => Ok (str_float x)
  | VInt z => Ok (str_int z)
  | VList [] | VTable [] => raise_builtin IndexError
  | VList xs => Ok ("[" +:+ join "," (str_float <$> xs) +:+ "]")
  | VTable rows =>
      Ok ("[" +:+ join ";" ((fun x => join "," (str_float <$> x)) <$> rows)
          +:+ "]")
  end.

Fixpoint literal_fields (kvs : list (string * value)) (s : list string)
  : result (list string) :=
  match kvs with
  | [] => Ok s
  | (k, v) :: kvs' =>
      a ← _list_to_matlab_string v;
      literal_fields kvs' (s ++ ["'" +:+ k +:+ "'"; a])
  end.

Definition to_matlab_literal (self : formants_object) : result string :=
  match self_data self with
  | None =>
      raise_msg ValueError
        "Trying to export an empty formant data set. Call an import method first (e.g. from_praat_text)."
  | Some d =>
      s ← literal_fields (items d) [];
      Ok ("struct(" +:+ join "," s +:+ ")")
  end.

(** [to_matlab_mat] hands [self.data] to [scipy.io.savemat] as it is. *)
Definition to_matlab_mat (self : formants_object) (mat_filename : string)
  : result external_call :=
  Ok (Savemat mat_filename (self_data self) true).

End Exports.

(** ** Running Praat: [call] and [from_wav_file] *)

(** A dictionary with string keys, in insertion order: [d[k]] and
    [k in d] by [dict_get], [d[k] = v] by [dict_set]. *)
Definition dict : Type := list (string * arg).
Definition wav_outcome : Type := wav_outcome_of pyfloat.

Fixpoint dict_get (k : string) (d : dict) : option arg :=
  match d with
  | [] => None
  | (k', v) :: d' => if String.eqb k' k then Some v else dict_get k d'
  end.

Fixpoint dict_set (k : string) (v : arg) (d : dict) : dict :=
  match d with
  | [] => [(k, v)]
  | (k', v') :: d' =>
      if String.eqb k' k then (k, v) :: d' else (k', v') :: dict_set k v d'
  end.

(** The float a decimal literal of the source denotes. *)
Definition float_literal (s : string) : pyfloat := default nan (parse_float s).

(** [DEFAULT_VALUES = vars(parser.parse_args(['']))]: one entry for each
    argument the parser declares, in the order of the declarations, the
    file name being the empty string given and every option its declared
    default.  (The defaults 5500 and 5 are integers: [argparse] applies
    [type] to defaults that are strings only.) *)
Definition DEFAULT_VALUES : dict :=
  [ ("filename", AStr EmptyString);
    ("method", AStr "burg");
    ("timestep", AFloat (float_literal "0.00625"));
    ("wlen", AFloat (float_literal "0.025"));
    ("maxfreq", AInt 5500);
    ("nformants", AInt 5);
    ("export", AStr "none");
    ("exportfile", ANone) ].

Section Praat.
(** The constants of the module and the world around it: [praat_path],
    [praat_script], [__file__], [os.path.splitext], [str] on a float, what
    the process started with a command returns, and the lines of a file
    ([None] when it cannot be opened).  Writing the script file and
    starting the process are taken to succeed. *)
Variable praat_path : string.
Variable praat_script : string.
Variable module_file : string.
Variable splitext : string -> string * string.
Variable str_float : pyfloat -> string.
Variable run : list string -> Z * string * string.
Variable read_lines : string -> option (list string).

(** [str(v)] *)
Definition str (v : arg) : string :=
  match v with
  | AStr s => s
  | AFloat x => str_float x
  | AInt z => fmt_d z
  | ANone => "None"
  end.

(** [__file__.replace('.py', '.praat')] *)
Definition praat_script_name : string :=
  replace_all ".py" ".praat" module_file.

(** The list [cmd]; its elements are evaluated from left to right, so the
    first option that is missing is the one KeyError names. *)
Definition command (args : dict) (filename filename_formant : string)
  : call_outcome + list string :=
  match dict_get "method" args with
  | None => inl (KeyError "method")
  | Some method =>
  match dict_get "timestep" args with
  | None => inl (KeyError "timestep")
  | Some timestep =>
  match dict_get "nformants" args with
  | None => inl (KeyError "nformants")
  | Some nformants =>
  match dict_get "maxfreq" args with
  | None => inl (KeyError "maxfreq")
  | Some maxfreq =>
  match dict_get "wlen" args with
  | None => inl (KeyError "wlen")
  | Some wlen =>
      match method with
      | AStr m =>
          inr [ praat_path; "--run"; praat_script_name; filename;
                filename_formant; m; str timestep; str nformants;
                str maxfreq; str wlen ]
      | _ => inl NotAString
      end
  end end end end end.

(** [call(args)] for a dictionary [args]. *)
Definition call (args : dict) : list action * call_outcome :=
  match dict_get "filename" args with
  | None => ([], NoFilename)
  | Some (AStr filename) =>
      let filename_formant := (splitext filename).1 +:+ ".formant" in
      let written := [WriteFile praat_script_name praat_script] in
      match command args filename filename_formant with
      | inl o => (written, o)
      | inr cmd =>
          let '(c, o, e) := run cmd in
          (written ++ [Popen cmd], Returned filename_formant c o e)
      end
  | Some _ => ([], NotAString)
  end.

(** The dictionary [from_wav_file] hands to [call]: the keyword arguments,
    the file name, and the defaults of the options not given. *)
Definition with_defaults (args : dict) : dict :=
  foldl (fun args kv =>
           match dict_get kv.1 args with
           | Some _ => args
           | None => dict_set kv.1 kv.2 args
           end) args DEFAULT_VALUES.

(** [from_wav_file(wav_filename, **kwargs)] *)
Definition from_wav_file (wav_filename : arg) (kwargs : dict)
  : list action * wav_outcome :=
  let args := with_defaults (dict_set "filename" wav_filename kwargs) in
  match call args with
  | (done_, Returned filename_formant _ _ _) =>
      match read_lines filename_formant with
      | Some lines => (done_, Parsed (from_praat_text lines))
      | None => (done_, CannotOpen)
      end
  | (done_, o) => (done_, CallRaised o)
  end.

(** [vars(args)] for the namespace of the command line. *)
Definition vars (ns : namespace) : dict :=
  [ ("filename", AStr (ns_filename ns));
    ("method", AStr (ns_method ns));
    ("timestep", ns_timestep ns);
    ("wlen", ns_wlen ns);
    ("maxfreq", ns_maxfreq ns);
    ("nformants", ns_nformants ns);
    ("export", AStr (ns_export ns));
    ("exportfile", match ns_exportfile ns with
                   | Some name => AStr name
                   | None => ANone
                   end) ].

(** The exports once the report is parsed, by the format asked for. *)
Definition export_parsed (ns : namespace) (filename_formant : string)
    (d : data) : list effect * main_outcome :=
  let f := Object (Some d) in
  if String.eqb (ns_export ns) "matlabliteral" then
    match to_matlab_literal str_float fmt_d f with
    | Ok s => ([Print s], Finished)
    | r => ([], ExportStopped r)
    end
  else if String.eqb (ns_export ns) "matfile" then
    let exportfile :=
      default (filename_formant +:+ ".mat") (ns_exportfile ns) in
    match to_matlab_mat f exportfile with
    | Ok c => ([Export c; Print exportfile], Finished)
    | Raise e => ([], ExportStopped (Raise e))
    | OutOfFuel => ([], ExportStopped OutOfFuel)
    end
  else if String.eqb (ns_export ns) "json" then
    ([Json None d], Finished)
  else if String.eqb (ns_export ns) "jsonfile" then
    let exportfile :=
      default (filename_formant +:+ ".json") (ns_exportfile ns) in
    ([Json (Some exportfile) d], Finished)
  else ([], Finished).

(** The program run from the command line, from the namespace on.  What
    [json] does with the data, and what is printed after it, is left
    out. *)
Definition main (ns : namespace) : list effect * main_outcome :=
  let '(done_, o) := call (vars ns) in
  match o with
  | Returned filename_formant c _ e =>
      if negb (c =? 0)%Z then (Did <$> done_, ExtractionFailed e)
      else if String.eqb (ns_export ns) "none"
      then ((Did <$> done_) ++ [Print filename_formant], Finished)
      else
        match read_lines filename_formant with
        | None => (Did <$> done_, CannotOpenFormant)
        | Some lines =>
            match from_praat_text lines with
            | Ok d =>
                let '(out, o') := export_parsed ns filename_formant d in
                ((Did <$> done_) ++ out, o')
            | r => (Did <$> done_, ParseStopped r)
            end
        end
  | _ => (Did <$> done_, CallStopped o)
  end.

(** The option [k] as [from_wav_file] settles it. *)
Definition option_value (kwargs : dict) (k : string) : option arg :=
  match dict_get k kwargs with
  | Some v => Some v
  | None => dict_get k DEFAULT_VALUES
  end.

End Praat.

(** The options [call] reads after the file name, in the order it reads
    them. *)
Definition option_keys : list string :=
  ["method"; "timestep"; "nformants"; "maxfreq"; "wlen"].

End WithFloat.
End Formants.

(** * A float implementation for concrete runs

    [exact_float] keeps a float as the exact rational it denotes, in lowest
    terms, and adds and multiplies exactly.  It agrees with binary64 as long
    as every value involved is a binary fraction of at most 53 bits, which
    is the case in all examples below.  Of the syntax of [float(s)] it
    accepts an optional sign followed by a decimal literal of the form of
    [take_number]; the examples use no other spelling. *)

Inductive xfloat : Set :=
| XNum (q : Q)
| XNaN.

(** The exponent part [e[+-]digits], or nothing. *)
Definition exponent_value (ex : string) : Z :=
  match ex with
  | String _ r =>
      let '(sg, ds) := take_sign r in
      if String.eqb sg "-" then (- digits_value ds)%Z else digits_value ds
  | EmptyString => 0%Z
  end.

Definition number_value (s : string) : Q :=
  let '(ip, r) := span is_digit s in
  let '(fr, r1) := take_fraction r in
  let '(ex, _) := take_exponent r1 in
  let fd := match fr with String _ ds => ds | EmptyString => EmptyString end in
  let m := digits_value (ip +:+ fd) in
  let e := (exponent_value ex - Z.of_nat (String.length fd))%Z in
  Qred (inject_Z m * Qpower (inject_Z 10) e).

Definition exact_parse_float (s : string) : option xfloat :=
  if number_literal s then Some (XNum (number_value s))
  else
    let '(sg, body) := take_sign (strip is_space3 s) in
    if number_literal body then
      Some (XNum (if String.eqb sg "-" then Qred (- number_value body)
                  else number_value body))
    else None.

Definition exact_float_to_int (x : xfloat) : option Z :=
  match x with
  | XNum q => Some (Z.quot (Qnum q) (Zpos (Qden q)))
  | XNaN => None
  end.

Definition exact_fadd (x y : xfloat) : xfloat :=
  match x, y with
  | XNum a, XNum b => XNum (Qred (a + b))
  | _, _ => XNaN
  end.

Definition exact_fmul (x y : xfloat) : xfloat :=
  match x, y with
  | XNum a, XNum b => XNum (Qred (a * b))
  | _, _ => XNaN
  end.

Lemma exact_parse_float_number (s : string) :
  number_literal s = true ->
  exists x, exact_parse_float s = Some x /\ x <> XNaN.
Proof.
  intros Hs. unfold exact_parse_float. rewrite Hs.
  eexists. split; [reflexivity | discriminate].
Qed.

Lemma exact_int_to_float_number (z : Z) (x : xfloat) :
  Some (XNum (inject_Z z)) = Some x -> x <> XNaN.
Proof. intros [= <-]. discriminate. Qed.

#[global] Instance exact_float : PyFloat := {|
  pyfloat := xfloat;
  nan := XNaN;
  parse_float := exact_parse_float;
  float_to_int := exact_float_to_int;
  int_to_float := fun z => Some (XNum (inject_Z z));
  fadd := exact_fadd;
  fmul := exact_fmul;
  parse_float_number := exact_parse_float_number;
  int_to_float_number := exact_int_to_float_number
|}.

(** * Files used in the examples *)

Module Fixtures.

Definition nl : string := String (Ascii.ascii_of_nat 10) EmptyString.

(** [s] between double quotes *)
Definition quoted (s : string) : string :=
  String quote s +:+ String quote EmptyString.

Definition tg_prologue (size_ : string) : list string := [
  "File type = " +:+ quoted "ooTextFile" +:+ nl;
  "Object class = " +:+ quoted "TextGrid" +:+ nl;
  nl;
  "xmin = 0 " +:+ nl;
  "xmax = 1.25 " +:+ nl;
  "tiers? <exists> " +:+ nl;
  "size = " +:+ size_ +:+ " " +:+ nl;
  "item []: " +:+ nl ].

Definition tg_tier_head (k : string) : list string := [
  "    item [" +:+ k +:+ "]:" +:+ nl;
  "        class = " +:+ quoted "IntervalTier" +:+ " " +:+ nl;
  "        name = " +:+ quoted "phones" +:+ " " +:+ nl;
  "        xmin = 0 " +:+ nl;
  "        xmax = 1.25 " +:+ nl;
  "        intervals: size = 1 " +:+ nl ].

Definition tg_interval (k lo hi label : string) : list string := [
  "        intervals [" +:+ k +:+ "]:" +:+ nl;
  "            xmin = " +:+ lo +:+ " " +:+ nl;
  "            xmax = " +:+ hi +:+ " " +:+ nl;
  "            text = " +:+ label +:+ " " +:+ nl ].

(** One tier with the single interval from 0.000000 to 1.250000, labelled
    ah. *)
Definition tg_one_interval : list string :=
  tg_prologue "1" ++ tg_tier_head "1"
  ++ tg_interval "1" "0.000000" "1.250000" (quoted "ah").

(** One tier whose two intervals are numbered 5 and 2, in that order. *)
Definition tg_out_of_order : list string :=
  tg_prologue "1" ++ tg_tier_head "1"
  ++ tg_interval "5" "0" "0.5" (quoted "first")
  ++ tg_interval "2" "0.5" "1.25" (quoted "second").

(** A label that itself begins and ends with a quote character. *)
Definition tg_quoted_label : list string :=
  tg_prologue "1" ++ tg_tier_head "1"
  ++ tg_interval "1" "0" "1.25" (quoted (quoted "ah")).

(** A declared size of -1. *)
Definition tg_negative_size : list string := tg_prologue "-1".

(** The header says IntervalTier. *)
Definition tg_wrong_class : list string :=
  <[1 := "Object class = " +:+ quoted "IntervalTier" +:+ nl]> tg_one_interval.

(** No line starts with Object class. *)
Definition tg_no_header : list string := drop 2 tg_one_interval.

(** No line starts with the size keyword. *)
Definition tg_no_size : list string := take 6 tg_one_interval.

(** A size that is not a number. *)
Definition tg_bad_size : list string := tg_prologue "many".

(** Two tiers declared, one present. *)
Definition tg_missing_tier : list string :=
  tg_prologue "2" ++ tg_tier_head "1"
  ++ tg_interval "1" "0" "1.25" (quoted "ah").

(** The file ends two lines after an interval header. *)
Definition tg_truncated : list string :=
  tg_prologue "1" ++ tg_tier_head "1"
  ++ take 3 (tg_interval "1" "0" "1.25" (quoted "ah")).

(** The last line of the file has the shape of an interval header, and is
    the text line of the interval before it. *)
Definition tg_header_as_text : list string :=
  tg_prologue "1" ++ tg_tier_head "1"
  ++ [ "        intervals [1]:" +:+ nl;
       "            xmin = 0 " +:+ nl;
       "            xmax = 1.25 " +:+ nl;
       "        intervals [2]:" +:+ nl ].

(** The marker of the second tier stands three lines after the last
    interval header of the first, where the text line is expected. *)
Definition tg_cross_tier : list string :=
  tg_prologue "2" ++ tg_tier_head "1"
  ++ [ "        intervals [1]:" +:+ nl;
       "            xmin = 0 " +:+ nl;
       "            xmax = 1.25 " +:+ nl ]
  ++ tg_tier_head "2"
  ++ tg_interval "1" "0" "1.25" (quoted "ah").

(** What the parser returns on some of them. *)
Definition tg_one_interval_parsed : TextGrid.textgrid (FL := exact_float) :=
  TextGrid.Build 1 [(9, Some 18)]
    [[TextGrid.Interval (XNum 0) (XNum (5 # 4)) "ah"]].

Definition tg_out_of_order_parsed : TextGrid.textgrid (FL := exact_float) :=
  TextGrid.Build 1 [(9, Some 22)]
    [[TextGrid.Interval (XNum 0) (XNum (1 # 2)) "first";
      TextGrid.Interval (XNum (1 # 2)) (XNum (5 # 4)) "second"]].

Definition tg_header_as_text_parsed : TextGrid.textgrid (FL := exact_float) :=
  TextGrid.Build 1 [(9, Some 18)]
    [[TextGrid.Interval (XNum 0) (XNum (5 # 4)) "intervals [2]:"]].

(** ** Formant reports *)

(** A line as the file has it: indented, with a blank and a newline at its
    end. *)
Definition fm_raw (lines : list string) : list string :=
  (fun l => "    " +:+ l +:+ " " +:+ nl) <$> lines.

(** The header of a report declaring [nx_] frames of [maxn] formants,
    without the marker of the frame section. *)
Definition fm_scalars (nx_ maxn : string) : list string := [
  "File type = " +:+ quoted "ooTextFile";
  "Object class = " +:+ quoted "Formant 2";
  EmptyString;
  "xmin = 0";
  "xmax = 1.5";
  "nx = " +:+ nx_;
  "dx = 0.005";
  "x1 = 0.0125";
  "maxnFormants = " +:+ maxn ].

Definition fm_frame (idx level : string) : list string := [
  "frames [" +:+ idx +:+ "]:";
  "intensity = " +:+ level;
  "nFormants = 1";
  "formant []:" ].

Definition fm_formant (idx frq bw : string) : list string := [
  "formant [" +:+ idx +:+ "]:";
  "frequency = " +:+ frq;
  "bandwidth = " +:+ bw ].

(** Two frames numbered 1 and 2, two formants each. *)
Definition fm_two_frames : list string :=
  fm_raw (fm_scalars "2" "2" ++ ["frames []:"]
          ++ fm_frame "1" "0.5"
          ++ fm_formant "1" "500" "50" ++ fm_formant "2" "1500" "150"
          ++ fm_frame "2" "0.25"
          ++ fm_formant "1" "510" "60" ++ fm_formant "2" "1510" "160").

(** A single frame, whose marker carries the index 5. *)
Definition fm_frame_five : list string :=
  fm_raw (fm_scalars "1" "2" ++ ["frames []:"]
          ++ fm_frame "5" "0.5" ++ fm_formant "1" "500" "50").

(** Two frames, numbered 2 then 1. *)
Definition fm_frames_swapped : list string :=
  fm_raw (fm_scalars "2" "2" ++ ["frames []:"]
          ++ fm_frame "2" "0.5" ++ fm_formant "1" "500" "50"
          ++ fm_frame "1" "0.25" ++ fm_formant "1" "510" "60").

(** One frame of width 5 with the single sub-record [formant [3]:]. *)
Definition fm_single_formant : list string :=
  fm_raw (fm_scalars "1" "5" ++ ["frames []:"]
          ++ fm_frame "1" "0.5" ++ fm_formant "3" "2500" "250").

(** One frame of width 5 with a sub-record [formant [6]:], and one with a
    sub-record [formant [0]:]. *)
Definition fm_formant_six : list string :=
  fm_raw (fm_scalars "1" "5" ++ ["frames []:"]
          ++ fm_frame "1" "0.5" ++ fm_formant "6" "5500" "550").

Definition fm_formant_zero : list string :=
  fm_raw (fm_scalars "1" "5" ++ ["frames []:"]
          ++ fm_frame "1" "0.5" ++ fm_formant "0" "5500" "550").

(** Wrong first line; wrong second line; no [dx]; no marker of the frame
    section; no marker of the formant section. *)
Definition fm_wrong_file_type : list string :=
  fm_raw ["File type = " +:+ quoted "ooBinaryFile";
          "Object class = " +:+ quoted "Formant 2"].

Definition fm_wrong_class : list string :=
  fm_raw ["File type = " +:+ quoted "ooTextFile";
          "Object class = " +:+ quoted "Pitch 1"].

Definition fm_no_dx : list string :=
  fm_raw ["File type = " +:+ quoted "ooTextFile";
          "Object class = " +:+ quoted "Formant 2";
          EmptyString; "xmin = 0"; "xmax = 1.5"; "nx = 1"; "x1 = 0.0125";
          "maxnFormants = 2"; "frames []:"].

Definition fm_no_frames_marker : list string :=
  fm_raw (fm_scalars "1" "2"
          ++ fm_frame "1" "0.5" ++ fm_formant "1" "500" "50").

Definition fm_no_sections : list string :=
  fm_raw (fm_scalars "1" "2"
          ++ ["frames [1]:"; "intensity = 0.5"]
          ++ fm_formant "1" "500" "50").

(** A report declaring three frames and holding two. *)
Definition fm_truncated_header : Formants.report_header :=
  Formants.Header "0" "1.5" "3" "0.005" "0.0125" "2".

Definition fm_truncated_frames : list Formants.frame_record := [
  Formants.Frame "1" "0.5"
    [Formants.Formant "1" "500" "50"; Formants.Formant "2" "1500" "150"];
  Formants.Frame "2" "0.25"
    [Formants.Formant "1" "510" "60"] ].

Definition fm_truncated : list string :=
  fm_raw (Formants.report_lines fm_truncated_header fm_truncated_frames).

(** Reports declaring three frames that stop inside the second: after its
    marker, after the marker of its first formant, after the frequency of
    that formant. *)
Definition fm_first_frame : list string :=
  fm_scalars "3" "2" ++ ["frames []:"]
  ++ fm_frame "1" "0.5"
  ++ fm_formant "1" "500" "50" ++ fm_formant "2" "1500" "150".

Definition fm_cut_after_frame_marker : list string :=
  fm_raw (fm_first_frame ++ ["frames [2]:"]).

Definition fm_cut_after_formant_marker : list string :=
  fm_raw (fm_first_frame ++ fm_frame "2" "0.25" ++ ["formant [1]:"]).

Definition fm_cut_after_frequency : list string :=
  fm_raw (fm_first_frame ++ fm_frame "2" "0.25"
          ++ ["formant [1]:"; "frequency = 510"]).

(** A report without any frame whose last line is a formant marker. *)
Definition fm_formant_marker_only : list string :=
  fm_raw (fm_scalars "3" "2" ++ ["frames []:"; "formant [1]:"]).

(** What the parser returns on some of them. *)
Definition fm_report (nx_ maxn : Z) (rows : list (Q * Q * list xfloat * list xfloat))
  : Formants.data (FL := exact_float) :=
  Formants.Data (XNum 0) (XNum (3 # 2)) nx_ (XNum (1 # 200)) (XNum (1 # 80))
    maxn
    ((fun row => XNum row.1.1.1) <$> rows)
    ((fun row => row.1.2) <$> rows)
    ((fun row => row.2) <$> rows)
    ((fun row => XNum row.1.1.2) <$> rows).

Definition fm_two_frames_parsed : Formants.data (FL := exact_float) :=
  fm_report 2 2
    [(1 # 80, 1 # 2, [XNum 500; XNum 1500], [XNum 50; XNum 150]);
     (7 # 400, 1 # 4, [XNum 510; XNum 1510], [XNum 60; XNum 160])].

Definition fm_frame_five_parsed : Formants.data (FL := exact_float) :=
  fm_report 1 2 [(13 # 400, 1 # 2, [XNum 500; XNaN], [XNum 50; XNaN])].

Definition fm_frames_swapped_parsed : Formants.data (FL := exact_float) :=
  fm_report 2 2
    [(7 # 400, 1 # 2, [XNum 500; XNaN], [XNum 50; XNaN]);
     (1 # 80, 1 # 4, [XNum 510; XNaN], [XNum 60; XNaN])].

Definition fm_single_formant_parsed : Formants.data (FL := exact_float) :=
  fm_report 1 5
    [(1 # 80, 1 # 2, [XNaN; XNaN; XNum 2500; XNaN; XNaN],
                     [XNaN; XNaN; XNum 250; XNaN; XNaN])].

Definition fm_formant_zero_parsed : Formants.data (FL := exact_float) :=
  fm_report 1 5
    [(1 # 80, 1 # 2, [XNaN; XNaN; XNaN; XNaN; XNum 5500],
                     [XNaN; XNaN; XNaN; XNaN; XNum 550])].

Definition fm_one_frame_parsed : Formants.data (FL := exact_float) :=
  fm_report 1 2 [(1 # 80, 1 # 2, [XNum 500; XNaN], [XNum 50; XNaN])].

Definition fm_no_frame_parsed : Formants.data (FL := exact_float) :=
  fm_report 3 2 [].

Definition fm_truncated_parsed : Formants.data (FL := exact_float) :=
  fm_report 3 2
    [(1 # 80, 1 # 2, [XNum 500; XNum 1500], [XNum 50; XNum 150]);
     (7 # 400, 1 # 4, [XNum 510; XNaN], [XNum 60; XNaN])].

(** ** Further files and settings *)

(** Two tiers: two intervals, then one. *)
Definition tg_two_tiers : list string :=
  tg_prologue "2" ++ tg_tier_head "1"
  ++ tg_interval "1" "0" "0.5" (quoted "first")
  ++ tg_interval "2" "0.5" "1.25" (quoted "second")
  ++ tg_tier_head "2"
  ++ tg_interval "1" "0" "1.25" (quoted "ah").

Definition tg_two_tiers_parsed : TextGrid.textgrid (FL := exact_float) :=
  TextGrid.Build 2 [(9, Some 22); (23, Some 32)]
    [[TextGrid.Interval (XNum 0) (XNum (1 # 2)) "first";
      TextGrid.Interval (XNum (1 # 2)) (XNum (5 # 4)) "second"];
     [TextGrid.Interval (XNum 0) (XNum (5 # 4)) "ah"]].

(** A float written with six decimals, rounded, as ['%f'] writes it. *)
Definition six_decimals (x : xfloat) : string :=
  match x with
  | XNaN => "nan"
  | XNum q =>
      let d := Z.pos (Qden q) in
      let r := ((2 * Z.abs (Qnum q) * 1000000 + d) / (2 * d))%Z in
      let frac := fmt_d (r mod 1000000) in
      (if (Qnum q <? 0)%Z then "-" else EmptyString)
      +:+ fmt_d (r / 1000000) +:+ "."
      +:+ String.concat EmptyString
            (repeat "0" (6 - String.length frac)) +:+ frac
  end.

(** The lines of [fm_two_frames] without the whitespace at their ends. *)
Definition fm_two_frames_bare : list string :=
  fm_scalars "2" "2" ++ ["frames []:"]
  ++ fm_frame "1" "0.5"
  ++ fm_formant "1" "500" "50" ++ fm_formant "2" "1500" "150"
  ++ fm_frame "2" "0.25"
  ++ fm_formant "1" "510" "60" ++ fm_formant "2" "1510" "160".

(** Keyword arguments for [from_wav_file]: a time step and a file name. *)
Definition wav_kwargs : Formants.dict (FL := exact_float) :=
  [ ("timestep", Formants.AFloat (XNum (1 # 100)));
    ("filename", Formants.AStr "other.wav") ].

(** A file name cut before its last dot, when it has one. *)
Fixpoint cut_at_last_dot (s : string) : option (string * string) :=
  match s with
  | EmptyString => None
  | String c r =>
      match cut_at_last_dot r with
      | Some (a, b) => Some (String c a, b)
      | None => if Ascii.eqb c "." then Some (EmptyString, s) else None
      end
  end.

Definition split_extension (s : string) : string * string :=
  default (s, EmptyString) (cut_at_last_dot s).

End Fixtures.

(** * Lemmas on results, strings and lists *)

Lemma rbind_Ok_inv {A B : Type} (r : result A) (k : A -> result B) (b : B) :
  r ≫= k = Ok b -> exists a, r = Ok a /\ k a = Ok b.
Proof. destruct r; simpl; intros H; try discriminate. eauto. Qed.

Lemma rbind_Ok {A B : Type} (a : A) (k : A -> result B) : Ok a ≫= k = k a.
Proof. reflexivity. Qed.

Lemma rbind_Raise {A B : Type} (e : pyerr) (k : A -> result B) :
  Raise e ≫= k = Raise e.
Proof. reflexivity. Qed.

Lemma getitem_Ok {A : Type} (l : list A) (i : nat) (x : A) :
  getitem l i = Ok x <-> l !! i = Some x.
Proof.
  unfold getitem. destruct (l !! i); split; intros H; try discriminate;
    congruence.
Qed.

Lemma getitem_out_of_range {A : Type} (l : list A) (i : nat) :
  length l <= i -> getitem l i = raise_builtin IndexError.
Proof.
  intros H. unfold getitem. now rewrite (lookup_ge_None_2 l i H).
Qed.

Lemma expect_Some (lit s r : string) :
  expect lit s = Some r <-> s = lit +:+ r.
Proof.
  revert s. induction lit as [|a lit IH]; intros s; simpl.
  - split; congruence.
  - destruct s as [|c s]; [split; discriminate|].
    destruct (Ascii.eqb_spec c a) as [->|Hne].
    + rewrite IH. split; intros H; congruence.
    + split; [discriminate | intros H; congruence].
Qed.

Lemma expect_app (lit r : string) : expect lit (lit +:+ r) = Some r.
Proof. now apply expect_Some. Qed.

(** Stripping leaves no character of the set at either end. *)
Lemma lstrip_head (p : ascii -> bool) (s : string) (c : ascii) (r : string) :
  lstrip p s = String c r -> p c = false.
Proof.
  induction s as [|c' s IH]; simpl; [discriminate|].
  destruct (p c') eqn:Hc; [exact IH|]. intros H. congruence.
Qed.

Lemma rstrip_head (p : ascii -> bool) (s : string) (c : ascii) (r : string) :
  rstrip p s = String c r -> exists r', s = String c r'.
Proof.
  destruct s as [|c' s]; simpl; [discriminate|].
  destruct (rstrip p s); [destruct (p c')|]; intros H; try discriminate;
    injection H as -> _; eauto.
Qed.

Lemma rstrip_last (p : ascii -> bool) (s : string) (c : ascii) :
  last_char (rstrip p s) = Some c -> p c = false.
Proof.
  induction s as [|c' s IH]; simpl; [discriminate|].
  destruct (rstrip p s) as [|d r] eqn:Hr.
  - destruct (p c') eqn:Hc; simpl; [discriminate|]. congruence.
  - simpl. exact IH.
Qed.

Lemma strip_first (p : ascii -> bool) (s : string) (c : ascii) (r : string) :
  strip p s = String c r -> p c = false.
Proof.
  unfold strip. intros H.
  destruct (rstrip_head _ _ _ _ H) as [r' Hr'].
  exact (lstrip_head _ _ _ _ Hr').
Qed.

Lemma strip_last (p : ascii -> bool) (s : string) (c : ascii) :
  last_char (strip p s) = Some c -> p c = false.
Proof. apply rstrip_last. Qed.

(** ** The search for a line *)

Lemma findLineSW_in_Some (line : string) (ls : list string) (i k : nat)
    (l : string) :
  TextGrid.findLineSW_in line ls i = Some (k, l) ->
  i <= k /\ ls !! (k - i) = Some l /\ startswith line l = true /\
  forall m l', m < k - i -> ls !! m = Some l' -> startswith line l' = false.
Proof.
  revert i. induction ls as [|x ls IH]; intros i; simpl; [discriminate|].
  destruct (startswith line x) eqn:Hx.
  - intros [= <- <-]. rewrite Nat.sub_diag. repeat split; auto; lia.
  - intros H. destruct (IH _ H) as (Hle & Hl & Hsw & Hbefore).
    replace (k - i) with (S (k - S i)) by lia.
    repeat split; auto; [lia|].
    intros [|m] l'; simpl; [congruence|].
    intros Hm. apply Hbefore. lia.
Qed.

Lemma findLineSW_in_None (line : string) (ls : list string) (i : nat) :
  TextGrid.findLineSW_in line ls i = None <->
  Forall (fun l => startswith line l = false) ls.
Proof.
  revert i. induction ls as [|x ls IH]; intros i; simpl.
  - split; auto.
  - destruct (startswith line x) eqn:Hx.
    + split; [discriminate|]. intros H. inversion H; congruence.
    + rewrite IH. split; [now constructor|]. intros H. now inversion H.
Qed.

Lemma findLineSW_unbounded (content : list string) (line : string) (start : nat) :
  TextGrid.findLineSW content line start None =
  TextGrid.findLineSW_in line (drop start content) start.
Proof.
  unfold TextGrid.findLineSW. simpl.
  rewrite take_ge; [reflexivity|]. rewrite length_drop. lia.
Qed.

Lemma findLineSW_Some (content : list string) (line : string) (start k : nat)
    (l : string) :
  TextGrid.findLineSW content line start None = Some (k, l) ->
  start <= k /\ content !! k = Some l /\ startswith line l = true /\
  forall m l', start <= m < k -> content !! m = Some l' ->
               startswith line l' = false.
Proof.
  rewrite findLineSW_unbounded. intros H.
  destruct (findLineSW_in_Some _ _ _ _ _ H) as (Hle & Hl & Hsw & Hbefore).
  rewrite lookup_drop in Hl.
  replace (start + (k - start)) with k in Hl by lia.
  repeat split; auto.
  intros m l' Hm Hl'. apply (Hbefore (m - start)); [lia|].
  rewrite lookup_drop. now replace (start + (m - start)) with m by lia.
Qed.

Lemma findLineSW_None (content : list string) (line : string) (start : nat) :
  TextGrid.findLineSW content line start None = None <->
  forall m l, start <= m -> content !! m = Some l -> startswith line l = false.
Proof.
  rewrite findLineSW_unbounded, findLineSW_in_None, Forall_lookup.
  split.
  - intros H m l Hm Hl. apply (H (m - start)).
    rewrite lookup_drop. now replace (start + (m - start)) with m by lia.
  - intros H m l Hl. rewrite lookup_drop in Hl.
    apply (H (start + m) l); [lia | exact Hl].
Qed.

(** ** The scan of one tier *)

Section TextGridScan.
Context `{FL : PyFloat}.
Implicit Types (content : list string) (acc : list TextGrid.interval).

Lemma intervals_loop_done fuel content i1 i2 acc :
  i2 <= i1 -> TextGrid.intervals_loop fuel content i1 i2 acc = Ok acc.
Proof.
  intros H. destruct fuel; simpl; now rewrite (proj2 (Nat.leb_le _ _) H).
Qed.

(** One turn of the loop, on a line inside the file. *)
Lemma intervals_loop_step fuel content i1 i2 acc l :
  i1 < i2 -> content !! i1 = Some l ->
  TextGrid.intervals_loop (S fuel) content i1 i2 acc =
  if reIntervals_match l then
    iv ← TextGrid.read_interval content i1;
    TextGrid.intervals_loop fuel content (i1 + 4) i2 (acc ++ [iv])
  else TextGrid.intervals_loop fuel content (i1 + 1) i2 acc.
Proof.
  intros Hlt Hl. simpl.
  rewrite (proj2 (Nat.leb_gt _ _) Hlt).
  now rewrite (proj2 (getitem_Ok _ _ _) Hl).
Qed.

(** Any fuel that covers the distance to the bound gives the same result. *)
Lemma intervals_loop_fuel fuel fuel' content i1 i2 acc :
  i2 - i1 <= fuel -> i2 - i1 <= fuel' ->
  TextGrid.intervals_loop fuel content i1 i2 acc =
  TextGrid.intervals_loop fuel' content i1 i2 acc.
Proof.
  revert fuel' i1 acc.
  induction fuel as [|fuel IH]; intros fuel' i1 acc H1 H2.
  - rewrite !intervals_loop_done by lia. reflexivity.
  - destruct (Nat.le_gt_cases i2 i1) as [Hle|Hlt].
    { rewrite !intervals_loop_done by lia. reflexivity. }
    destruct fuel' as [|fuel']; [lia|].
    simpl. rewrite (proj2 (Nat.leb_gt _ _) Hlt).
    destruct (getitem content i1) as [l| |]; simpl; try reflexivity.
    destruct (reIntervals_match l).
    + destruct (TextGrid.read_interval content i1); simpl; try reflexivity.
      apply IH; lia.
    + apply IH; lia.
Qed.

(** With that much fuel the loop comes to an end. *)
Lemma intervals_loop_total fuel content i1 i2 acc :
  i2 - i1 <= fuel ->
  TextGrid.intervals_loop fuel content i1 i2 acc <> OutOfFuel.
Proof.
  revert i1 acc. induction fuel as [|fuel IH]; intros i1 acc H.
  - rewrite intervals_loop_done by lia. discriminate.
  - destruct (Nat.le_gt_cases i2 i1) as [Hle|Hlt].
    { rewrite intervals_loop_done by lia. discriminate. }
    simpl. rewrite (proj2 (Nat.leb_gt _ _) Hlt).
    destruct (getitem content i1) as [l| |] eqn:Hg; simpl; try discriminate.
    + destruct (reIntervals_match l).
      * unfold TextGrid.read_interval, float_of_string.
        repeat (match goal with
                | |- context [getitem ?c ?i] =>
                    destruct (getitem c i) eqn:?; simpl; try discriminate
                | |- context [parse_float ?s] =>
                    destruct (parse_float s) eqn:?; simpl; try discriminate
                end).
        all: try (unfold getitem in *;
                  repeat match goal with
                         | H : match ?x with _ => _ end = _ |- _ =>
                             destruct x; try discriminate
                         end; fail).
        apply IH; lia.
      * apply IH; lia.
    + unfold getitem in Hg. destruct (content !! i1); discriminate.
Qed.

(** The scan from [a] resumes from any line it visits. *)
Lemma visits_resume content a b p acc :
  TextGrid.visits content a p acc -> p <= b ->
  TextGrid.intervals_loop (b - a) content a b [] =
  TextGrid.intervals_loop (b - p) content p b acc.
Proof.
  induction 1 as [|p acc l Hv IH Hl Hm|p acc l iv Hv IH Hl Hm Hr]; intros Hb.
  - reflexivity.
  - rewrite IH by lia.
    replace (b - p) with (S (b - (p + 1))) by lia.
    rewrite (intervals_loop_step _ _ _ _ _ l) by (auto; lia).
    now rewrite Hm.
  - rewrite IH by lia.
    replace (b - p) with (S (b - p - 1)) by lia.
    rewrite (intervals_loop_step _ _ _ _ _ l) by (auto; lia).
    rewrite Hm, Hr. simpl.
    apply intervals_loop_fuel; lia.
Qed.

Lemma visits_ge content a p acc : TextGrid.visits content a p acc -> a <= p.
Proof. induction 1; lia. Qed.

Lemma scan_result_nil content i1 i2 :
  i2 <= i1 -> TextGrid.scan_result content i1 i2 [] [].
Proof.
  intros Hle. split; [constructor|]. split; [constructor|].
  split; [constructor|]. intros k Hk. lia.
Qed.

Lemma intervals_loop_spec fuel content i1 i2 acc ivs :
  TextGrid.intervals_loop fuel content i1 i2 acc = Ok ivs ->
  exists ps new, ivs = acc ++ new /\ TextGrid.scan_result content i1 i2 ps new.
Proof.
  revert i1 acc. induction fuel as [|fuel IH]; intros i1 acc.
  - simpl. destruct (i2 <=? i1) eqn:Hle; [|discriminate].
    intros [= <-]. apply Nat.leb_le in Hle.
    exists [], []. rewrite app_nil_r. split; [reflexivity|].
    now apply scan_result_nil.
  - destruct (Nat.le_gt_cases i2 i1) as [Hle|Hlt].
    { rewrite intervals_loop_done by lia. intros [= <-].
      exists [], []. rewrite app_nil_r. split; [reflexivity|].
      now apply scan_result_nil. }
    simpl. rewrite (proj2 (Nat.leb_gt _ _) Hlt).
    destruct (getitem content i1) as [l| |] eqn:Hg; simpl; try discriminate.
    apply getitem_Ok in Hg.
    destruct (reIntervals_match l) eqn:Hm.
    + destruct (TextGrid.read_interval content i1) as [iv| |] eqn:Hr;
        simpl; try discriminate.
      intros H. destruct (IH _ _ H) as (ps & new & -> & HF2 & HF & Hs & Hc).
      exists (i1 :: ps), (iv :: new). rewrite <- app_assoc. simpl.
      split; [reflexivity|]. split; [|split; [|split]].
      * now constructor.
      * constructor.
        -- split; [lia|]. now exists l.
        -- eapply Forall_impl; [exact HF|]. simpl. intros p [Hp Hh].
           split; [lia | exact Hh].
      * constructor; [exact Hs|].
        eapply Forall_impl; [exact HF|]. simpl. intros p [Hp _]. lia.
      * intros k Hk Hh.
        destruct (decide (k = i1)) as [->|Hne]; [left; constructor|].
        destruct (decide (k < i1 + 4)) as [Hin|Hout].
        -- right. exists i1. split; [constructor | lia].
        -- destruct (Hc k ltac:(lia) Hh) as [Hin'|(p & Hp & Hkp)].
           ++ left. now constructor.
           ++ right. exists p. split; [now constructor | lia].
    + intros H. destruct (IH _ _ H) as (ps & new & -> & HF2 & HF & Hs & Hc).
      exists ps, new. split; [reflexivity|].
      split; [exact HF2|split; [|split; [exact Hs|]]].
      * eapply Forall_impl; [exact HF|]. simpl. intros p [Hp Hh].
        split; [lia | exact Hh].
      * intros k Hk Hh.
        destruct (decide (k = i1)) as [->|Hne].
        -- destruct Hh as (l' & Hl' & Hm'). congruence.
        -- apply Hc; [lia | exact Hh].
Qed.

End TextGridScan.

(** ** The three loops over the tiers *)

Section TextGridTiers.
Context `{FL : PyFloat}.
Implicit Types (content : list string).

Lemma find_items_length content js i idx idx' :
  TextGrid.find_items content js i idx = Ok idx' ->
  length idx' = length idx + length js.
Proof.
  revert i idx. induction js as [|j js IH]; intros i idx; simpl.
  - intros [= <-]. lia.
  - destruct i as [i0|]; [|discriminate].
    intros H. apply IH in H. rewrite length_app in H. simpl in H. lia.
Qed.

Lemma item_ranges_spec idx js acc res :
  TextGrid.item_ranges idx js acc = Ok res ->
  exists new, res = acc ++ new /\
    Forall2 (fun j r => exists a, idx !! j = Some (Some a) /\
                                  r.1 = a + 1 /\ idx !! (j + 1) = Some r.2)
            js new.
Proof.
  revert acc. induction js as [|j js IH]; intros acc; simpl.
  - intros [= <-]. exists []. now rewrite app_nil_r.
  - destruct (getitem idx j) as [[a|]| |] eqn:Ha; simpl; try discriminate.
    destruct (getitem idx (j + 1)) as [b| |] eqn:Hb; simpl; try discriminate.
    intros H. destruct (IH _ H) as (new & -> & HF).
    exists ((a + 1, b) :: new). rewrite <- app_assoc. split; [reflexivity|].
    constructor; [|exact HF].
    exists a. apply getitem_Ok in Ha, Hb. auto.
Qed.

(** The upper bound of every range is a line number. *)
Lemma item_ranges_bounds (found : list (option nat)) (n : nat) ranges :
  TextGrid.item_ranges (found ++ [Some n]) (seq 0 (length found)) [] = Ok ranges ->
  length ranges = length found /\
  forall j r, ranges !! j = Some r -> exists b, r.2 = Some b.
Proof.
  intros H. destruct (item_ranges_spec _ _ _ _ H) as (new & -> & HF).
  simpl. pose proof (Forall2_length _ _ _ HF) as Hlen.
  rewrite length_seq in Hlen. split; [congruence|].
  intros j r Hr.
  destruct (Forall2_lookup_r _ _ _ _ _ HF Hr) as (j' & Hj' & a & Ha & _ & Hb).
  apply lookup_seq in Hj' as [-> Hlt]. simpl in *.
  destruct (decide (j + 1 < length found)) as [Hin|Hlast].
  - destruct (lookup_lt_is_Some_2 new (j + 1) ltac:(lia)) as [r' Hr'].
    destruct (Forall2_lookup_r _ _ _ _ _ HF Hr') as (j2 & Hj2 & a' & Ha' & _).
    apply lookup_seq in Hj2 as [-> _]. simpl in Ha'.
    rewrite Ha' in Hb. injection Hb as <-. eauto.
  - replace (j + 1) with (length found + 0) in Hb by lia.
    rewrite lookup_app_r in Hb by lia.
    replace (length found + 0 - length found) with 0 in Hb by lia.
    simpl in Hb. injection Hb as <-. eauto.
Qed.

Lemma all_intervals_spec content ranges js acc res :
  TextGrid.all_intervals content ranges js acc = Ok res ->
  exists new, res = acc ++ new /\
    Forall2 (fun j tier => exists r, ranges !! j = Some r /\
                             TextGrid.tier_intervals content r = Ok tier)
            js new.
Proof.
  revert acc. induction js as [|j js IH]; intros acc; simpl.
  - intros [= <-]. exists []. now rewrite app_nil_r.
  - destruct (getitem ranges j) as [r| |] eqn:Hr; simpl; try discriminate.
    destruct (TextGrid.tier_intervals content r) as [tier| |] eqn:Ht;
      simpl; try discriminate.
    intros H. destruct (IH _ H) as (new & -> & HF).
    exists (tier :: new). rewrite <- app_assoc. split; [reflexivity|].
    constructor; [|exact HF]. exists r. apply getitem_Ok in Hr. auto.
Qed.

(** The tiers before [j] scan without error and tier [j] stops with the
    exception [e]: so does the whole loop. *)
Lemma all_intervals_Raise content ranges (n j : nat) acc r e :
  j < n -> ranges !! j = Some r ->
  (forall j' r', j' < j -> ranges !! j' = Some r' ->
     exists tier, TextGrid.tier_intervals content r' = Ok tier) ->
  (forall j', j' < j -> is_Some (ranges !! j')) ->
  TextGrid.tier_intervals content r = Raise e ->
  forall s, s <= j ->
  TextGrid.all_intervals content ranges (seq s (n - s)) acc = Raise e.
Proof.
  intros Hj Hr Hbefore Hdef He s Hs.
  remember (j - s) as d eqn:Hd. revert s acc Hs Hd.
  induction d as [|d IH]; intros s acc Hs Hd.
  - assert (s = j) as -> by lia.
    replace (n - j) with (S (n - j - 1)) by lia. simpl.
    rewrite (proj2 (getitem_Ok _ _ _) Hr). simpl. now rewrite He.
  - replace (n - s) with (S (n - S s)) by lia. simpl.
    destruct (Hdef s ltac:(lia)) as [r' Hr'].
    rewrite (proj2 (getitem_Ok _ _ _) Hr'). simpl.
    destruct (Hbefore s r' ltac:(lia) Hr') as [tier ->]. simpl.
    apply IH; lia.
Qed.

Lemma range_length (z : Z) : length (TextGrid.range z) = Z.to_nat z.
Proof. unfold TextGrid.range. apply length_seq. Qed.

Lemma locate_tiers_bounds content sz ranges :
  TextGrid.locate_tiers content = Ok (sz, ranges) ->
  length ranges = Z.to_nat sz /\
  forall j r, ranges !! j = Some r -> exists b, r.2 = Some b.
Proof.
  unfold TextGrid.locate_tiers.
  destruct (TextGrid.findLineSW content "Object class" 0 None)
    as [[i0 l0]|]; [|discriminate].
  destruct (negb _); [discriminate|].
  destruct (TextGrid.findLineSW content "size = " 0 None)
    as [[i l]|]; [|discriminate].
  destruct (int_of_string _ _) as [z| |]; simpl; try discriminate.
  destruct (TextGrid.find_items _ _ _ _) as [idx| |] eqn:Hidx; simpl;
    try discriminate.
  destruct (TextGrid.item_ranges _ _ _) as [rs| |] eqn:Hrs; simpl;
    try discriminate.
  intros [= <- <-].
  apply find_items_length in Hidx. simpl in Hidx.
  rewrite range_length in Hidx.
  unfold TextGrid.range in Hrs. rewrite <- Hidx in Hrs.
  apply item_ranges_bounds in Hrs. now rewrite Hidx in Hrs.
Qed.

(** What a successful [parse] has done. *)
Lemma parse_Ok_inv content tg :
  TextGrid.parse content = Ok tg ->
  TextGrid.locate_tiers content =
    Ok (TextGrid.size tg, TextGrid.itemRanges tg) /\
  length (TextGrid.itemRanges tg) = Z.to_nat (TextGrid.size tg) /\
  length (TextGrid.intervals tg) = Z.to_nat (TextGrid.size tg) /\
  forall j tier, TextGrid.intervals tg !! j = Some tier ->
    exists a b ps, TextGrid.itemRanges tg !! j = Some (a, Some b) /\
                   TextGrid.scan_result content a b ps tier.
Proof.
  unfold TextGrid.parse.
  destruct (TextGrid.locate_tiers content) as [[sz ranges]| |] eqn:Hloc;
    simpl; try discriminate.
  destruct (TextGrid.all_intervals _ _ _ _) as [ivs| |] eqn:Hivs; simpl;
    try discriminate.
  intros [= <-]. simpl.
  destruct (locate_tiers_bounds _ _ _ Hloc) as [Hlen Hsome].
  destruct (all_intervals_spec _ _ _ _ _ Hivs) as (new & -> & HF).
  simpl in *. pose proof (Forall2_length _ _ _ HF) as Hlen'.
  rewrite range_length in Hlen'.
  repeat split; auto.
  intros j tier Htier.
  destruct (Forall2_lookup_r _ _ _ _ _ HF Htier) as (j' & Hj' & r & Hr & Ht).
  apply lookup_seq in Hj' as [-> _]. simpl in Hr.
  destruct r as [a ob]. destruct (Hsome _ _ Hr) as [b Hb]. simpl in Hb.
  subst ob. unfold TextGrid.tier_intervals in Ht. simpl in Ht.
  destruct (intervals_loop_spec _ _ _ _ _ _ Ht) as (ps & new' & -> & Hscan).
  exists a, b, ps. split; [exact Hr | exact Hscan].
Qed.

End TextGridTiers.

(** ** The interval header pattern *)

Lemma span_app_stop (p : ascii -> bool) (s r : string) :
  span p s = (s, EmptyString) ->
  match r with String c _ => p c = false | EmptyString => True end ->
  span p (s +:+ r) = (s, r).
Proof.
  intros Hs Hr. induction s as [|c s IH]; simpl in *.
  - destruct r as [|c r]; [reflexivity|]. simpl. now rewrite Hr.
  - destruct (p c); [|discriminate].
    destruct (span p s) as [a b] eqn:Hab.
    injection Hs as -> ->. now rewrite IH.
Qed.

Lemma span_indent (n : nat) :
  span (is_char " ") (indent n) = (indent n, EmptyString).
Proof. induction n as [|n IH]; simpl; [reflexivity|]. now rewrite IH. Qed.

Lemma all_digits_span (ds : string) :
  all_digits ds = true ->
  span is_digit ds = (ds, EmptyString) /\ exists d r, ds = String d r.
Proof.
  unfold all_digits. intros H.
  destruct (span is_digit ds) as [[|d a] [|? ?]] eqn:Hs; try discriminate.
  assert (forall s a b, span is_digit s = (a, b) -> s = a +:+ b) as Happ.
  { clear. induction s as [|c s IH]; simpl; intros a b.
    - now intros [= <- <-].
    - destruct (is_digit c).
      + destruct (span is_digit s) as [a' b'] eqn:E. intros [= <- <-].
        simpl. f_equal. now apply IH.
      + now intros [= <- <-]. }
  apply Happ in Hs as Hds. 
  assert (forall s, s +:+ "" = s) as Hnil.
  { clear. induction s; simpl; congruence. }
  rewrite Hnil in Hds. subst ds. split; [reflexivity | eauto].
Qed.

(** Whatever the number between the brackets, the line is a header. *)
Lemma reIntervals_match_any_index (n : nat) (ds rest : string) :
  all_digits ds = true ->
  reIntervals_match
    (indent (S n) +:+ "intervals [" +:+ ds +:+ "]:" +:+ rest) = true.
Proof.
  intros Hds. destruct (all_digits_span _ Hds) as (Hspan & d & r & ->).
  unfold reIntervals_match.
  rewrite (span_app_stop _ (indent (S n)) _ (span_indent (S n)))
    by reflexivity.
  simpl indent. cbv iota. rewrite expect_app.
  rewrite (span_app_stop _ _ _ Hspan) by reflexivity.
  now rewrite expect_app.
Qed.

(** * Properties of the TextGrid parser *)

Section TextGridTheorems.
Context `{FL : PyFloat}.
Implicit Types (content : list string).

Lemma parse_tier content tg j r :
  TextGrid.parse content = Ok tg ->
  TextGrid.itemRanges tg !! j = Some r ->
  exists tier, TextGrid.intervals tg !! j = Some tier /\
               TextGrid.tier_intervals content r = Ok tier.
Proof.
  unfold TextGrid.parse.
  destruct (TextGrid.locate_tiers content) as [[sz ranges]| |] eqn:Hloc;
    simpl; try discriminate.
  destruct (TextGrid.all_intervals _ _ _ _) as [ivs| |] eqn:Hivs; simpl;
    try discriminate.
  intros [= <-]. simpl. intros Hr.
  destruct (locate_tiers_bounds _ _ _ Hloc) as [Hlen _].
  destruct (all_intervals_spec _ _ _ _ _ Hivs) as (new & -> & HF).
  simpl in *.
  assert (TextGrid.range sz !! j = Some j) as Hj.
  { unfold TextGrid.range. apply lookup_seq. split; [reflexivity|].
    apply lookup_lt_Some in Hr. lia. }
  destruct (Forall2_lookup_l _ _ _ _ _ HF Hj) as (tier & Ht & r' & Hr' & Hti).
  exists tier. split; [exact Ht|]. congruence.
Qed.

Lemma float_of_string_Some (s : string) (x : pyfloat) :
  parse_float s = Some x -> float_of_string s = Ok x.
Proof. unfold float_of_string. now intros ->. Qed.

Lemma read_interval_inv content p iv :
  TextGrid.read_interval content p = Ok iv ->
  exists l1 l2 l3,
    content !! (p + 1) = Some l1 /\ content !! (p + 2) = Some l2 /\
    content !! (p + 3) = Some l3 /\
    float_of_string (delete_all "xmin = " (strip is_space2 l1))
      = Ok (TextGrid.xmin iv) /\
    float_of_string (delete_all "xmax = " (strip is_space2 l2))
      = Ok (TextGrid.xmax iv) /\
    TextGrid.text iv =
      strip (is_char quote) (delete_all "text = " (strip is_space2 l3)).
Proof.
  unfold TextGrid.read_interval. intros H.
  apply rbind_Ok_inv in H as (l1 & Hl1 & H).
  apply rbind_Ok_inv in H as (x0 & Hx0 & H).
  apply rbind_Ok_inv in H as (l2 & Hl2 & H).
  apply rbind_Ok_inv in H as (x1 & Hx1 & H).
  apply rbind_Ok_inv in H as (l3 & Hl3 & H).
  injection H as <-. simpl.
  apply getitem_Ok in Hl1, Hl2, Hl3.
  exists l1, l2, l3. auto 10.
Qed.

Lemma read_interval_IndexError content p :
  length content <= p + 3 -> TextGrid.fields_convert content p ->
  TextGrid.read_interval content p = raise_builtin IndexError.
Proof.
  intros Hlen [H1 H2]. unfold TextGrid.read_interval, getitem.
  destruct (content !! (p + 1)) as [l1|] eqn:Hl1; [|reflexivity]. simpl.
  destruct (H1 l1 eq_refl) as [x0 Hx0].
  rewrite (float_of_string_Some _ _ Hx0). simpl.
  destruct (content !! (p + 2)) as [l2|] eqn:Hl2; [|reflexivity]. simpl.
  destruct (H2 l2 eq_refl) as [x1 Hx1].
  rewrite (float_of_string_Some _ _ Hx1). simpl.
  now rewrite (lookup_ge_None_2 content (p + 3) ltac:(lia)).
Qed.


(** C7 (amended): every interval returned comes from a header line [p]
    followed by three lines inside the file; xmin and xmax are the floats
    of the first two, stripped of blanks and of every occurrence of their
    keyword; the text is the third, stripped of blanks, of every occurrence
    of its keyword and then of all the quote characters at both ends, so
    that it neither begins nor ends with a quote. *)
Theorem textgrid_interval_fields content tg j tier k iv :
  TextGrid.parse content = Ok tg ->
  TextGrid.intervals tg !! j = Some tier -> tier !! k = Some iv ->
  exists p l1 l2 l3,
    TextGrid.header_at content p /\
    content !! (p + 1) = Some l1 /\ content !! (p + 2) = Some l2 /\
    content !! (p + 3) = Some l3 /\
    float_of_string (delete_all "xmin = " (strip is_space2 l1))
      = Ok (TextGrid.xmin iv) /\
    float_of_string (delete_all "xmax = " (strip is_space2 l2))
      = Ok (TextGrid.xmax iv) /\
    TextGrid.text iv =
      strip (is_char quote) (delete_all "text = " (strip is_space2 l3)) /\
    (forall c r, TextGrid.text iv = String c r -> c <> quote) /\
    last_char (TextGrid.text iv) <> Some quote.
Proof.
  intros Hp Htier Hiv.
  destruct (parse_Ok_inv _ _ Hp) as (_ & _ & _ & Htiers).
  destruct (Htiers _ _ Htier) as (a & b & ps & _ & HF2 & HF & _).
  destruct (Forall2_lookup_r _ _ _ _ _ HF2 Hiv) as (p & Hps & Hread).
  destruct (read_interval_inv _ _ _ Hread)
    as (l1 & l2 & l3 & H1 & H2 & H3 & Hx0 & Hx1 & Htext).
  exists p, l1, l2, l3.
  rewrite Forall_lookup in HF. destruct (HF _ _ Hps) as [_ Hh].
  repeat (split; [assumption|]). split.
  - intros c r Hc Heq. subst c. rewrite Htext in Hc.
    apply strip_first in Hc. unfold is_char in Hc.
    now rewrite Ascii.eqb_refl in Hc.
  - intros Hl. rewrite Htext in Hl. apply strip_last in Hl.
    unfold is_char in Hl. now rewrite Ascii.eqb_refl in Hl.
Qed.

(** C10 (amended): when the scan of a tier arrives on a header line [p]
    inside the tier's range and the tiers before it scanned without error,
    the three field reads are checked against neither the range nor the
    end of the file.  With fewer than three lines left after [p], and the
    field lines that exist converting, the parse raises IndexError.  With
    the end of the range at most three lines after [p], an interval whose
    fields convert is appended to this tier all the same, its text being
    line [p + 3], at or beyond the end of the range. *)
Theorem textgrid_field_reads_unbounded content sz ranges j a b p acc l :
  TextGrid.locate_tiers content = Ok (sz, ranges) ->
  ranges !! j = Some (a, Some b) ->
  (forall j' r', j' < j -> ranges !! j' = Some r' ->
     exists tier, TextGrid.tier_intervals content r' = Ok tier) ->
  TextGrid.visits content a p acc -> p < b ->
  content !! p = Some l -> reIntervals_match l = true ->
  (length content <= p + 3 -> TextGrid.fields_convert content p ->
   TextGrid.parse content = raise_builtin IndexError) /\
  (forall iv, b <= p + 3 -> TextGrid.read_interval content p = Ok iv ->
     TextGrid.tier_intervals content (a, Some b) = Ok (acc ++ [iv]) /\
     (exists l3, content !! (p + 3) = Some l3 /\ b <= p + 3 /\
        TextGrid.text iv =
          strip (is_char quote) (delete_all "text = " (strip is_space2 l3))) /\
     (forall tg, TextGrid.parse content = Ok tg ->
        TextGrid.intervals tg !! j = Some (acc ++ [iv]))).
Proof.
  intros Hloc Hr Hbefore Hv Hpb Hl Hm.
  assert (forall rd,
    TextGrid.read_interval content p = rd ->
    TextGrid.tier_intervals content (a, Some b) =
      iv ← rd; TextGrid.intervals_loop (b - p - 1) content (p + 4) b
                 (acc ++ [iv])) as Hscan.
  { intros rd Hrd. unfold TextGrid.tier_intervals. simpl.
    rewrite (visits_resume _ _ _ _ _ Hv) by lia.
    remember (b - p - 1) as n eqn:Hn.
    replace (b - p) with (S n) by lia.
    rewrite (intervals_loop_step _ _ _ _ _ l) by auto.
    now rewrite Hm, Hrd. }
  destruct (locate_tiers_bounds _ _ _ Hloc) as [Hlen _].
  split.
  - intros Hshort Hconv.
    specialize (Hscan _ (read_interval_IndexError _ _ Hshort Hconv)).
    simpl in Hscan.
    unfold TextGrid.parse. rewrite Hloc. simpl.
    unfold TextGrid.range.
    replace (Z.to_nat sz) with (Z.to_nat sz - 0) by lia.
    rewrite (all_intervals_Raise content ranges (Z.to_nat sz) j []
               (a, Some b) (PyErr IndexError None)); auto.
    + apply lookup_lt_Some in Hr. lia.
    + intros j' Hj'. apply lookup_lt_is_Some_2.
      apply lookup_lt_Some in Hr. lia.
    + lia.
  - intros iv Hb Hread. specialize (Hscan _ Hread). simpl in Hscan.
    rewrite intervals_loop_done in Hscan by lia.
    split; [exact Hscan|]. split.
    + destruct (read_interval_inv _ _ _ Hread)
        as (l1 & l2 & l3 & _ & _ & H3 & _ & _ & Htext).
      exists l3. auto.
    + intros tg Hp.
      destruct (parse_Ok_inv _ _ Hp) as (Hloc' & _).
      rewrite Hloc in Hloc'. injection Hloc' as -> ->.
      destruct (parse_tier _ _ _ _ Hp Hr) as (tier & Ht & Hti).
      congruence.
Qed.

End TextGridTheorems.

(** ** Failures of [parse] *)

Section TextGridFailures.
Context `{FL : PyFloat}.
Implicit Types (content : list string).

Lemma find_items_located content js i idx :
  TextGrid.markers_located content i js = true ->
  exists ps, TextGrid.find_items content js (Some i) idx
               = Ok (idx ++ (Some <$> ps)) /\ length ps = length js.
Proof.
  revert i idx. induction js as [|j js IH]; intros i idx; simpl.
  - intros _. exists []. simpl. now rewrite app_nil_r.
  - destruct (TextGrid.findLineSW _ _ _ _) as [[i' l']|]; [|discriminate].
    simpl. intros H. destruct (IH i' (idx ++ [Some i']) H) as (ps & -> & Hlen).
    exists (i' :: ps). rewrite <- app_assoc. simpl. auto.
Qed.

Lemma find_items_not_located content js i idx :
  TextGrid.markers_located content i js = false ->
  TextGrid.find_items content js (Some i) idx = raise_builtin TypeError \/
  exists ps, TextGrid.find_items content js (Some i) idx
               = Ok (idx ++ (Some <$> ps) ++ [None]) /\
             S (length ps) = length js.
Proof.
  revert i idx. induction js as [|j js IH]; intros i idx; simpl.
  - discriminate.
  - destruct (TextGrid.findLineSW _ _ _ _) as [[i' l']|]; simpl.
    + intros H. destruct (IH i' (idx ++ [Some i']) H) as [->|(ps & -> & Hlen)].
      * now left.
      * right. exists (i' :: ps). rewrite <- app_assoc. simpl. auto.
    + intros _. destruct js as [|j' js]; simpl.
      * right. exists []. simpl. auto.
      * now left.
Qed.

Lemma item_ranges_TypeError (idx : list (option nat)) js acc :
  (forall j, j ∈ js -> j + 1 < length idx) ->
  (exists j, j ∈ js /\ idx !! j = Some None) ->
  TextGrid.item_ranges idx js acc = raise_builtin TypeError.
Proof.
  revert acc. induction js as [|j js IH]; intros acc Hlen (j0 & Hin & Hnone).
  - inversion Hin.
  - simpl.
    destruct (lookup_lt_is_Some_2 idx j) as [a Ha].
    { specialize (Hlen j ltac:(constructor)). lia. }
    rewrite (proj2 (getitem_Ok _ _ _) Ha). simpl.
    destruct a as [a0|]; [|reflexivity].
    destruct (lookup_lt_is_Some_2 idx (j + 1)) as [b Hb].
    { apply Hlen. constructor. }
    rewrite (proj2 (getitem_Ok _ _ _) Hb). simpl.
    apply IH.
    + intros j' Hj'. apply Hlen. now constructor.
    + exists j0. split; [|exact Hnone].
      inversion Hin; subst; [congruence | assumption].
Qed.

Lemma header_valid_check content :
  TextGrid.header_valid content ->
  exists i l, TextGrid.findLineSW content "Object class" 0 None = Some (i, l) /\
    negb (String.eqb (strip is_space2 l) TextGrid.object_class_line) = false.
Proof.
  intros (i & l & Hf & Hl). exists i, l. split; [exact Hf|].
  rewrite Hl. now rewrite String.eqb_refl.
Qed.

(** C4 (amended): [parse] raises when the header line is absent or, once
    stripped, differs from the expected literal; when the size line is
    absent or not the spelling of an integer; and when one of the declared
    item markers is not found after the one before it.  A size that is zero
    or negative is accepted and yields no tier. *)
Theorem textgrid_parse_failures content :
  (TextGrid.findLineSW content "Object class" 0 None = None ->
   TextGrid.parse content = raise_msg Exception "Not a valid TextGrid file") /\
  (forall i l,
     TextGrid.findLineSW content "Object class" 0 None = Some (i, l) ->
     strip is_space2 l <> TextGrid.object_class_line ->
     TextGrid.parse content = raise_msg Exception "Not a valid TextGrid file") /\
  (TextGrid.header_valid content ->
   TextGrid.findLineSW content "size = " 0 None = None ->
   TextGrid.parse content
     = raise_msg Exception "Size can't be determined...'") /\
  (forall i l,
     TextGrid.header_valid content ->
     TextGrid.findLineSW content "size = " 0 None = Some (i, l) ->
     (int_of_string is_space2 (delete_all "size = " (strip is_space2 l))
        = raise_builtin ValueError ->
      TextGrid.parse content = raise_builtin ValueError) /\
     (forall sz,
        int_of_string is_space2 (delete_all "size = " (strip is_space2 l))
          = Ok sz ->
        (TextGrid.markers_located content i (TextGrid.range sz) = false ->
         TextGrid.parse content = raise_builtin TypeError) /\
        ((sz <= 0)%Z ->
         TextGrid.parse content = Ok (TextGrid.Build sz [] [])))).
Proof.
  unfold TextGrid.parse, TextGrid.locate_tiers.
  split; [|split; [|split]].
  - now intros ->.
  - intros i l -> Hne.
    destruct (String.eqb_spec (strip is_space2 l) TextGrid.object_class_line);
      [contradiction | reflexivity].
  - intros Hh Hs. destruct (header_valid_check _ Hh) as (i0 & l0 & -> & ->).
    now rewrite Hs.
  - intros i l Hh Hs.
    destruct (header_valid_check _ Hh) as (i0 & l0 & -> & ->).
    rewrite Hs. split; [now intros ->|].
    intros sz ->. simpl. split.
    + intros Hloc.
      destruct (find_items_not_located _ _ _ [] Hloc) as [->|(ps & -> & Hlen)];
        [reflexivity|]. simpl.
      unfold TextGrid.range in *. rewrite length_seq in Hlen.
      rewrite item_ranges_TypeError; [reflexivity| |].
      * intros j Hj.
        apply list_elem_of_lookup in Hj as [k Hk].
        apply lookup_seq in Hk as [-> Hk].
        rewrite !length_app, length_fmap. simpl. lia.
      * exists (length ps). split.
        -- apply list_elem_of_lookup. exists (length ps).
           apply lookup_seq. split; [reflexivity | lia].
        -- rewrite <- app_assoc.
           rewrite lookup_app_r by (rewrite length_fmap; lia).
           rewrite length_fmap, Nat.sub_diag. reflexivity.
    + intros Hneg. unfold TextGrid.range.
      replace (Z.to_nat sz) with 0 by lia. simpl.
      replace (Z.to_nat sz) with 0 by lia. reflexivity.
Qed.

End TextGridFailures.

(** ** The TextGrid properties on concrete files *)


(** A size of -1 is not a non-negative integer, and the file parses. *)
Lemma textgrid_negative_size_counterexample :
  TextGrid.findLineSW Fixtures.tg_negative_size "size = " 0 None
    = Some (6, "size = -1 " +:+ Fixtures.nl) /\
  int_of_string is_space2
    (delete_all "size = " (strip is_space2 ("size = -1 " +:+ Fixtures.nl)))
    = Ok (-1)%Z /\
  TextGrid.parse (FL := exact_float) Fixtures.tg_negative_size
    = Ok (TextGrid.Build (-1) [] []).
Proof. repeat split; vm_compute; reflexivity. Qed.

Lemma textgrid_parse_failures_witness :
  TextGrid.parse (FL := exact_float) Fixtures.tg_no_header
    = raise_msg Exception "Not a valid TextGrid file" /\
  TextGrid.parse (FL := exact_float) Fixtures.tg_wrong_class
    = raise_msg Exception "Not a valid TextGrid file" /\
  TextGrid.parse (FL := exact_float) Fixtures.tg_no_size
    = raise_msg Exception "Size can't be determined...'" /\
  TextGrid.parse (FL := exact_float) Fixtures.tg_bad_size
    = raise_builtin ValueError /\
  TextGrid.parse (FL := exact_float) Fixtures.tg_missing_tier
    = raise_builtin TypeError.
Proof.
  assert (forall c,
          TextGrid.findLineSW c "Object class" 0 None
            = Some (1, "Object class = " +:+ Fixtures.quoted "TextGrid"
                         +:+ Fixtures.nl) ->
          TextGrid.header_valid c) as Hvalid.
  { intros c Hf. eexists _, _. split; [exact Hf|]. vm_compute. reflexivity. }
  split; [|split; [|split; [|split]]].
  - apply (proj1 (textgrid_parse_failures Fixtures.tg_no_header)).
    vm_compute. reflexivity.
  - apply (proj1 (proj2 (textgrid_parse_failures Fixtures.tg_wrong_class))
             1 ("Object class = " +:+ Fixtures.quoted "IntervalTier"
                  +:+ Fixtures.nl)).
    + vm_compute. reflexivity.
    + vm_compute. discriminate.
  - apply (proj1 (proj2 (proj2
             (textgrid_parse_failures Fixtures.tg_no_size)))).
    + apply Hvalid; vm_compute; reflexivity.
    + vm_compute. reflexivity.
  - apply (proj1 (proj2 (proj2 (proj2
             (textgrid_parse_failures Fixtures.tg_bad_size)))
             6 ("size = many " +:+ Fixtures.nl)
             ltac:(apply Hvalid; vm_compute; reflexivity)
             ltac:(vm_compute; reflexivity))).
    vm_compute. reflexivity.
  - apply (proj1 (proj2 (proj2 (proj2 (proj2
             (textgrid_parse_failures Fixtures.tg_missing_tier)))
             6 ("size = 2 " +:+ Fixtures.nl)
             ltac:(apply Hvalid; vm_compute; reflexivity)
             ltac:(vm_compute; reflexivity)) 2%Z
             ltac:(vm_compute; reflexivity))).
    vm_compute. reflexivity.
Defined.

(** The label is written between two layers of quotes: the parser returns
    it bare, where one layer stripped would leave the inner quotes. *)
Lemma textgrid_quote_layers_counterexample :
  TextGrid.parse Fixtures.tg_quoted_label = Ok Fixtures.tg_one_interval_parsed /\
  Fixtures.tg_quoted_label !! 17
    = Some ("            text = " +:+ Fixtures.quoted (Fixtures.quoted "ah")
              +:+ " " +:+ Fixtures.nl) /\
  TextGrid.spec_text_field
    ("            text = " +:+ Fixtures.quoted (Fixtures.quoted "ah")
       +:+ " " +:+ Fixtures.nl) = Fixtures.quoted "ah" /\
  "ah" <> Fixtures.quoted "ah".
Proof. repeat split; vm_compute; try reflexivity. discriminate. Qed.

Lemma textgrid_interval_fields_witness :
  TextGrid.parse Fixtures.tg_one_interval = Ok Fixtures.tg_one_interval_parsed /\
  exists p l1 l2 l3,
    TextGrid.header_at Fixtures.tg_one_interval p /\
    Fixtures.tg_one_interval !! (p + 1) = Some l1 /\
    Fixtures.tg_one_interval !! (p + 2) = Some l2 /\
    Fixtures.tg_one_interval !! (p + 3) = Some l3 /\
    float_of_string (delete_all "xmin = " (strip is_space2 l1))
      = Ok (XNum 0) /\
    float_of_string (delete_all "xmax = " (strip is_space2 l2))
      = Ok (XNum (5 # 4)) /\
    "ah" = strip (is_char quote) (delete_all "text = " (strip is_space2 l3)) /\
    (forall c r, "ah" = String c r -> c <> quote) /\
    last_char "ah" <> Some quote.
Proof.
  assert (TextGrid.parse Fixtures.tg_one_interval
          = Ok Fixtures.tg_one_interval_parsed) as Hp
    by (vm_compute; reflexivity).
  split; [exact Hp|].
  exact (textgrid_interval_fields Fixtures.tg_one_interval _ 0
           [TextGrid.Interval (XNum 0) (XNum (5 # 4)) "ah"] 0
           (TextGrid.Interval (XNum 0) (XNum (5 # 4)) "ah")
           Hp eq_refl eq_refl).
Defined.

(** The last line has the shape of an interval header, lies in the range of
    the tier and has no line after it; the parse succeeds, the line having
    been read as the text of the interval before. *)
Lemma textgrid_header_as_text_counterexample :
  TextGrid.parse Fixtures.tg_header_as_text
    = Ok Fixtures.tg_header_as_text_parsed /\
  (exists l, Fixtures.tg_header_as_text !! 17 = Some l /\
             reIntervals_match l = true) /\
  9 <= 17 < 18 /\ length Fixtures.tg_header_as_text <= 17 + 3.
Proof.
  split; [vm_compute; reflexivity|]. split.
  - eexists. split; [reflexivity | vm_compute; reflexivity].
  - vm_compute. lia.
Qed.

Ltac visit_skipped c a p :=
  let l := eval vm_compute in (c !! p) in
  match l with
  | Some ?x =>
      refine (TextGrid.visits_skip c a p [] x _ _ _);
      [| vm_compute; reflexivity | vm_compute; reflexivity]
  end.

Lemma textgrid_field_reads_unbounded_witness :
  TextGrid.parse (FL := exact_float) Fixtures.tg_truncated
    = raise_builtin IndexError /\
  TextGrid.tier_intervals (FL := exact_float) Fixtures.tg_cross_tier (9, Some 17)
    = Ok [TextGrid.Interval (XNum 0) (XNum (5 # 4)) "item [2]:"].
Proof.
  split.
  - refine (proj1 (textgrid_field_reads_unbounded Fixtures.tg_truncated
              1%Z [(9, Some 17)] 0 9 17 14 []
              ("        intervals [1]:" +:+ Fixtures.nl)
              _ _ _ _ _ _ _) _ _).
    + vm_compute. reflexivity.
    + reflexivity.
    + intros j' r' Hj'. lia.
    + visit_skipped Fixtures.tg_truncated 9 13.
      visit_skipped Fixtures.tg_truncated 9 12.
      visit_skipped Fixtures.tg_truncated 9 11.
      visit_skipped Fixtures.tg_truncated 9 10.
      visit_skipped Fixtures.tg_truncated 9 9.
      constructor.
    + lia.
    + vm_compute. reflexivity.
    + vm_compute. reflexivity.
    + vm_compute. lia.
    + split; intros l Hl; vm_compute in Hl; injection Hl as <-;
        vm_compute; eexists; reflexivity.
  - refine (proj1 (proj2 (textgrid_field_reads_unbounded Fixtures.tg_cross_tier
              2%Z [(9, Some 17); (18, Some 27)] 0 9 17 14 []
              ("        intervals [1]:" +:+ Fixtures.nl)
              _ _ _ _ _ _ _)
              (TextGrid.Interval (XNum 0) (XNum (5 # 4)) "item [2]:") _ _)).
    + vm_compute. reflexivity.
    + reflexivity.
    + intros j' r' Hj'. lia.
    + visit_skipped Fixtures.tg_cross_tier 9 13.
      visit_skipped Fixtures.tg_cross_tier 9 12.
      visit_skipped Fixtures.tg_cross_tier 9 11.
      visit_skipped Fixtures.tg_cross_tier 9 10.
      visit_skipped Fixtures.tg_cross_tier 9 9.
      constructor.
    + lia.
    + vm_compute. reflexivity.
    + vm_compute. reflexivity.
    + lia.
    + vm_compute. reflexivity.
Defined.

(** * Lemmas on the patterns of the formant report *)

Lemma append_nil_r (s : string) : s +:+ "" = s.
Proof. induction s; simpl; congruence. Qed.

Lemma append_assoc (a b c : string) : (a +:+ b) +:+ c = a +:+ b +:+ c.
Proof. induction a; simpl; congruence. Qed.

Lemma span_append (p : ascii -> bool) (s a b : string) :
  span p s = (a, b) -> s = a +:+ b.
Proof.
  revert a b. induction s as [|c s IH]; simpl; intros a b.
  - now intros [= <- <-].
  - destruct (p c).
    + destruct (span p s) as [a' b'] eqn:E. intros [= <- <-].
      simpl. f_equal. now apply IH.
    + now intros [= <- <-].
Qed.

Lemma span_fst_idem (p : ascii -> bool) (s a b : string) :
  span p s = (a, b) -> span p a = (a, EmptyString).
Proof.
  revert a b. induction s as [|c s IH]; simpl; intros a b.
  - now intros [= <- <-].
  - destruct (p c) eqn:Hc.
    + destruct (span p s) as [a' b'] eqn:E. intros [= <- <-].
      simpl. rewrite Hc. now rewrite (IH _ _ eq_refl).
    + now intros [= <- <-].
Qed.

Lemma span_rest_head (p : ascii -> bool) (s a : string) (c : ascii) (r : string) :
  span p s = (a, String c r) -> p c = false.
Proof.
  revert a. induction s as [|c' s IH]; simpl; intros a.
  - discriminate.
  - destruct (p c') eqn:Hc.
    + destruct (span p s) as [a' b'] eqn:E. intros [= <- ->]. eauto.
    + intros [= <- <- <-]. exact Hc.
Qed.

Lemma span_all (p : ascii -> bool) (s : string) (c : ascii) (r : string) :
  span p s = (s, EmptyString) -> s = String c r ->
  p c = true /\ span p r = (r, EmptyString).
Proof.
  intros Hs ->. simpl in Hs. destruct (p c); [|discriminate].
  destruct (span p r) as [a b]. injection Hs as -> ->. auto.
Qed.

Lemma all_digits_of_span (s ds r : string) (c : ascii) :
  span is_digit s = (String c ds, r) -> all_digits (String c ds) = true.
Proof.
  intros H. unfold all_digits. now rewrite (span_fst_idem _ _ _ _ H).
Qed.

Lemma digit_not_space (c : ascii) : is_digit c = true -> is_space3 c = false.
Proof.
  unfold is_digit, is_space3. generalize (nat_of_ascii c). intros n H.
  apply andb_true_iff in H as [H1 H2].
  apply Nat.leb_le in H1, H2.
  repeat match goal with
         | |- context [?a <=? ?b] =>
             destruct (Nat.leb_spec a b); try lia
         | |- context [?a =? ?b] =>
             destruct (Nat.eqb_spec a b); try lia
         end; reflexivity.
Qed.

Lemma digit_not_sign (c : ascii) :
  is_digit c = true -> Ascii.eqb c "+" || Ascii.eqb c "-" = false.
Proof.
  intros H.
  destruct (Ascii.eqb_spec c "+") as [->|_]; [discriminate H|].
  destruct (Ascii.eqb_spec c "-") as [->|_]; [discriminate H|].
  reflexivity.
Qed.

(** Stripping changes nothing in a string that neither begins nor ends with
    a character of the set. *)
Lemma rstrip_id (p : ascii -> bool) (s : string) :
  (forall c, last_char s = Some c -> p c = false) -> rstrip p s = s.
Proof.
  induction s as [|c s IH]; simpl; [reflexivity|].
  intros H. destruct s as [|c' s'].
  - simpl. now rewrite (H c eq_refl).
  - rewrite IH by exact H. reflexivity.
Qed.

Lemma last_char_all (p : ascii -> bool) (s : string) (c : ascii) :
  span p s = (s, EmptyString) -> last_char s = Some c -> p c = true.
Proof.
  induction s as [|c' s IH]; simpl; [discriminate|].
  destruct (p c') eqn:Hc; [|discriminate].
  destruct (span p s) as [a b] eqn:E. intros [= -> ->].
  destruct s as [|c'' s'']; [intros [= <-]; exact Hc | apply IH; reflexivity].
Qed.

Lemma strip_digits (g : string) :
  all_digits g = true -> strip is_space3 g = g.
Proof.
  intros H. destruct (all_digits_span _ H) as (Hs & d & r & ->).
  destruct (span_all _ _ _ _ Hs eq_refl) as [Hd _].
  unfold strip. simpl lstrip. rewrite (digit_not_space _ Hd).
  apply rstrip_id. intros c Hc.
  apply digit_not_space. exact (last_char_all _ _ _ Hs Hc).
Qed.

(** [int] of a string of digits is its value. *)
Lemma int_of_string_digits (g : string) :
  all_digits g = true -> int_of_string is_space3 g = Ok (digits_value g).
Proof.
  intros H. unfold int_of_string. rewrite (strip_digits _ H).
  destruct (all_digits_span _ H) as (Hs & d & r & ->).
  destruct (span_all _ _ _ _ Hs eq_refl) as [Hd _].
  pose proof (digit_not_sign _ Hd) as Hsg.
  apply orb_false_iff in Hsg as [Hp Hm]. rewrite Hp, Hm.
  now rewrite H.
Qed.

(** ** The number pattern *)

Lemma take_sign_shape (s sg r : string) :
  take_sign s = (sg, r) ->
  s = sg +:+ r /\ (sg = "" \/ sg = "+" \/ sg = "-").
Proof.
  destruct s as [|c s]; simpl.
  - intros [= <- <-]. auto.
  - destruct (Ascii.eqb_spec c "+") as [->|Hp]; simpl.
    { intros [= <- <-]. auto. }
    destruct (Ascii.eqb_spec c "-") as [->|Hm]; simpl.
    { intros [= <- <-]. auto. }
    intros [= <- <-]. auto.
Qed.

Lemma take_fraction_shape (s fr r : string) :
  take_fraction s = (fr, r) ->
  s = fr +:+ r /\
  (fr = "" \/ exists ds, fr = String "." ds /\ all_digits ds = true).
Proof.
  destruct s as [|c s]; simpl.
  - intros [= <- <-]. auto.
  - destruct (Ascii.eqb_spec c ".") as [->|Hc].
    + destruct (span is_digit s) as [[|d ds] r'] eqn:E.
      * intros [= <- <-]. auto.
      * intros [= <- <-]. split.
        -- simpl. f_equal. exact (span_append _ _ _ _ E).
        -- right. exists (String d ds). split; [reflexivity|].
           exact (all_digits_of_span _ _ _ _ E).
    + intros [= <- <-]. auto.
Qed.

Lemma take_exponent_shape (s ex r : string) :
  take_exponent s = (ex, r) ->
  s = ex +:+ r /\
  (ex = "" \/ exists sg ds, ex = String "e" (sg +:+ ds) /\
                (sg = "" \/ sg = "+" \/ sg = "-") /\ all_digits ds = true).
Proof.
  destruct s as [|c s]; simpl.
  - intros [= <- <-]. auto.
  - destruct (Ascii.eqb_spec c "e") as [->|Hc].
    + destruct (take_sign s) as [sg r1] eqn:Hsg.
      destruct (span is_digit r1) as [[|d ds] r'] eqn:E.
      * intros [= <- <-]. auto.
      * intros [= <- <-].
        destruct (take_sign_shape _ _ _ Hsg) as [-> Hshape]. split.
        -- simpl. f_equal. rewrite append_assoc. f_equal.
           exact (span_append _ _ _ _ E).
        -- right. exists sg, (String d ds). repeat split; auto.
           exact (all_digits_of_span _ _ _ _ E).
    + intros [= <- <-]. auto.
Qed.

Lemma take_sign_digits (sg ds : string) :
  sg = "" \/ sg = "+" \/ sg = "-" -> all_digits ds = true ->
  take_sign (sg +:+ ds) = (sg, ds).
Proof.
  intros Hsg Hds. destruct (all_digits_span _ Hds) as (Hs & d & r & ->).
  destruct (span_all _ _ _ _ Hs eq_refl) as [Hd _].
  destruct Hsg as [->|[->| ->]]; simpl; try reflexivity.
  now rewrite (digit_not_sign _ Hd).
Qed.

Lemma take_exponent_whole (ex : string) :
  (ex = "" \/ exists sg ds, ex = String "e" (sg +:+ ds) /\
                (sg = "" \/ sg = "+" \/ sg = "-") /\ all_digits ds = true) ->
  take_exponent ex = (ex, EmptyString).
Proof.
  intros [->|(sg & ds & -> & Hsg & Hds)]; [reflexivity|].
  simpl. rewrite (take_sign_digits _ _ Hsg Hds).
  destruct (all_digits_span _ Hds) as (Hs & d & r & ->).
  now rewrite Hs.
Qed.

Lemma exponent_head (ex : string) :
  (ex = "" \/ exists sg ds, ex = String "e" (sg +:+ ds) /\
                (sg = "" \/ sg = "+" \/ sg = "-") /\ all_digits ds = true) ->
  match ex with
  | String c _ => is_digit c = false /\ Ascii.eqb c "." = false
  | EmptyString => True
  end.
Proof. intros [->|(sg & ds & -> & _)]; simpl; auto. Qed.

Lemma take_fraction_whole (fr ex : string) :
  (fr = "" \/ exists ds, fr = String "." ds /\ all_digits ds = true) ->
  match ex with
  | String c _ => is_digit c = false /\ Ascii.eqb c "." = false
  | EmptyString => True
  end ->
  take_fraction (fr +:+ ex) = (fr, ex).
Proof.
  intros [->|(ds & -> & Hds)] Hex.
  - simpl. destruct ex as [|c ex]; [reflexivity|].
    simpl. destruct Hex as [_ ->]. reflexivity.
  - simpl. destruct (all_digits_span _ Hds) as (Hs & d & r & ->).
    rewrite (span_app_stop _ _ _ Hs).
    + reflexivity.
    + destruct ex; [exact I | apply Hex].
Qed.

(** What the number pattern captures is itself a decimal literal. *)
Lemma take_number_literal (s g r : string) :
  take_number s = Some (g, r) -> number_literal g = true.
Proof.
  unfold take_number.
  destruct (span is_digit s) as [[|d ds] r0] eqn:E; [discriminate|].
  destruct (take_fraction r0) as [fr r1] eqn:Hfr.
  destruct (take_exponent r1) as [ex r2] eqn:Hex.
  intros [= <- <-].
  destruct (take_fraction_shape _ _ _ Hfr) as [_ Hfrs].
  destruct (take_exponent_shape _ _ _ Hex) as [_ Hexs].
  pose proof (exponent_head _ Hexs) as Hhead.
  unfold number_literal, take_number.
  change (String d (ds +:+ fr +:+ ex)) with (String d ds +:+ fr +:+ ex).
  rewrite (span_app_stop _ (String d ds) (fr +:+ ex)
             (span_fst_idem _ _ _ _ E)).
  - rewrite (take_fraction_whole _ _ Hfrs Hhead).
    rewrite (take_exponent_whole _ Hexs). reflexivity.
  - destruct Hfrs as [->|(ds' & -> & _)]; simpl; [|reflexivity].
    destruct ex; [exact I | apply Hhead].
Qed.

(** * Lemmas on the search for a line *)

Section FormantsSearch.
Import Formants.

Lemma option_bind_Some {A B : Type} (o : option A) (k : A -> option B) (b : B) :
  o ≫= k = Some b -> exists a, o = Some a /\ k a = Some b.
Proof. destruct o; simpl; [eauto | discriminate]. Qed.

Lemma re_match_nonempty (r : regex) (l : string) (m : match_object) :
  re_match r l = Some m -> l <> EmptyString.
Proof.
  intros H ->. destruct r as [k| | | |]; simpl in H; try discriminate.
  destruct k; simpl in H; discriminate.
Qed.

Lemma truthy_found (r : regex) (l : string) (m : match_object) :
  re_match r l = Some m -> truthy (Some l) = true.
Proof.
  intros H. apply re_match_nonempty in H. simpl.
  destruct (String.eqb_spec l EmptyString); [contradiction | reflexivity].
Qed.

Lemma match_indexed_inv (name l : string) (m : match_object) :
  match_indexed name l = Some m ->
  (exists r, l = name +:+ r) /\
  exists g, m = Some g /\ all_digits g = true.
Proof.
  unfold match_indexed. intros H.
  apply option_bind_Some in H as (r & Hr & H).
  apply option_bind_Some in H as (r1 & Hr1 & H).
  destruct (span is_digit r1) as [[|d ds] r'] eqn:E; [discriminate|].
  apply option_bind_Some in H as (r2 & Hr2 & H).
  injection H as <-. apply expect_Some in Hr. split; [eauto|].
  exists (String d ds). split; [reflexivity|].
  exact (all_digits_of_span _ _ _ _ E).
Qed.

Lemma match_array_inv (name l : string) (m : match_object) :
  match_array name l = Some m -> (exists r, l = name +:+ r) /\ m = None.
Proof.
  unfold match_array. intros H.
  apply option_bind_Some in H as (r & Hr & H).
  apply option_bind_Some in H as (r1 & Hr1 & H).
  apply option_bind_Some in H as (r2 & Hr2 & H).
  injection H as <-. apply expect_Some in Hr. eauto.
Qed.

Lemma re_kw_inv (k l : string) (m : match_object) :
  re_match (Re_kw k) l = Some m ->
  (exists r, l = k +:+ r) /\
  exists g, m = Some g /\ number_literal g = true.
Proof.
  simpl. intros H.
  apply option_bind_Some in H as (r & Hr & H).
  apply option_bind_Some in H as (r1 & Hr1 & H).
  apply option_bind_Some in H as ([g r2] & Hg & H).
  injection H as <-. apply expect_Some in Hr. split; [eauto|].
  exists g. split; [reflexivity|]. exact (take_number_literal _ _ _ Hg).
Qed.

Lemma re_match_keyword (r : regex) (l : string) (m : match_object) :
  re_match r l = Some m -> exists rest, l = regex_keyword r +:+ rest.
Proof.
  destruct r; simpl regex_keyword; intros H.
  - apply re_kw_inv in H. tauto.
  - apply match_array_inv in H. tauto.
  - apply match_indexed_inv in H. tauto.
  - apply match_array_inv in H. tauto.
  - apply match_indexed_inv in H. tauto.
Qed.

(** Two patterns whose keywords differ in their first character match no
    common line. *)
Lemma re_match_disjoint (r1 r2 : regex) (l : string) (m1 m2 : match_object)
    (c1 c2 : ascii) (k1 k2 : string) :
  regex_keyword r1 = String c1 k1 -> regex_keyword r2 = String c2 k2 ->
  c1 <> c2 ->
  re_match r1 l = Some m1 -> re_match r2 l = Some m2 -> False.
Proof.
  intros H1 H2 Hne Hm1 Hm2.
  apply re_match_keyword in Hm1 as [a ->].
  apply re_match_keyword in Hm2 as [b Hb].
  rewrite H1, H2 in Hb. simpl in Hb. congruence.
Qed.

Lemma search_spec (r : regex) (ls : list string) (k : nat)
    (lm : option match_object) :
  match search (PRe r) ls k lm with
  | (Some (k', l), lm') =>
      k <= k' /\ ls !! (k' - k) = Some l /\
      (exists m, re_match r l = Some m /\ lm' = Some m) /\
      forall j l', j < k' - k -> ls !! j = Some l' -> re_match r l' = None
  | (None, lm') =>
      Forall (fun l => re_match r l = None) ls /\
      lm' = match ls with [] => lm | _ => None end
  end.
Proof.
  revert k lm. induction ls as [|x ls IH]; intros k lm; simpl.
  - auto.
  - destruct (re_match r x) as [m|] eqn:Hx.
    + rewrite Nat.sub_diag. repeat split; eauto. intros j l' Hj. lia.
    + specialize (IH (S k) None).
      destruct (search (PRe r) ls (S k) None) as [[[k' l]|] lm'].
      * destruct IH as (Hle & Hl & Hm & Hbefore).
        replace (k' - k) with (S (k' - S k)) by lia.
        repeat split; auto; [lia|].
        intros [|j] l'; simpl; [congruence|].
        intros Hj. apply Hbefore. lia.
      * destruct IH as [HF ->]. split; [now constructor|].
        now destruct ls.
Qed.

(** What [_find_line] does with a compiled pattern, searching from line
    [from]. *)
Lemma find_line_spec (f : list string) (r : regex) (io : option nat)
    (st : cursor) :
  let from := default (self_i st) io in
  match _find_line f (PRe r) io st with
  | Ok (Some l, st') =>
      from <= self_i st' /\ f !! self_i st' = Some l /\
      (exists m, re_match r l = Some m /\ last_match st' = Some m) /\
      (forall j l', from <= j < self_i st' -> f !! j = Some l' ->
                    re_match r l' = None)
  | Ok (None, st') =>
      self_i st' = self_i st /\
      (forall j l', from <= j -> f !! j = Some l' -> re_match r l' = None) /\
      (from < length f -> last_match st' = None) /\
      (length f <= from -> last_match st' = last_match st)
  | _ => False
  end.
Proof.
  intros from. unfold _find_line. fold from.
  pose proof (search_spec r (drop from f) from (last_match st)) as H.
  destruct (search (PRe r) (drop from f) from (last_match st))
    as [[[k l]|] lm'].
  - destruct H as (Hle & Hl & Hm & Hbefore). simpl.
    rewrite lookup_drop in Hl.
    replace (from + (k - from)) with k in Hl by lia.
    repeat split; auto.
    intros j l' Hj Hl'. apply (Hbefore (j - from)); [lia|].
    rewrite lookup_drop. now replace (from + (j - from)) with j by lia.
  - destruct H as [HF ->]. simpl. repeat split.
    + intros j l' Hj Hl'. rewrite Forall_lookup in HF.
      apply (HF (j - from)). rewrite lookup_drop.
      now replace (from + (j - from)) with j by lia.
    + intros Hlt. destruct (drop from f) eqn:Hd; [|reflexivity].
      apply (f_equal length) in Hd. rewrite length_drop in Hd.
      simpl in Hd. lia.
    + intros Hge. now rewrite drop_ge.
Qed.

Lemma lookup_lt_length {A : Type} (l : list A) (i : nat) (x : A) :
  l !! i = Some x -> i < length l.
Proof. apply lookup_lt_Some. Qed.

End FormantsSearch.

(** * Lemmas on the steps of the formant parser *)

Section FormantsSteps.
Context `{FL : PyFloat}.
Import Formants.

Lemma M_bind_unfold {A B : Type} (m : M A) (k : A -> M B) (st : cursor) :
  (m ≫= k) st =
  match m st with
  | Ok (a, st') => k a st'
  | Raise e => Raise e
  | OutOfFuel => OutOfFuel
  end.
Proof. reflexivity. Qed.

Lemma M_bind_Ok_inv {A B : Type} (m : M A) (k : A -> M B) (st : cursor)
    (r : B * cursor) :
  (m ≫= k) st = Ok r ->
  exists a st1, m st = Ok (a, st1) /\ k a st1 = Ok r.
Proof.
  rewrite M_bind_unfold. destruct (m st) as [[a st1]| |]; try discriminate.
  eauto.
Qed.

Lemma M_bind_Ok {A B : Type} (m : M A) (k : A -> M B) (st st1 : cursor)
    (a : A) :
  m st = Ok (a, st1) -> (m ≫= k) st = k a st1.
Proof. intros H. rewrite M_bind_unfold. now rewrite H. Qed.

Lemma M_bind_Raise {A B : Type} (m : M A) (k : A -> M B) (st : cursor)
    (e : pyerr) :
  m st = Raise e -> (m ≫= k) st = Raise e.
Proof. intros H. rewrite M_bind_unfold. now rewrite H. Qed.

Lemma lift_Ok_inv {A : Type} (r : result A) (st : cursor) (a : A)
    (st' : cursor) :
  lift r st = Ok (a, st') -> r = Ok a /\ st' = st.
Proof. destruct r; simpl; intros H; try discriminate. now injection H as -> ->. Qed.

Lemma int_group1_found (st : cursor) (g : string) :
  last_match st = Some (Some g) -> all_digits g = true ->
  int_group1 st = Ok (digits_value g, st).
Proof.
  intros Hm Hg. unfold int_group1. rewrite M_bind_unfold.
  unfold group1. rewrite Hm. simpl.
  now rewrite (int_of_string_digits _ Hg).
Qed.

Lemma float_group1_found (st : cursor) (g : string) :
  last_match st = Some (Some g) -> number_literal g = true ->
  exists x, float_group1 st = Ok (x, st) /\ parse_float g = Some x /\
            x <> nan.
Proof.
  intros Hm Hg. destruct (parse_float_number g Hg) as (x & Hx & Hnan).
  exists x. split; [|auto].
  unfold float_group1. rewrite M_bind_unfold.
  unfold group1. rewrite Hm. simpl.
  unfold float_of_string. now rewrite Hx.
Qed.

Lemma float_group1_none (st : cursor) :
  last_match st = None -> float_group1 st = raise_builtin AttributeError.
Proof.
  intros Hm. unfold float_group1. rewrite M_bind_unfold.
  unfold group1. now rewrite Hm.
Qed.

(** A failed search leaves no match behind. *)
Lemma find_line_failed (f : list string) (r : regex) (st st' : cursor) :
  cursor_ok f st -> _find_line f (PRe r) None st = Ok (None, st') ->
  self_i st' = self_i st /\ last_match st' = None /\
  forall j l', self_i st <= j -> f !! j = Some l' -> re_match r l' = None.
Proof.
  intros Hok H. pose proof (find_line_spec f r None st) as Hs.
  rewrite H in Hs. simpl in Hs. destruct Hs as (Hi & Hnone & Hlt & Hge).
  split; [exact Hi|]. split; [|exact Hnone].
  destruct (Nat.lt_ge_cases (self_i st) (length f)) as [Hin|Hout].
  - auto.
  - rewrite (Hge Hout). destruct Hok as [Hok|Hok]; [lia | exact Hok].
Qed.

(** A field is searched from the cursor on: it is found, on a line at or
    after the cursor, and converted; or it is not, and reading the group
    of the match raises AttributeError. *)
Lemma find_field_spec (f : list string) (k : string) (st : cursor) :
  cursor_ok f st ->
  match find_field f k st with
  | Ok (x, st') =>
      x <> nan /\ self_i st <= self_i st' /\ self_i st' < length f /\
      (exists l g, f !! self_i st' = Some l /\
         re_match (Re_kw k) l = Some (Some g) /\ parse_float g = Some x /\
         last_match st' = Some (Some g)) /\
      (forall j l', self_i st <= j < self_i st' -> f !! j = Some l' ->
                    re_match (Re_kw k) l' = None)
  | Raise e =>
      e = PyErr AttributeError None /\
      forall j l', self_i st <= j -> f !! j = Some l' ->
                   re_match (Re_kw k) l' = None
  | OutOfFuel => False
  end.
Proof.
  intros Hok. unfold find_field. rewrite M_bind_unfold.
  pose proof (find_line_spec f (Re_kw k) None st) as Hs.
  destruct (_find_line f (PRe (Re_kw k)) None st) as [[[l|] st1]| |] eqn:Hf;
    try contradiction; simpl in Hs.
  - destruct Hs as (Hle & Hl & (m & Hm & Hlm) & Hbefore).
    destruct (re_kw_inv _ _ _ Hm) as (_ & g & -> & Hg).
    destruct (float_group1_found _ _ Hlm Hg) as (x & -> & Hx & Hnan).
    repeat split; auto.
    + exact (lookup_lt_Some _ _ _ Hl).
    + exists l, g. auto.
  - destruct (find_line_failed _ _ _ _ Hok Hf) as (Hi & Hlm & Hnone).
    rewrite (float_group1_none _ Hlm). split; [reflexivity | exact Hnone].
Qed.

(** The search for an indexed marker, [frames [n]:] or [formant [n]:]. *)
Lemma find_marker_spec (f : list string) (r : regex) (io : option nat)
    (st : cursor) :
  r = Re_frames \/ r = Re_formant ->
  match _find_line f (PRe r) io st with
  | Ok (Some l, st') =>
      truthy (Some l) = true /\
      default (self_i st) io <= self_i st' /\ self_i st' < length f /\
      f !! self_i st' = Some l /\
      (exists g, re_match r l = Some (Some g) /\ all_digits g = true /\
         int_group1 st' = Ok (digits_value g, st')) /\
      (forall j l', default (self_i st) io <= j < self_i st' ->
                    f !! j = Some l' -> re_match r l' = None)
  | Ok (None, st') =>
      self_i st' = self_i st /\
      (forall j l', default (self_i st) io <= j -> f !! j = Some l' ->
                    re_match r l' = None) /\
      (default (self_i st) io < length f -> last_match st' = None) /\
      (length f <= default (self_i st) io -> last_match st' = last_match st)
  | _ => False
  end.
Proof.
  intros Hr. pose proof (find_line_spec f r io st) as Hs.
  destruct (_find_line f (PRe r) io st) as [[[l|] st1]| |]; simpl in Hs;
    try contradiction; [|exact Hs].
  destruct Hs as (Hle & Hl & (m & Hm & Hlm) & Hbefore).
  assert (exists g, m = Some g /\ all_digits g = true) as (g & -> & Hg).
  { destruct Hr as [-> | ->]; simpl in Hm;
      apply match_indexed_inv in Hm; tauto. }
  repeat split; auto.
  - exact (truthy_found _ _ _ Hm).
  - exact (lookup_lt_Some _ _ _ Hl).
  - exists g. repeat split; auto. now apply int_group1_found.
Qed.

Lemma setitem_Ok_inv {A : Type} (l : list A) (i : Z) (x : A) (l' : list A) :
  setitem l i x = Ok l' ->
  exists k, slot_of (length l) i = Some k /\ l' = <[k := x]> l.
Proof.
  unfold setitem. destruct (slot_of (length l) i) as [k|]; [|discriminate].
  intros [= <-]. eauto.
Qed.

Lemma slot_of_lt (len : nat) (i : Z) (k : nat) :
  slot_of len i = Some k -> k < len.
Proof.
  unfold slot_of.
  destruct ((0 <=? i)%Z && (i <? Z.of_nat len)%Z) eqn:H1.
  - intros [= <-]. apply andb_true_iff in H1 as [Ha Hb]. lia.
  - destruct ((i <? 0)%Z && (- Z.of_nat len <=? i)%Z) eqn:H2; [|discriminate].
    intros [= <-]. apply andb_true_iff in H2 as [Ha Hb]. lia.
Qed.

Lemma formant_loop_S fuel f nf fs bs :
  formant_loop (S fuel) f nf fs bs =
  (r ← _find_line f (PRe Re_formant) None;
   if truthy r then
     idx ← int_group1;
     let formant_i := (idx - 1)%Z in
     i ← get_i;
     if nf <? i then
       _ ← set_i nf; mret (fs, bs)
     else
       frq ← find_field f "frequency";
       fs ← lift (setitem fs formant_i frq);
       bw ← find_field f "bandwidth";
       bs ← lift (setitem bs formant_i bw);
       formant_loop fuel f nf fs bs
   else mret (fs, bs)).
Proof. reflexivity. Qed.

(** What the loop over the formants of a frame has done when it ends
    without an exception. *)
Lemma formant_loop_spec fuel f nf fs bs st fs' bs' st' :
  formant_loop fuel f nf fs bs st = Ok ((fs', bs'), st') ->
  length bs = length fs -> cursor_ok f st -> nf <= length f ->
  exists recs : list stored,
    length fs' = length fs /\ length bs' = length fs /\
    Forall (fun rec => self_i st <= st_line rec <= nf /\
                       stored_at f (length fs) rec) recs /\
    (forall k, k ∉ (st_slot <$> recs) ->
               fs' !! k = fs !! k /\ bs' !! k = bs !! k) /\
    (forall k, k ∈ (st_slot <$> recs) ->
       exists x y, fs' !! k = Some x /\ bs' !! k = Some y /\
                   x <> nan /\ y <> nan) /\
    (self_i st <= self_i st' \/ self_i st' = nf) /\ cursor_ok f st'.
Proof.
  revert fs bs st. induction fuel as [|fuel IH]; intros fs bs st H Hlen Hok Hnf.
  - discriminate.
  - rewrite formant_loop_S in H.
    apply M_bind_Ok_inv in H as (r & st1 & Hfind & H).
    pose proof (find_marker_spec f Re_formant None st (or_intror eq_refl)) as Hs.
    rewrite Hfind in Hs. destruct r as [l|].
    + destruct Hs as (Htr & Hle & Hlt & Hl & (g & Hm & Hg & Hint) & Hbefore).
      rewrite Htr in H. simpl in Hle.
      apply M_bind_Ok_inv in H as (idx & st1' & Hidx & H).
      rewrite Hint in Hidx. injection Hidx as <- <-.
      apply M_bind_Ok_inv in H as (i & st1' & Hi & H).
      injection Hi as <- <-.
      destruct (nf <? self_i st1) eqn:Hbreak.
      * apply Nat.ltb_lt in Hbreak.
        apply M_bind_Ok_inv in H as ([] & st2 & Hset & H).
        injection Hset as <-. injection H as <- <- <-.
        exists []. simpl. repeat split; auto.
        -- intros k Hk. inversion Hk.
        -- left. simpl. lia.
      * apply Nat.ltb_ge in Hbreak.
        apply M_bind_Ok_inv in H as (frq & st2 & Hfrq & H).
        assert (cursor_ok f st1) as Hok1 by (left; exact Hlt).
        pose proof (find_field_spec f "frequency" st1 Hok1) as Hs2.
        rewrite Hfrq in Hs2.
        destruct Hs2 as (Hfrq_nan & Hle2 & Hlt2 & _ & _).
        apply M_bind_Ok_inv in H as (fs1 & st2' & Hset1 & H).
        apply lift_Ok_inv in Hset1 as [Hset1 ->].
        apply setitem_Ok_inv in Hset1 as (k0 & Hslot & ->).
        apply M_bind_Ok_inv in H as (bw & st3 & Hbw & H).
        assert (cursor_ok f st2) as Hok2 by (left; exact Hlt2).
        pose proof (find_field_spec f "bandwidth" st2 Hok2) as Hs3.
        rewrite Hbw in Hs3.
        destruct Hs3 as (Hbw_nan & Hle3 & Hlt3 & _ & _).
        apply M_bind_Ok_inv in H as (bs1 & st3' & Hset2 & H).
        apply lift_Ok_inv in Hset2 as [Hset2 ->].
        apply setitem_Ok_inv in Hset2 as (k0' & Hslot' & ->).
        rewrite Hlen in Hslot'. rewrite Hslot in Hslot'.
        injection Hslot' as <-.
        pose proof (slot_of_lt _ _ _ Hslot) as Hk0.
        apply IH in H; [| rewrite !length_insert; exact Hlen
                        | left; exact Hlt3 | exact Hnf].
        destruct H as (recs & Hl1 & Hl2 & HF & Hout & Hin & Hprog & Hok').
        rewrite length_insert in Hl1, Hl2, HF.
        exists (Stored (self_i st1) (digits_value g) k0 :: recs).
        split; [exact Hl1|]. split; [exact Hl2|]. split; [|split; [|split]].
        -- constructor.
           ++ simpl. split; [lia|]. exists l, g. simpl. auto.
           ++ eapply Forall_impl; [exact HF|]. simpl.
              intros rec [Hr1 Hr2]. split; [lia | exact Hr2].
        -- intros k Hk. simpl in Hk.
           apply not_elem_of_cons in Hk as [Hne Hk].
           destruct (Hout k Hk) as [-> ->].
           rewrite !list_lookup_insert_ne by congruence. auto.
        -- intros k Hk. simpl in Hk.
           destruct (decide (k ∈ st_slot <$> recs)) as [Hin'|Hnin].
           ++ exact (Hin k Hin').
           ++ apply elem_of_cons in Hk as [->|Hk]; [|contradiction].
              destruct (Hout k0 Hnin) as [-> ->].
              exists frq, bw.
              rewrite !list_lookup_insert_eq by lia. auto.
        -- split; [|exact Hok'].
           destruct Hprog as [Hprog|Hprog]; [left; lia | right; exact Hprog].
    + destruct Hs as (Hi & _ & Hlm1 & Hlm2). simpl in H.
      injection H as <- <- <-.
      exists []. simpl. repeat split; auto.
      * intros k Hk. inversion Hk.
      * left. lia.
      * destruct (find_line_failed _ _ _ _ Hok Hfind) as (_ & Hn & _).
        right. exact Hn.
Qed.

End FormantsSteps.

(** * The loop over the frames *)

Section FormantsFrames.
Context `{FL : PyFloat}.
Import Formants.

Lemma frames_loop_S fuel f d :
  frames_loop (S fuel) f d =
  (r ← _find_line f (PRe Re_frames) None;
   if truthy r then
     idx ← int_group1;
     let frame := (idx - 1)%Z in
     off ← lift (int_mul_float frame (dx d));
     let t' := t d ++ [fadd (x1 d) off] in
     v ← find_field f "intensity";
     let intensity' := intensity d ++ [v] in
     i_frame ← get_i;
     r ← _find_line f (PRe Re_frames) (Some (i_frame + 1));
     next_frame ← (if truthy r then get_i else mret (length f));
     _ ← set_i i_frame;
     _ ← _find_line f (PRe Re_formant_array) None;
     let width := Z.to_nat (maxnFormants d) in
     '(fs, bs) ← formant_loop (S (length f)) f next_frame
                   (replicate width nan) (replicate width nan);
     frames_loop fuel f
       (Data (xmin d) (xmax d) (nx d) (dx d) (x1 d) (maxnFormants d)
          t' (formants d ++ [fs]) (bandwidths d ++ [bs]) intensity')
   else mret d).
Proof. reflexivity. Qed.

(** The upper bound of a frame, as the parser computes it from the line
    [i_frame] of the intensity: beyond that line, and within the file. *)
Lemma next_frame_spec f i_frame st r st3 next_frame st3' :
  self_i st = i_frame -> i_frame < length f ->
  _find_line f (PRe Re_frames) (Some (i_frame + 1)) st = Ok (r, st3) ->
  (if truthy r then get_i else mret (length f)) st3 = Ok (next_frame, st3') ->
  st3' = st3 /\ i_frame < next_frame <= length f /\
  (self_i st3 = i_frame \/ self_i st3 = next_frame) /\
  (forall j l', i_frame < j < next_frame -> f !! j = Some l' ->
                re_match Re_frames l' = None) /\
  (next_frame < length f ->
   exists l m, f !! next_frame = Some l /\ re_match Re_frames l = Some m).
Proof.
  intros Hi Hlt Hfind Hnext.
  pose proof (find_marker_spec f Re_frames (Some (i_frame + 1)) st
                (or_introl eq_refl)) as Hs.
  rewrite Hfind in Hs. simpl in Hs. destruct r as [l|].
  - destruct Hs as (Htr & Hle & Hlt' & Hl & (g & Hm & _) & Hbefore).
    change (truthy (Some l) = true) in Htr.
    rewrite Htr in Hnext. injection Hnext as <- <-.
    split; [reflexivity|]. split; [lia|]. split; [now right|]. split.
    + intros j l' Hj. apply Hbefore. lia.
    + intros _. eauto.
  - destruct Hs as (Hi' & Hnone & _). simpl in Hnext.
    injection Hnext as <- <-.
    split; [reflexivity|]. split; [lia|]. split; [left; congruence|]. split.
    + intros j l' Hj. apply Hnone. lia.
    + lia.
Qed.

Lemma lookup_replicate_nan (width k : nat) :
  k < width -> replicate width nan !! k = Some nan.
Proof. intros H. now apply lookup_replicate_2. Qed.

(** What the loop over the frames has done when it ends without an
    exception: it has appended the frames [rows], whose markers stand on
    increasing lines at or after the cursor. *)
Lemma frames_loop_spec fuel f d st d' st' :
  frames_loop fuel f d st = Ok (d', st') -> cursor_ok f st ->
  exists rows : list frame_row,
    extends_by d d' rows /\
    Forall (frame_row_ok f (x1 d) (dx d) (Z.to_nat (maxnFormants d))) rows /\
    StronglySorted lt (row_line <$> rows) /\
    Forall (fun row => self_i st <= row_line row) rows.
Proof.
  revert d st. induction fuel as [|fuel IH]; intros d st H Hok.
  - discriminate.
  - rewrite frames_loop_S in H.
    apply M_bind_Ok_inv in H as (r & st1 & Hfind & H).
    pose proof (find_marker_spec f Re_frames None st (or_introl eq_refl)) as Hs.
    rewrite Hfind in Hs. destruct r as [l|].
    + destruct Hs as (Htr & Hle & Hlt & Hl & (g & Hm & Hg & Hint) & _).
      rewrite Htr in H. simpl in Hle.
      apply M_bind_Ok_inv in H as (idx & st1' & Hidx & H).
      rewrite Hint in Hidx. injection Hidx as <- <-.
      apply M_bind_Ok_inv in H as (off & st1' & Hoff & H).
      apply lift_Ok_inv in Hoff as [Hoff ->].
      apply M_bind_Ok_inv in H as (v & st2 & Hv & H).
      pose proof (find_field_spec f "intensity" st1 (or_introl Hlt)) as Hs2.
      rewrite Hv in Hs2.
      destruct Hs2 as (Hv_nan & Hle2 & Hlt2 & (l2 & g2 & Hl2 & Hm2 & Hp2 & _) & _).
      assert (self_i st1 < self_i st2) as Hadv.
      { destruct (decide (self_i st1 = self_i st2)) as [Heq|]; [|lia].
        rewrite <- Heq in Hl2. rewrite Hl in Hl2. injection Hl2 as <-.
        exfalso.
        eapply (re_match_disjoint Re_frames (Re_kw "intensity") l);
          [reflexivity | reflexivity | | exact Hm | exact Hm2].
        discriminate. }
      apply M_bind_Ok_inv in H as (i_frame & st2' & Hi & H).
      injection Hi as <- <-.
      apply M_bind_Ok_inv in H as (r3 & st3 & Hfind3 & H).
      apply M_bind_Ok_inv in H as (next_frame & st3' & Hnext & H).
      destruct (next_frame_spec _ _ _ _ _ _ _ eq_refl Hlt2 Hfind3 Hnext)
        as (-> & Hnf & _ & _ & _).
      apply M_bind_Ok_inv in H as ([] & st4 & Hset & H).
      injection Hset as <-.
      apply M_bind_Ok_inv in H as (r5 & st5 & Hfind5 & H).
      pose proof (find_line_spec f Re_formant_array None
                    (Cursor (self_i st2) (last_match st3))) as Hs5.
      rewrite Hfind5 in Hs5. simpl in Hs5.
      assert (self_i st2 <= self_i st5 /\ self_i st5 < length f) as [Hle5 Hlt5].
      { destruct r5 as [l5|].
        - destruct Hs5 as (Ha & Hb & _). split; [exact Ha|].
          exact (lookup_lt_Some _ _ _ Hb).
        - destruct Hs5 as (-> & _). simpl. lia. }
      apply M_bind_Ok_inv in H as ([fs bs] & st6 & Hloop & H).
      apply formant_loop_spec in Hloop;
        [| now rewrite !length_replicate | left; exact Hlt5 | lia].
      destruct Hloop as (recs & Hl1 & Hl2' & HF & Hout & Hin & Hprog & Hok6).
      rewrite length_replicate in Hl1, Hl2', HF.
      apply IH in H; [|exact Hok6].
      destruct H as (rows & Hext & HFrows & Hsorted & Hge).
      simpl in Hext, HFrows.
      set (row := Row (self_i st1) (digits_value g) (fadd (x1 d) off) v
                      fs bs recs).
      exists (row :: rows). split; [|split; [|split]].
      * destruct Hext as (? & ? & ? & ? & ? & ? & Ht & Hi & Hfs & Hbs).
        simpl in *. rewrite <- app_assoc in Ht, Hi, Hfs, Hbs.
        repeat split; assumption.
      * constructor; [|exact HFrows].
        unfold frame_row_ok. simpl.
        split; [exists l, g; auto|].
        split; [unfold frame_time; now rewrite Hoff|].
        split; [exists (self_i st2), l2, g2; auto|].
        split; [exact Hv_nan|]. split; [exact Hl1|]. split; [exact Hl2'|].
        split; [|split].
        -- eapply Forall_impl; [exact HF|]. simpl.
           intros rec [Hr1 Hr2]. split; [lia | exact Hr2].
        -- intros k Hk Hnin. destruct (Hout k Hnin) as [-> ->].
           rewrite lookup_replicate_nan by exact Hk. auto.
        -- exact Hin.
      * simpl. constructor; [exact Hsorted|].
        rewrite Forall_fmap. eapply Forall_impl; [exact Hge|]. simpl.
        intros row' Hrow'. destruct Hprog as [Hprog|Hprog]; lia.
      * constructor; [simpl; lia|].
        eapply Forall_impl; [exact Hge|]. simpl.
        intros row' Hrow'. destruct Hprog as [Hprog|Hprog]; lia.
    + simpl in H. injection H as <- <-.
      exists []. simpl. unfold extends_by. simpl. rewrite !app_nil_r.
      repeat split; constructor.
Qed.

End FormantsFrames.

(** * The parse of a report as a whole *)

Section FormantsParse.
Context `{FL : PyFloat}.
Import Formants.

(** The scalar fields are read without moving the cursor backwards; the
    only exceptions are AttributeError, for a field that is not found, and
    OverflowError, for an [nx] or [maxnFormants] that is infinite. *)
Lemma read_scalars_spec f st :
  cursor_ok f st ->
  match read_scalars f st with
  | Ok (d, st') =>
      cursor_ok f st' /\ self_i st <= self_i st' /\
      t d = [] /\ formants d = [] /\ bandwidths d = [] /\ intensity d = []
  | Raise e => e = PyErr AttributeError None \/ e = PyErr OverflowError None
  | OutOfFuel => False
  end.
Proof.
  intros Hok. unfold read_scalars.
  repeat (rewrite M_bind_unfold;
          match goal with
          | H : cursor_ok f ?s |- context [find_field f ?k ?s] =>
              let Hs := fresh "Hs" in
              pose proof (find_field_spec f k s H) as Hs;
              destruct (find_field f k s) as [[? ?]| |];
              [ destruct Hs as (_ & ? & ? & _)
              | destruct Hs as [-> _]; now left
              | contradiction ]
          end;
          match goal with
          | H : self_i ?s < length f |- _ =>
              assert (cursor_ok f s) by (left; exact H); clear H
          end).
  rewrite M_bind_unfold. unfold int_of_float.
  destruct (float_to_int p1); simpl; [|now right].
  destruct (float_to_int p4); simpl; [|now right].
  repeat split; auto. lia.
Qed.

Lemma scan_report_spec f d st' :
  scan_report f (Cursor 2 None) = Ok (d, st') ->
  exists rows : list frame_row,
    t d = row_t <$> rows /\ intensity d = row_intensity <$> rows /\
    formants d = row_formants <$> rows /\
    bandwidths d = row_bandwidths <$> rows /\
    Forall (frame_row_ok f (x1 d) (dx d) (Z.to_nat (maxnFormants d))) rows /\
    StronglySorted lt (row_line <$> rows) /\
    Forall (fun row => 2 <= row_line row) rows.
Proof.
  unfold scan_report. intros H.
  apply M_bind_Ok_inv in H as (d0 & st1 & Hd0 & H).
  assert (cursor_ok f (Cursor 2 None)) as Hok0 by (right; reflexivity).
  pose proof (read_scalars_spec f _ Hok0) as Hs. rewrite Hd0 in Hs.
  destruct Hs as (Hok1 & Hle1 & Ht & Hfs & Hbs & Hi). simpl in Hle1.
  apply M_bind_Ok_inv in H as (r & st2 & Hfind & H).
  assert (cursor_ok f st2 /\ self_i st1 <= self_i st2) as [Hok2 Hle2].
  { pose proof (find_line_spec f Re_frames_array None st1) as Hs.
    rewrite Hfind in Hs. simpl in Hs. destruct r as [l|].
    - destruct Hs as (Ha & Hb & _). split; [|exact Ha].
      left. exact (lookup_lt_Some _ _ _ Hb).
    - destruct (find_line_failed _ _ _ _ Hok1 Hfind) as (Ha & Hb & _).
      split; [right; exact Hb | lia]. }
  apply frames_loop_spec in H; [|exact Hok2].
  destruct H as (rows & Hext & HF & Hsorted & Hge).
  destruct Hext as (_ & _ & _ & Hdx & Hx1 & Hmax & Ht' & Hi' & Hfs' & Hbs').
  rewrite Ht in Ht'. rewrite Hi in Hi'. rewrite Hfs in Hfs'.
  rewrite Hbs in Hbs'. simpl in *.
  exists rows. rewrite Hdx, Hx1, Hmax.
  repeat (split; [assumption|]).
  eapply Forall_impl; [exact Hge|]. simpl. intros row Hrow. lia.
Qed.

(** What a successful parse has done. *)
Lemma from_praat_text_Ok_inv raw d :
  from_praat_text raw = Ok d ->
  (strip is_space3 <$> raw) !! 0 = Some file_type_line /\
  (strip is_space3 <$> raw) !! 1 = Some formant_class_line /\
  exists rows : list frame_row,
    t d = row_t <$> rows /\ intensity d = row_intensity <$> rows /\
    formants d = row_formants <$> rows /\
    bandwidths d = row_bandwidths <$> rows /\
    Forall (frame_row_ok (strip is_space3 <$> raw) (x1 d) (dx d)
              (Z.to_nat (maxnFormants d))) rows /\
    StronglySorted lt (row_line <$> rows) /\
    Forall (fun row => 2 <= row_line row) rows.
Proof.
  unfold from_praat_text, parse_lines.
  generalize (strip is_space3 <$> raw). intros f H.
  apply rbind_Ok_inv in H as (f0 & Hf0 & H). apply getitem_Ok in Hf0.
  destruct (String.eqb_spec f0 file_type_line) as [->|]; [|discriminate].
  simpl in H.
  apply rbind_Ok_inv in H as (f1 & Hf1 & H). apply getitem_Ok in Hf1.
  destruct (String.eqb_spec f1 formant_class_line) as [->|]; [|discriminate].
  simpl in H.
  apply rbind_Ok_inv in H as ([d' st'] & Hscan & H). injection H as ->.
  split; [exact Hf0|]. split; [exact Hf1|].
  exact (scan_report_spec _ _ _ Hscan).
Qed.

Lemma frame_time_sequential (x1_ dx_ : pyfloat) (j : nat) (tj : pyfloat) :
  frame_time x1_ dx_ (Z.of_nat j + 1) = Ok tj ->
  exists y, int_to_float (Z.of_nat j) = Some y /\ tj = fadd x1_ (fmul y dx_).
Proof.
  unfold frame_time, int_mul_float.
  replace (Z.of_nat j + 1 - 1)%Z with (Z.of_nat j) by lia.
  destruct (int_to_float (Z.of_nat j)) as [y|]; simpl; [|discriminate].
  intros [= <-]. eauto.
Qed.

(** C1 (amended): in every successful parse the timestamps are, in order,
    those of the frame markers found on increasing lines of the file, and
    the timestamp of a frame is [x1 + (idx - 1) * dx] for the index [idx]
    written in its marker: the index is used.  Where the marker of the
    [j]-th frame carries the index [j + 1], as in a file numbered from 1,
    the timestamp is [x1 + j * dx]. *)
Theorem formants_times_follow_marker_index raw d :
  from_praat_text raw = Ok d ->
  exists marks : list (nat * Z),
    StronglySorted lt (fst <$> marks) /\
    Forall2 (fun mk tj =>
               (exists l g, (strip is_space3 <$> raw) !! mk.1 = Some l /\
                  re_match Re_frames l = Some (Some g) /\
                  mk.2 = digits_value g) /\
               frame_time (x1 d) (dx d) mk.2 = Ok tj)
            marks (t d) /\
    forall j mk tj, marks !! j = Some mk -> t d !! j = Some tj ->
      mk.2 = (Z.of_nat j + 1)%Z ->
      exists y, int_to_float (Z.of_nat j) = Some y /\
                tj = fadd (x1 d) (fmul y (dx d)).
Proof.
  intros H. destruct (from_praat_text_Ok_inv _ _ H)
    as (_ & _ & rows & Ht & _ & _ & _ & HF & Hsorted & _).
  exists ((fun row => (row_line row, row_index row)) <$> rows).
  assert (Forall2 (fun mk tj =>
               (exists l g, (strip is_space3 <$> raw) !! mk.1 = Some l /\
                  re_match Re_frames l = Some (Some g) /\
                  mk.2 = digits_value g) /\
               frame_time (x1 d) (dx d) mk.2 = Ok tj)
            ((fun row => (row_line row, row_index row)) <$> rows) (t d))
    as HF2.
  { rewrite Ht. apply Forall2_fmap. apply Forall_Forall2_diag.
    eapply Forall_impl; [exact HF|]. simpl.
    intros row (Hmark & Htime & _). auto. }
  split; [|split; [exact HF2|]].
  - rewrite <- list_fmap_compose. exact Hsorted.
  - intros j mk tj Hmk Htj Hseq.
    destruct (Forall2_lookup_lr _ _ _ _ _ _ HF2 Hmk Htj) as [_ Htime].
    rewrite Hseq in Htime. exact (frame_time_sequential _ _ _ _ Htime).
Qed.


Lemma slot_of_cases (len : nat) (idx : Z) (k : nat) :
  (0 <= idx)%Z -> slot_of len (idx - 1) = Some k ->
  (idx = 0%Z /\ 0 < len /\ k = len - 1) \/
  ((1 <= idx <= Z.of_nat len)%Z /\ k = Z.to_nat (idx - 1)).
Proof.
  intros Hidx. unfold slot_of.
  destruct ((0 <=? idx - 1)%Z && (idx - 1 <? Z.of_nat len)%Z) eqn:H1.
  - intros [= <-]. apply andb_true_iff in H1 as [Ha Hb]. right. lia.
  - destruct ((idx - 1 <? 0)%Z && (- Z.of_nat len <=? idx - 1)%Z) eqn:H2;
      [|discriminate].
    intros [= <-]. apply andb_true_iff in H2 as [Ha Hb]. left. lia.
Qed.

Lemma digits_value_from_nonneg (s : string) (acc : Z) :
  span is_digit s = (s, EmptyString) -> (0 <= acc)%Z ->
  (0 <= digits_value_from acc s)%Z.
Proof.
  revert acc. induction s as [|c s IH]; intros acc Hs Hacc; simpl;
    [exact Hacc|].
  destruct (span_all _ _ _ _ Hs eq_refl) as [Hc Hs'].
  apply IH; [exact Hs'|]. unfold is_digit in Hc. unfold digit_val.
  apply andb_true_iff in Hc as [Ha _]. apply Nat.leb_le in Ha. lia.
Qed.

Lemma digits_value_nonneg (g : string) :
  all_digits g = true -> (0 <= digits_value g)%Z.
Proof.
  intros H. destruct (all_digits_span _ H) as [Hs _].
  apply digits_value_from_nonneg; [exact Hs | lia].
Qed.


End FormantsParse.

(** * Failures of the formant parser *)

Section FormantsFailures.
Context `{FL : PyFloat}.
Import Formants.

(** A search raises nothing, whatever it finds. *)
Lemma find_line_returns f r io st :
  exists res st', _find_line f (PRe r) io st = Ok (res, st').
Proof.
  unfold _find_line.
  destruct (search _ _ _ _) as [[[k l]|] lm]; eauto.
Qed.

Lemma read_scalars_missing f st k :
  cursor_ok f st -> k ∈ scalar_keys ->
  (forall j l, self_i st <= j -> f !! j = Some l ->
               re_match (Re_kw k) l = None) ->
  read_scalars f st = raise_builtin AttributeError.
Proof.
  intros Hok Hk Hnone. unfold read_scalars, scalar_keys in *.
  repeat (apply elem_of_cons in Hk as [->|Hk]);
    [| | | | | |inversion Hk];
    repeat (rewrite M_bind_unfold;
      match goal with
      | Hc : cursor_ok f ?s |- context [find_field f ?kk ?s] =>
          let Hs := fresh "Hs" in
          pose proof (find_field_spec f kk s Hc) as Hs;
          destruct (find_field f kk s) as [[? ?]| |];
          [ destruct Hs as (_ & ? & ? & (? & ? & ? & ? & _) & _)
          | destruct Hs as [-> _]; reflexivity
          | contradiction ]
      end;
      first
        [ exfalso;
          match goal with
          | Hm : re_match (Re_kw ?kk) ?l = Some _,
            Hl : f !! ?j = Some ?l |- _ =>
              rewrite (Hnone j l ltac:(lia) Hl) in Hm; discriminate
          end
        | match goal with
          | H : self_i ?s < length f |- _ =>
              assert (cursor_ok f s) by (left; exact H); clear H
          end ]).
Qed.

Lemma parse_lines_header raw :
  (strip is_space3 <$> raw) !! 0 = Some file_type_line ->
  from_praat_text raw =
  (f1 ← getitem (strip is_space3 <$> raw) 1;
   if negb (String.eqb f1 formant_class_line) then
     raise_msg ValueError
       ("The file isn't a valid Praat Formant 2 file (header: '"
          +:+ file_type_line +:+ "')")
   else
     '(d, _) ← scan_report (strip is_space3 <$> raw) (Cursor 2 None);
     Ok d).
Proof.
  intros Hf0. unfold from_praat_text, parse_lines, getitem.
  rewrite Hf0, rbind_Ok. now rewrite String.eqb_refl.
Qed.

Lemma parse_lines_headers raw :
  (strip is_space3 <$> raw) !! 0 = Some file_type_line ->
  (strip is_space3 <$> raw) !! 1 = Some formant_class_line ->
  from_praat_text raw =
  ('(d, _) ← scan_report (strip is_space3 <$> raw) (Cursor 2 None); Ok d).
Proof.
  intros Hf0 Hf1. rewrite (parse_lines_header _ Hf0). unfold getitem.
  rewrite Hf1, rbind_Ok. now rewrite String.eqb_refl.
Qed.


(** The message of the check of line 1 is formatted from line 0, where the
    check of line 0 quotes the line it tests: a file whose second line is
    wrong is reported with its first line. *)
Lemma second_header_message_quotes_first_line raw f1 :
  (strip is_space3 <$> raw) !! 0 = Some file_type_line ->
  (strip is_space3 <$> raw) !! 1 = Some f1 ->
  f1 <> formant_class_line ->
  from_praat_text raw =
    raise_msg ValueError
      ("The file isn't a valid Praat Formant 2 file (header: '"
       +:+ file_type_line +:+ "')").
Proof.
  intros Hf0 Hf1 Hne.
  rewrite (parse_lines_header _ Hf0). unfold getitem.
  rewrite Hf1, rbind_Ok.
  destruct (String.eqb_spec f1 formant_class_line); [contradiction|].
  reflexivity.
Qed.

End FormantsFailures.

(** * Totality: the fuel given to the loops is never used up *)

Section Totality.
Context `{FL : PyFloat}.
Import Formants.

Lemma formant_loop_total fuel f nf fs bs st :
  length f - self_i st < fuel ->
  formant_loop fuel f nf fs bs st <> OutOfFuel.
Proof.
  revert fs bs st. induction fuel as [|fuel IH]; intros fs bs st Hfuel.
  - lia.
  - rewrite formant_loop_S, M_bind_unfold.
    pose proof (find_marker_spec f Re_formant None st (or_intror eq_refl)) as Hs.
    destruct (_find_line f (PRe Re_formant) None st) as [[[l|] st1]| |];
      try contradiction; [|discriminate].
    destruct Hs as (Htr & Hle & Hlt & Hl & (g & Hm & Hg & Hint) & _).
    simpl in Hle. rewrite Htr, M_bind_unfold, Hint, M_bind_unfold.
    unfold get_i. cbv iota beta.
    destruct (nf <? self_i st1); [discriminate|].
    rewrite M_bind_unfold.
    pose proof (find_field_spec f "frequency" st1 (or_introl Hlt)) as Hs2.
    destruct (find_field f "frequency" st1) as [[frq st2]| |];
      try contradiction; [|discriminate].
    destruct Hs2 as (_ & Hle2 & Hlt2 & _).
    rewrite M_bind_unfold.
    destruct (setitem fs (digits_value g - 1) frq) as [fs1| |] eqn:Hset1;
      simpl; try discriminate.
    { rewrite M_bind_unfold.
      pose proof (find_field_spec f "bandwidth" st2 (or_introl Hlt2)) as Hs3.
      destruct (find_field f "bandwidth" st2) as [[bw st3]| |];
        try contradiction; [|discriminate].
      destruct Hs3 as (_ & Hle3 & Hlt3 & (l3 & g3 & Hl3 & Hm3 & _) & _).
      rewrite M_bind_unfold.
      destruct (setitem bs (digits_value g - 1) bw) as [bs1| |] eqn:Hset2;
        simpl; try discriminate.
      - apply IH.
        assert (self_i st1 <> self_i st3) as Hne.
        { intros Heq. rewrite <- Heq in Hl3. rewrite Hl in Hl3.
          injection Hl3 as <-.
          eapply (re_match_disjoint Re_formant (Re_kw "bandwidth") l);
            [reflexivity | reflexivity | | exact Hm | exact Hm3].
          discriminate. }
        lia.
      - unfold setitem in Hset2. destruct (slot_of _ _); discriminate. }
    unfold setitem in Hset1. destruct (slot_of _ _); discriminate.
Qed.

Lemma frames_loop_total fuel f d st :
  cursor_ok f st -> length f - self_i st < fuel ->
  frames_loop fuel f d st <> OutOfFuel.
Proof.
  revert d st. induction fuel as [|fuel IH]; intros d st Hok Hfuel.
  - lia.
  - rewrite frames_loop_S, M_bind_unfold.
    pose proof (find_marker_spec f Re_frames None st (or_introl eq_refl)) as Hs.
    destruct (_find_line f (PRe Re_frames) None st) as [[[l|] st1]| |];
      try contradiction; [|discriminate].
    destruct Hs as (Htr & Hle & Hlt & Hl & (g & Hm & Hg & Hint) & _).
    simpl in Hle. rewrite Htr, M_bind_unfold, Hint, M_bind_unfold.
    unfold int_mul_float.
    destruct (int_to_float (digits_value g - 1)) as [y|];
      unfold lift; cbv iota beta; [|discriminate].
    rewrite M_bind_unfold.
    pose proof (find_field_spec f "intensity" st1 (or_introl Hlt)) as Hs2.
    destruct (find_field f "intensity" st1) as [[v st2]| |];
      try contradiction; [|discriminate].
    destruct Hs2 as (_ & Hle2 & Hlt2 & (l2 & g2 & Hl2 & Hm2 & _) & _).
    assert (self_i st1 <> self_i st2) as Hadv.
    { intros Heq. rewrite <- Heq in Hl2. rewrite Hl in Hl2.
      injection Hl2 as <-.
      eapply (re_match_disjoint Re_frames (Re_kw "intensity") l);
        [reflexivity | reflexivity | | exact Hm | exact Hm2].
      discriminate. }
    rewrite (M_bind_Ok _ _ st2 st2 (self_i st2) eq_refl).
    destruct (find_line_returns f Re_frames (Some (self_i st2 + 1)) st2)
      as (r3 & st3 & Hfind3).
    rewrite (M_bind_Ok _ _ _ _ _ Hfind3). rewrite M_bind_unfold.
    destruct ((if truthy r3 then get_i else mret (length f)) st3)
      as [[next_frame st3']| |] eqn:Hnext;
      [| destruct (truthy r3); discriminate
       | destruct (truthy r3); discriminate].
    destruct (next_frame_spec _ _ _ _ _ _ _ eq_refl Hlt2 Hfind3 Hnext)
      as (-> & Hnf & _).
    rewrite (M_bind_Ok _ _ st3 (Cursor (self_i st2) (last_match st3)) tt
               eq_refl).
    rewrite M_bind_unfold.
    pose proof (find_line_spec f Re_formant_array None
                  (Cursor (self_i st2) (last_match st3))) as Hs5.
    destruct (_find_line f (PRe Re_formant_array) None
                (Cursor (self_i st2) (last_match st3)))
      as [[r5 st5]| |]; try contradiction.
    assert (self_i st2 <= self_i st5 /\ self_i st5 < length f) as [Hle5 Hlt5].
    { simpl in Hs5. destruct r5 as [l5|].
      - destruct Hs5 as (Ha & Hb & _). split; [exact Ha|].
        exact (lookup_lt_Some _ _ _ Hb).
      - destruct Hs5 as (-> & _). simpl. lia. }
    rewrite M_bind_unfold.
    pose proof (formant_loop_total (S (length f)) f next_frame
                  (replicate (Z.to_nat (maxnFormants d)) nan)
                  (replicate (Z.to_nat (maxnFormants d)) nan) st5
                  ltac:(lia)) as Htot.
    destruct (formant_loop (S (length f)) f next_frame _ _ st5)
      as [[[fs bs] st6]| |] eqn:Hloop; [|discriminate|congruence].
    apply formant_loop_spec in Hloop;
      [| now rewrite !length_replicate | left; exact Hlt5 | lia].
    destruct Hloop as (_ & _ & _ & _ & _ & _ & Hprog & Hok6).
    apply IH; [exact Hok6|].
    destruct Hprog as [Hprog|Hprog]; lia.
Qed.

(** The parse of a formant report comes to an end. *)
Lemma from_praat_text_total raw : from_praat_text raw <> OutOfFuel.
Proof.
  unfold from_praat_text, parse_lines.
  generalize (strip is_space3 <$> raw). intros f.
  unfold getitem. destruct (f !! 0) as [f0|]; [|discriminate].
  rewrite rbind_Ok. destruct (negb _); [discriminate|].
  destruct (f !! 1) as [f1|]; [|discriminate].
  rewrite rbind_Ok. destruct (negb _); [discriminate|].
  assert (scan_report f (Cursor 2 None) <> OutOfFuel) as H.
  { unfold scan_report. rewrite M_bind_unfold.
    assert (cursor_ok f (Cursor 2 None)) as Hok0 by (right; reflexivity).
    pose proof (read_scalars_spec f _ Hok0) as Hs.
    destruct (read_scalars f (Cursor 2 None)) as [[d0 st1]| |];
      try contradiction; [|discriminate].
    destruct Hs as (Hok1 & _).
    rewrite M_bind_unfold.
    destruct (find_line_returns f Re_frames_array None st1)
      as (r & st2 & Hfind).
    rewrite Hfind.
    apply frames_loop_total; [|lia].
    pose proof (find_line_spec f Re_frames_array None st1) as Hs.
    rewrite Hfind in Hs. simpl in Hs. destruct r as [l|].
    - destruct Hs as (_ & Hb & _). left. exact (lookup_lt_Some _ _ _ Hb).
    - destruct (find_line_failed _ _ _ _ Hok1 Hfind) as (_ & Hb & _).
      right. exact Hb. }
  destruct (scan_report f (Cursor 2 None)) as [[d st]| |];
    [discriminate | discriminate | contradiction].
Qed.

Lemma find_items_total content js i idx :
  TextGrid.find_items content js i idx <> OutOfFuel.
Proof.
  revert i idx. induction js as [|j js IH]; intros i idx; simpl;
    [discriminate|].
  destruct i; [apply IH | discriminate].
Qed.

Lemma item_ranges_total idx js acc :
  TextGrid.item_ranges idx js acc <> OutOfFuel.
Proof.
  revert acc. induction js as [|j js IH]; intros acc; simpl; [discriminate|].
  unfold getitem. destruct (idx !! j) as [[a|]|]; simpl; try discriminate.
  destruct (idx !! (j + 1)); simpl; [apply IH | discriminate].
Qed.

Lemma all_intervals_total content ranges js acc :
  TextGrid.all_intervals content ranges js acc <> OutOfFuel.
Proof.
  revert acc. induction js as [|j js IH]; intros acc; simpl; [discriminate|].
  unfold getitem. destruct (ranges !! j) as [[a [b|]]|]; simpl;
    try discriminate.
  - unfold TextGrid.tier_intervals. simpl.
    pose proof (intervals_loop_total (b - a) content a b [] (le_n _)) as H.
    destruct (TextGrid.intervals_loop _ _ _ _ _); simpl;
      [apply IH | discriminate | contradiction].
  - apply IH.
Qed.

(** The parse of a TextGrid comes to an end. *)
Lemma textgrid_parse_total content : TextGrid.parse content <> OutOfFuel.
Proof.
  unfold TextGrid.parse.
  assert (TextGrid.locate_tiers content <> OutOfFuel) as H.
  { unfold TextGrid.locate_tiers.
    destruct (TextGrid.findLineSW content "Object class" 0 None)
      as [[i0 l0]|]; [|discriminate].
    destruct (negb _); [discriminate|].
    destruct (TextGrid.findLineSW content "size = " 0 None)
      as [[i l]|]; [|discriminate].
    unfold int_of_string.
    destruct (match strip is_space2 (delete_all "size = " (strip is_space2 l))
              with String c r => _ | EmptyString => _ end) as [neg ds].
    destruct (all_digits ds); [|discriminate]. rewrite rbind_Ok.
    pose proof (find_items_total content
                  (TextGrid.range (if neg then (- digits_value ds)%Z
                                   else digits_value ds)) (Some i) []) as H1.
    destruct (TextGrid.find_items _ _ _ _) as [idx| |];
      [|discriminate|contradiction].
    rewrite rbind_Ok.
    pose proof (item_ranges_total (idx ++ [Some (length content)])
                  (TextGrid.range (if neg then (- digits_value ds)%Z
                                   else digits_value ds)) []) as H2.
    destruct (TextGrid.item_ranges _ _ _); [discriminate|discriminate|contradiction]. }
  destruct (TextGrid.locate_tiers content) as [[sz ranges]| |];
    [|discriminate|contradiction].
  rewrite rbind_Ok.
  pose proof (all_intervals_total content ranges (TextGrid.range sz) []) as H3.
  destruct (TextGrid.all_intervals _ _ _ _);
    [discriminate|discriminate|contradiction].
Qed.

End Totality.

(** * Reports listed by their records: the parser reads what was written *)

Section FormantsRender.
Context `{FL : PyFloat}.
Import Formants.

(** ** Lines and patterns *)

Lemma span_head (p : ascii -> bool) (s a b : string) (c : ascii) :
  span p s = (String c a, b) -> p c = true /\ exists r, s = String c r.
Proof.
  destruct s as [|c' s]; simpl; [discriminate|].
  destruct (p c') eqn:Hc; [|discriminate].
  destruct (span p s) as [a' b']. intros [= <- <- <-]. eauto.
Qed.

Lemma take_number_append (s g r : string) :
  take_number s = Some (g, r) -> s = g +:+ r.
Proof.
  unfold take_number.
  destruct (span is_digit s) as [[|d ds] r0] eqn:E; [discriminate|].
  destruct (take_fraction r0) as [fr r1] eqn:Hfr.
  destruct (take_exponent r1) as [ex r2] eqn:Hex.
  intros [= <- <-].
  apply span_append in E. apply take_fraction_shape in Hfr as [Hfr _].
  apply take_exponent_shape in Hex as [Hex _].
  subst s r0 r1. simpl. f_equal. now rewrite !append_assoc.
Qed.

Lemma take_number_of_literal (v : string) :
  number_literal v = true ->
  take_number v = Some (v, EmptyString) /\
  exists d r, v = String d r /\ is_digit d = true.
Proof.
  unfold number_literal. intros H.
  destruct (take_number v) as [[g [|? ?]]|] eqn:E; try discriminate.
  pose proof (take_number_append _ _ _ E) as Hv.
  rewrite append_nil_r in Hv. subst g. split; [reflexivity|].
  unfold take_number in E.
  destruct (span is_digit v) as [[|d ds] r0] eqn:Es; [discriminate|].
  destruct (span_head _ _ _ _ _ Es) as [Hd [r ->]]. eauto.
Qed.

Lemma span_space_digit (v : string) (d : ascii) (r : string) :
  v = String d r -> is_digit d = true ->
  span is_space3 v = (EmptyString, v).
Proof. intros -> Hd. simpl. now rewrite (digit_not_space _ Hd). Qed.

(** A field line matches the pattern of its keyword and gives its value. *)
Lemma re_kw_match (k v : string) :
  number_literal v = true ->
  re_match (Re_kw k) (k +:+ " = " +:+ v) = Some (Some v).
Proof.
  intros Hv. destruct (take_number_of_literal _ Hv) as (Htake & d & r & Hd & Hdig).
  unfold re_match. rewrite expect_app.
  change (" = " +:+ v) with (String " " (String "=" (String " " v))).
  cbn [mbind option_bind].
  assert (span is_space3 (String " " (String "=" (String " " v)))
          = (" ", String "=" (String " " v))) as -> by reflexivity.
  cbn [snd expect]. rewrite Ascii.eqb_refl. cbn [mbind option_bind].
  assert (span is_space3 (String " " v) = (" ", v)) as ->.
  { change (span is_space3 (String " " v))
      with (let '(a, b) := span is_space3 v in (String " " a, b)).
    now rewrite (span_space_digit _ _ _ Hd Hdig). }
  cbn [snd]. now rewrite Htake.
Qed.

Lemma indexed_match (name idx : string) :
  all_digits idx = true ->
  match_indexed name (name +:+ " [" +:+ idx +:+ "]:") = Some (Some idx).
Proof.
  intros Hidx. destruct (all_digits_span _ Hidx) as (Hs & d & r & ->).
  unfold match_indexed. rewrite expect_app.
  change (" [" +:+ String d r +:+ "]:")
    with (String " " (String "[" (String d r +:+ "]:"))).
  cbn [mbind option_bind].
  assert (span is_space3 (String " " (String "[" (String d r +:+ "]:")))
          = (" ", String "[" (String d r +:+ "]:"))) as -> by reflexivity.
  cbn [snd expect]. rewrite Ascii.eqb_refl. cbn [mbind option_bind].
  rewrite (span_app_stop _ _ _ Hs) by reflexivity.
  reflexivity.
Qed.

(** ** The search, line by line *)

Lemma search_skip (r : regex) (quiet rest : list string) (k : nat)
    (lm : option match_object) :
  Forall (no_match r) quiet ->
  search (PRe r) (quiet ++ rest) k lm =
  search (PRe r) rest (k + length quiet)
    (match quiet with [] => lm | _ => None end).
Proof.
  revert k lm. induction quiet as [|x quiet IH]; intros k lm HF; simpl.
  - now rewrite Nat.add_0_r.
  - inversion HF as [|? ? Hx HF']; subst. rewrite Hx.
    rewrite (IH _ _ HF'). replace (S k + length quiet) with (k + S (length quiet)) by lia.
    now destruct quiet.
Qed.

Lemma find_line_hit f r io st quiet l rest m :
  drop (default (self_i st) io) f = quiet ++ l :: rest ->
  Forall (no_match r) quiet -> re_match r l = Some m ->
  _find_line f (PRe r) io st =
  Ok (Some l, Cursor (default (self_i st) io + length quiet) (Some m)).
Proof.
  intros Hd HF Hm. unfold _find_line. rewrite Hd.
  rewrite (search_skip _ _ _ _ _ HF). simpl. now rewrite Hm.
Qed.

Lemma drop_app_offset {A : Type} (f a b : list A) (i : nat) :
  drop i f = a ++ b -> drop (i + length a) f = b.
Proof.
  intros H. rewrite <- drop_drop, H. now rewrite drop_app_length.
Qed.

Lemma drop_cons_next {A : Type} (f : list A) (i : nat) (x : A) (b : list A) :
  drop i f = x :: b -> drop (i + 1) f = b.
Proof. intros H. exact (drop_app_offset f [x] b i H). Qed.

Lemma drop_nonempty_length {A : Type} (f : list A) (i : nat) (x : A)
    (b : list A) :
  drop i f = x :: b -> length f = i + S (length b).
Proof.
  intros H. apply (f_equal length) in H. rewrite length_drop in H.
  simpl in H. lia.
Qed.

Lemma float_group1_eq (k : nat) (g : string) :
  float_group1 (Cursor k (Some (Some g)))
  = lift (float_of_string g) (Cursor k (Some (Some g))).
Proof. reflexivity. Qed.

(** A field that stands after lines which do not match its pattern. *)
Lemma find_field_hit f k st quiet v rest :
  drop (self_i st) f = quiet ++ (k +:+ " = " +:+ v) :: rest ->
  Forall (no_match (Re_kw k)) quiet -> number_literal v = true ->
  find_field f k st =
  lift (float_of_string v)
    (Cursor (self_i st + length quiet) (Some (Some v))).
Proof.
  intros Hd HF Hv. unfold find_field.
  rewrite (M_bind_Ok _ _ _ _ _
             (find_line_hit f (Re_kw k) None st quiet _ rest _ Hd HF
                (re_kw_match k v Hv))).
  apply float_group1_eq.
Qed.

Lemma lift_float_cases (v : string) (st : cursor) :
  (exists x, float_of_string v = Ok x /\ lift (float_of_string v) st = Ok (x, st))
  \/ (exists e, float_of_string v = Raise e /\
                lift (float_of_string v) st = Raise e).
Proof.
  unfold float_of_string. destruct (parse_float v); simpl; eauto.
Qed.

(** ** The lines of a frame *)

Lemma formant_lines_no_frames (recs : list formant_record) :
  Forall (no_match Re_frames) (concat (formant_lines <$> recs)).
Proof.
  induction recs as [|r recs IH]; simpl; [constructor|].
  repeat (constructor; [reflexivity|]). exact IH.
Qed.


Lemma float_of_string_fuel (v : string) : float_of_string v <> OutOfFuel.
Proof. unfold float_of_string. destruct (parse_float v); discriminate. Qed.

Lemma setitem_fuel {A : Type} (l : list A) (i : Z) (x : A) :
  setitem l i x <> OutOfFuel.
Proof. unfold setitem. destruct (slot_of _ _); discriminate. Qed.

Lemma formant_head_line (r : formant_record) :
  all_digits (fr_index r) = true ->
  re_match Re_formant ("formant [" +:+ fr_index r +:+ "]:")
  = Some (Some (fr_index r)).
Proof. intros H. exact (indexed_match "formant" _ H). Qed.

Lemma frames_head_line (fr : frame_record) :
  all_digits (fm_index fr) = true ->
  re_match Re_frames ("frames [" +:+ fm_index fr +:+ "]:")
  = Some (Some (fm_index fr)).
Proof. intros H. exact (indexed_match "frames" _ H). Qed.

(** The loop over the formants of a frame, on the lines of the records
    [recs] followed by the lines [later] of the frames after it: it stores
    what [eval_formants] computes, and leaves the cursor before [later],
    on lines that are not frame markers. *)
Lemma formant_loop_render f nf recs :
  forall fuel fs bs st quiet later,
  drop (self_i st) f = quiet ++ concat (formant_lines <$> recs) ++ later ->
  Forall quiet_line quiet -> Forall wf_formant recs ->
  (forall l, later !! 0 = Some l -> re_match Re_formant l = None) ->
  nf = self_i st + length quiet + 3 * length recs ->
  length recs < fuel ->
  match eval_formants recs fs bs with
  | Ok r =>
      exists st' quiet',
        formant_loop fuel f nf fs bs st = Ok (r, st') /\
        drop (self_i st') f = quiet' ++ later /\
        Forall (no_match Re_frames) quiet'
  | Raise e => formant_loop fuel f nf fs bs st = Raise e
  | OutOfFuel => False
  end.
Proof.
  induction recs as [|r recs IH];
    intros fuel fs bs st quiet later Hd Hq Hwf Hlater Hnf Hfuel;
    (destruct fuel as [|fuel]; [simpl in Hfuel; lia|]).
  - cbn [eval_formants].
    change (concat (formant_lines <$> []) ++ later) with later in Hd.
    rewrite formant_loop_S, M_bind_unfold.
    pose proof (find_marker_spec f Re_formant None st (or_intror eq_refl)) as Hs.
    destruct (_find_line f (PRe Re_formant) None st) as [[[l|] st1]| |];
      try contradiction.
    + destruct Hs as (Htr & Hle & Hlt & Hl & (g & Hm & Hg & Hint) & _).
      simpl in Hle.
      rewrite Htr, M_bind_unfold, Hint.
      rewrite (M_bind_Ok _ _ st1 st1 (self_i st1) eq_refl).
      assert (nf < self_i st1) as Hbreak.
      { destruct (Nat.lt_ge_cases nf (self_i st1)) as [|Hge]; [assumption|].
        exfalso.
        assert ((quiet ++ later) !! (self_i st1 - self_i st) = Some l) as Hl'.
        { rewrite <- Hd, lookup_drop.
          replace (self_i st + (self_i st1 - self_i st)) with (self_i st1)
            by lia.
          exact Hl. }
        destruct (decide (self_i st1 - self_i st < length quiet)) as [Hin|Hout].
        - rewrite lookup_app_l in Hl' by exact Hin.
          rewrite Forall_lookup in Hq. destruct (Hq _ _ Hl') as [_ Hno].
          congruence.
        - rewrite lookup_app_r in Hl' by lia.
          replace (self_i st1 - self_i st - length quiet) with 0 in Hl'
            by (simpl in Hnf; lia).
          rewrite (Hlater _ Hl') in Hm. discriminate. }
      rewrite (proj2 (Nat.ltb_lt _ _) Hbreak).
      rewrite (M_bind_Ok _ _ st1 (Cursor nf (last_match st1)) tt eq_refl).
      exists (Cursor nf (last_match st1)), [].
      split; [reflexivity|]. split; [|constructor].
      cbn [self_i]. subst nf. simpl length. rewrite Nat.mul_0_r, Nat.add_0_r.
      exact (drop_app_offset _ _ _ _ Hd).
    + destruct Hs as (Hi & _). exists st1, quiet.
      split; [reflexivity|]. rewrite Hi. split; [exact Hd|].
      eapply Forall_impl; [exact Hq|]. intros l [Hl _]. exact Hl.
  - cbn [eval_formants].
    change (concat (formant_lines <$> r :: recs) ++ later)
      with (("formant [" +:+ fr_index r +:+ "]:")
            :: ("frequency = " +:+ fr_frequency r)
            :: ("bandwidth = " +:+ fr_bandwidth r)
            :: (concat (formant_lines <$> recs) ++ later)) in Hd.
    inversion Hwf as [|? ? (Hidx & Hfreq & Hbw) Hwf']; subst.
    set (k := self_i st + length quiet).
    assert (Forall (no_match Re_formant) quiet) as Hq'.
    { eapply Forall_impl; [exact Hq|]. intros l [_ Hl]. exact Hl. }
    pose proof (find_line_hit f Re_formant None st quiet _ _ _ Hd Hq'
                  (formant_head_line r Hidx)) as Hfind.
    cbn [default] in Hfind. fold k in Hfind.
    rewrite formant_loop_S, (M_bind_Ok _ _ _ _ _ Hfind).
    rewrite (truthy_found _ _ _ (formant_head_line r Hidx)).
    rewrite M_bind_unfold.
    rewrite (int_group1_found (Cursor k (Some (Some (fr_index r))))
               (fr_index r) eq_refl Hidx).
    cbv beta iota zeta.
    rewrite (M_bind_Ok get_i _ (Cursor k (Some (Some (fr_index r))))
               (Cursor k (Some (Some (fr_index r)))) k eq_refl).
    cbn [self_i].
    rewrite (proj2 (Nat.ltb_ge (k + 3 * length (r :: recs)) k) ltac:(lia)).
    pose proof (drop_app_offset _ _ _ _ Hd) as Hd1. fold k in Hd1.
    rewrite M_bind_unfold.
    rewrite (find_field_hit f "frequency"
               (Cursor k (Some (Some (fr_index r))))
               ["formant [" +:+ fr_index r +:+ "]:"] (fr_frequency r) _
               Hd1 ltac:(repeat constructor) Hfreq).
    cbn [self_i length].
    pose proof (float_of_string_fuel (fr_frequency r)) as Hff.
    destruct (float_of_string (fr_frequency r)) as [frq| |];
      [|reflexivity|congruence].
    cbn [lift]. rewrite rbind_Ok, M_bind_unfold.
    pose proof (setitem_fuel fs (digits_value (fr_index r) - 1) frq) as Hsf.
    destruct (setitem fs (digits_value (fr_index r) - 1) frq) as [fs1| |];
      [|reflexivity|congruence].
    cbn [lift]. rewrite rbind_Ok, M_bind_unfold.
    pose proof (drop_cons_next _ _ _ _ Hd1) as Hd2.
    rewrite (find_field_hit f "bandwidth"
               (Cursor (k + 1) (Some (Some (fr_frequency r))))
               ["frequency = " +:+ fr_frequency r] (fr_bandwidth r) _
               Hd2 ltac:(repeat constructor) Hbw).
    cbn [self_i length].
    pose proof (float_of_string_fuel (fr_bandwidth r)) as Hfb.
    destruct (float_of_string (fr_bandwidth r)) as [bw| |];
      [|reflexivity|congruence].
    cbn [lift]. rewrite rbind_Ok, M_bind_unfold.
    pose proof (setitem_fuel bs (digits_value (fr_index r) - 1) bw) as Hsb.
    destruct (setitem bs (digits_value (fr_index r) - 1) bw) as [bs1| |];
      [|reflexivity|congruence].
    cbn [lift]. rewrite rbind_Ok.
    pose proof (drop_cons_next _ _ _ _ Hd2) as Hd3.
    apply (IH fuel fs1 bs1 (Cursor (k + 1 + 1) (Some (Some (fr_bandwidth r))))
             ["bandwidth = " +:+ fr_bandwidth r] later).
    + exact Hd3.
    + repeat constructor.
    + exact Hwf'.
    + exact Hlater.
    + cbn [self_i length]. unfold k. simpl length. lia.
    + simpl in Hfuel. lia.
Qed.


Lemma find_line_miss f r io st :
  Forall (no_match r) (drop (default (self_i st) io) f) ->
  _find_line f (PRe r) io st =
  Ok (None, Cursor (self_i st)
              (match drop (default (self_i st) io) f with
               | [] => last_match st
               | _ => None
               end)).
Proof.
  intros HF. unfold _find_line.
  pose proof (search_skip r _ [] (default (self_i st) io) (last_match st) HF)
    as Hs.
  rewrite app_nil_r in Hs. rewrite Hs. reflexivity.
Qed.

Lemma int_mul_float_fuel (z : Z) (x : pyfloat) : int_mul_float z x <> OutOfFuel.
Proof. unfold int_mul_float. destruct (int_to_float z); discriminate. Qed.

Lemma length_formant_lines (recs : list formant_record) :
  length (concat (formant_lines <$> recs)) = 3 * length recs.
Proof.
  induction recs as [|r recs IH]; [reflexivity|].
  cbn [fmap list_fmap concat]. rewrite length_app, IH. simpl. lia.
Qed.

Lemma length_frame_lines (frs : list frame_record) :
  length frs <= length (concat (frame_lines <$> frs)).
Proof.
  induction frs as [|fr frs IH]; [reflexivity|].
  cbn [fmap list_fmap concat]. rewrite length_app. simpl. lia.
Qed.

Lemma later_head_no_formant (frs : list frame_record) (l : string) :
  concat (frame_lines <$> frs) !! 0 = Some l -> re_match Re_formant l = None.
Proof.
  destruct frs as [|fr frs]; [discriminate|].
  cbn. intros [= <-]. reflexivity.
Qed.

(** The search for the marker of the next frame, which gives the bound of
    the current one: the line after the lines [mid] that end this frame,
    whether another frame follows or the file ends there.  The cursor is
    then put back on line [i]. *)
Lemma next_frame_render f i lm mid frs :
  drop (i + 1) f = mid ++ concat (frame_lines <$> frs) ->
  mid <> [] -> Forall (no_match Re_frames) mid -> Forall wf_frame frs ->
  exists lm3, forall (B : Type) (K : nat -> M B),
    (r ← _find_line f (PRe Re_frames) (Some (i + 1));
     next_frame ← (if truthy r then get_i else mret (length f));
     _ ← set_i i;
     K next_frame) (Cursor i lm)
    = K (i + 1 + length mid) (Cursor i lm3).
Proof.
  intros Hd Hmid HF Hwf. destruct frs as [|fr frs].
  - cbn [fmap list_fmap concat] in Hd. rewrite app_nil_r in Hd.
    assert (_find_line f (PRe Re_frames) (Some (i + 1)) (Cursor i lm)
            = Ok (None, Cursor i None)) as Hfind.
    { pose proof (find_line_miss f Re_frames (Some (i + 1)) (Cursor i lm))
        as Hm.
      change (default (self_i (Cursor i lm)) (Some (i + 1))) with (i + 1)
        in Hm.
      rewrite Hd in Hm. specialize (Hm HF).
      destruct mid; [contradiction | exact Hm]. }
    exists None. intros B K.
    rewrite (M_bind_Ok _ _ _ _ _ Hfind). cbn [truthy].
    rewrite (M_bind_Ok (mret (length f)) _ (Cursor i None) (Cursor i None)
               (length f) eq_refl).
    rewrite (M_bind_Ok (set_i i) _ (Cursor i None) (Cursor i None) tt eq_refl).
    destruct mid as [|x mid]; [contradiction|].
    rewrite (drop_nonempty_length _ _ _ _ Hd). reflexivity.
  - inversion Hwf as [|? ? (Hidx & _) _]; subst.
    change (concat (frame_lines <$> fr :: frs))
      with (("frames [" +:+ fm_index fr +:+ "]:")
            :: (tail (frame_lines fr) ++ concat (frame_lines <$> frs))) in Hd.
    pose proof (find_line_hit f Re_frames (Some (i + 1)) (Cursor i lm) mid
                  _ _ _ Hd HF (frames_head_line fr Hidx)) as Hfind.
    cbn [default] in Hfind.
    exists (Some (Some (fm_index fr))). intros B K.
    rewrite (M_bind_Ok _ _ _ _ _ Hfind).
    rewrite (truthy_found _ _ _ (frames_head_line fr Hidx)).
    rewrite (M_bind_Ok get_i _
               (Cursor (i + 1 + length mid) (Some (Some (fm_index fr))))
               (Cursor (i + 1 + length mid) (Some (Some (fm_index fr))))
               (i + 1 + length mid) eq_refl).
    rewrite (M_bind_Ok (set_i i) _
               (Cursor (i + 1 + length mid) (Some (Some (fm_index fr))))
               (Cursor i (Some (Some (fm_index fr)))) tt eq_refl).
    reflexivity.
Qed.

Lemma fmap_fst_bind {A : Type} (r : result (A * cursor)) :
  ('(d, _) ← r; Ok d) = fst <$> r.
Proof. destruct r as [[d st]| |]; reflexivity. Qed.

(** The loop over the frames, on the lines of the frames [frs]: it
    appends what [eval_frames] computes. *)
Lemma frames_loop_render f frs :
  forall fuel d st quiet,
  drop (self_i st) f = quiet ++ concat (frame_lines <$> frs) ->
  Forall (no_match Re_frames) quiet -> Forall wf_frame frs ->
  length frs < fuel ->
  fst <$> frames_loop fuel f d st = eval_frames d frs.
Proof.
  induction frs as [|fr frs IH]; intros fuel d st quiet Hd Hq Hwf Hfuel;
    (destruct fuel as [|fuel]; [simpl in Hfuel; lia|]).
  - cbn [fmap list_fmap concat] in Hd. rewrite app_nil_r in Hd.
    rewrite frames_loop_S.
    pose proof (find_line_miss f Re_frames None st) as Hm.
    change (default (self_i st) None) with (self_i st) in Hm.
    rewrite Hd in Hm. specialize (Hm Hq).
    rewrite (M_bind_Ok _ _ _ _ _ Hm). reflexivity.
  - cbn [eval_frames].
    set (recs := fm_formants fr) in *.
    set (later := concat (frame_lines <$> frs)).
    change (concat (frame_lines <$> fr :: frs))
      with (("frames [" +:+ fm_index fr +:+ "]:")
            :: ("intensity = " +:+ fm_intensity fr)
            :: ("nFormants = " +:+ fmt_d (Z.of_nat (length recs)))
            :: "formant []:"
            :: (concat (formant_lines <$> recs) ++ later)) in Hd.
    inversion Hwf as [|? ? (Hidx & Hint & Hrecs) Hwf']; subst.
    fold recs in Hrecs.
    set (k := self_i st + length quiet).
    pose proof (find_line_hit f Re_frames None st quiet _ _ _ Hd Hq
                  (frames_head_line fr Hidx)) as Hfind.
    cbn [default] in Hfind. fold k in Hfind.
    rewrite frames_loop_S, (M_bind_Ok _ _ _ _ _ Hfind).
    rewrite (truthy_found _ _ _ (frames_head_line fr Hidx)).
    rewrite M_bind_unfold.
    rewrite (int_group1_found (Cursor k (Some (Some (fm_index fr))))
               (fm_index fr) eq_refl Hidx).
    cbv beta iota zeta. rewrite M_bind_unfold.
    pose proof (int_mul_float_fuel (digits_value (fm_index fr) - 1) (dx d))
      as Hmf.
    destruct (int_mul_float (digits_value (fm_index fr) - 1) (dx d))
      as [off| |]; [|reflexivity|congruence].
    cbn [lift]. rewrite rbind_Ok, M_bind_unfold.
    pose proof (drop_app_offset _ _ _ _ Hd) as Hd1. fold k in Hd1.
    rewrite (find_field_hit f "intensity"
               (Cursor k (Some (Some (fm_index fr))))
               ["frames [" +:+ fm_index fr +:+ "]:"] (fm_intensity fr) _
               Hd1 ltac:(repeat constructor) Hint).
    cbn [self_i length].
    pose proof (float_of_string_fuel (fm_intensity fr)) as Hff.
    destruct (float_of_string (fm_intensity fr)) as [v| |];
      [|reflexivity|congruence].
    cbn [lift]. rewrite rbind_Ok.
    rewrite (M_bind_Ok get_i _
               (Cursor (k + 1) (Some (Some (fm_intensity fr))))
               (Cursor (k + 1) (Some (Some (fm_intensity fr))))
               (k + 1) eq_refl).
    pose proof (drop_cons_next _ _ _ _ Hd1) as Hd2.
    pose proof (drop_cons_next _ _ _ _ Hd2) as Hd3.
    destruct (next_frame_render f (k + 1) (Some (Some (fm_intensity fr)))
                (("nFormants = " +:+ fmt_d (Z.of_nat (length recs)))
                 :: "formant []:" :: concat (formant_lines <$> recs))
                frs) as [lm3 Hnext].
    { exact Hd3. }
    { discriminate. }
    { repeat (constructor; [reflexivity|]). apply formant_lines_no_frames. }
    { exact Hwf'. }
    rewrite Hnext. clear Hnext.
    cbn [length]. rewrite length_formant_lines.
    rewrite (M_bind_Ok _ _ _ _ _
               (find_line_hit f Re_formant_array None (Cursor (k + 1) lm3)
                  [ "intensity = " +:+ fm_intensity fr;
                    "nFormants = " +:+ fmt_d (Z.of_nat (length recs)) ]
                  "formant []:" _ None Hd2
                  ltac:(repeat constructor) eq_refl)).
    cbn [default self_i length].
    pose proof (drop_cons_next _ _ _ _ Hd3) as Hd4.
    pose proof (formant_loop_render f (k + 1 + 1 + S (S (3 * length recs)))
                  recs (S (length f))
                  (replicate (Z.to_nat (maxnFormants d)) nan)
                  (replicate (Z.to_nat (maxnFormants d)) nan)
                  (Cursor (k + 1 + 2) (Some None)) ["formant []:"] later)
      as Hloop.
    cbn [self_i length] in Hloop.
    replace (k + 1 + 1 + 1) with (k + 1 + 2) in Hd4 by lia.
    specialize (Hloop Hd4).
    specialize (Hloop ltac:(repeat constructor) Hrecs
                  (later_head_no_formant frs) ltac:(lia)).
    assert (length recs < S (length f)) as Hlen.
    { rewrite (drop_nonempty_length _ _ _ _ Hd4), length_app,
        length_formant_lines. lia. }
    specialize (Hloop Hlen).
    rewrite M_bind_unfold.
    destruct (eval_formants recs _ _) as [[fs bs]| |].
    + destruct Hloop as (st' & quiet' & Hfl & Hd' & Hq').
      rewrite Hfl, rbind_Ok. cbv beta iota.
      apply (IH fuel _ st' quiet' Hd' Hq' Hwf').
      simpl in Hfuel. lia.
    + rewrite Hloop. reflexivity.
    + contradiction.
Qed.

End FormantsRender.

(** * A report written from its records parses to what they evaluate to *)

Section FormantsReport.
Context `{FL : PyFloat}.
Import Formants.

Lemma lift_bind {A B : Type} (r : result A) (k : A -> M B) (st : cursor) :
  (lift r ≫= k) st =
  match r with
  | Ok a => k a st
  | Raise e => Raise e
  | OutOfFuel => OutOfFuel
  end.
Proof. rewrite M_bind_unfold. now destruct r. Qed.

Lemma field_bind {B : Type} f key i lm value (k : pyfloat -> M B) :
  drop i f = take 1 (drop i f) ++ (key +:+ " = " +:+ value) :: drop (S (S i)) f ->
  Forall (no_match (Re_kw key)) (take 1 (drop i f)) ->
  number_literal value = true ->
  length (take 1 (drop i f)) = 1 ->
  (find_field f key ≫= k) (Cursor i lm) =
  match float_of_string value with
  | Ok a => k a (Cursor (S i) (Some (Some value)))
  | Raise e => Raise e
  | OutOfFuel => OutOfFuel
  end.
Proof.
  intros Hd HF Hv Hl. rewrite M_bind_unfold.
  rewrite (find_field_hit f key (Cursor i lm) _ value _ Hd HF Hv).
  cbn [self_i]. rewrite Hl, Nat.add_1_r.
  now destruct (float_of_string value).
Qed.

Lemma scan_report_render (h : report_header) (frs : list frame_record) :
  wf_header h -> Forall wf_frame frs ->
  fst <$> scan_report (report_lines h frs) (Cursor 2 None)
  = eval_report h frs.
Proof.
  intros (Hxmin & Hxmax & Hnx & Hdx & Hx1 & Hmaxn) Hwf.
  unfold scan_report, read_scalars, eval_report.
  set (f := report_lines h frs).
  rewrite M_bind_unfold.
  rewrite (field_bind f "xmin" 2 _ (h_xmin h) _ eq_refl
             ltac:(repeat constructor) Hxmin eq_refl).
  destruct (float_of_string (h_xmin h)) as [xmin_| |];
    [rewrite rbind_Ok|reflexivity|reflexivity].
  rewrite (field_bind f "xmax" 3 _ (h_xmax h) _ eq_refl
             ltac:(repeat constructor) Hxmax eq_refl).
  destruct (float_of_string (h_xmax h)) as [xmax_| |];
    [rewrite rbind_Ok|reflexivity|reflexivity].
  rewrite (field_bind f "nx" 4 _ (h_nx h) _ eq_refl
             ltac:(repeat constructor) Hnx eq_refl).
  destruct (float_of_string (h_nx h)) as [nx_| |];
    [rewrite rbind_Ok|reflexivity|reflexivity].
  rewrite (field_bind f "dx" 5 _ (h_dx h) _ eq_refl
             ltac:(repeat constructor) Hdx eq_refl).
  destruct (float_of_string (h_dx h)) as [dx_| |];
    [rewrite rbind_Ok|reflexivity|reflexivity].
  rewrite (field_bind f "x1" 6 _ (h_x1 h) _ eq_refl
             ltac:(repeat constructor) Hx1 eq_refl).
  destruct (float_of_string (h_x1 h)) as [x1_| |];
    [rewrite rbind_Ok|reflexivity|reflexivity].
  rewrite (field_bind f "maxnFormants" 7 _ (h_maxnFormants h) _ eq_refl
             ltac:(repeat constructor) Hmaxn eq_refl).
  destruct (float_of_string (h_maxnFormants h)) as [maxn_| |];
    [rewrite rbind_Ok|reflexivity|reflexivity].
  rewrite lift_bind.
  destruct (int_of_float nx_) as [nx'| |];
    [rewrite rbind_Ok|reflexivity|reflexivity].
  rewrite lift_bind.
  destruct (int_of_float maxn_) as [maxn'| |];
    [rewrite rbind_Ok|reflexivity|reflexivity].
  cbn [mret M_ret]. cbv beta iota.
  rewrite (M_bind_Ok _ _ _ _ _
             (find_line_hit f Re_frames_array None (Cursor 8 _)
                (take 1 (drop 8 f)) "frames []:" (drop 10 f) None eq_refl
                ltac:(repeat constructor) eq_refl)).
  cbn [default self_i length].
  apply (frames_loop_render f frs _ _ _ ["frames []:"]).
  - reflexivity.
  - repeat constructor.
  - exact Hwf.
  - unfold f, report_lines. rewrite length_app.
    pose proof (length_frame_lines frs). lia.
Qed.

(** The parser reads a report written from its records as
    [eval_report] computes it. *)
Lemma from_praat_text_render (h : report_header) (frs : list frame_record)
    (raw : list string) :
  wf_header h -> Forall wf_frame frs ->
  strip is_space3 <$> raw = report_lines h frs ->
  from_praat_text raw = eval_report h frs.
Proof.
  intros Hh Hwf Hraw. unfold from_praat_text. rewrite Hraw.
  unfold parse_lines.
  change (getitem (report_lines h frs) 0) with (Ok file_type_line).
  rewrite rbind_Ok, String.eqb_refl. cbn [negb].
  change (getitem (report_lines h frs) 1) with (Ok formant_class_line).
  rewrite rbind_Ok, String.eqb_refl. cbn [negb].
  rewrite fmap_fst_bind. now apply scan_report_render.
Qed.

(** ** The records evaluate whenever their numbers are in range *)

Lemma float_of_string_literal (s : string) :
  number_literal s = true -> exists x, float_of_string s = Ok x.
Proof.
  intros Hs. destruct (parse_float_number s Hs) as (x & Hx & _).
  exists x. unfold float_of_string. now rewrite Hx.
Qed.

Lemma setitem_in_range {A : Type} (l : list A) (i : Z) (x : A) :
  is_Some (slot_of (length l) i) ->
  exists l', setitem l i x = Ok l' /\ length l' = length l.
Proof.
  intros [k Hk]. unfold setitem. rewrite Hk.
  eexists; split; [reflexivity|]. apply length_insert.
Qed.

Lemma eval_formants_in_range (width : nat) (recs : list formant_record) :
  Forall wf_formant recs -> Forall (formant_in_range width) recs ->
  forall fs bs, length fs = width -> length bs = width ->
  exists fs' bs', eval_formants recs fs bs = Ok (fs', bs') /\
    length fs' = width /\ length bs' = width.
Proof.
  induction 1 as [|r recs (_ & Hfq & Hbw) _ IH]; intros Hr fs bs Hfs Hbs.
  - exists fs, bs. now split.
  - apply Forall_cons in Hr as [Hslot Hr'].
    destruct (float_of_string_literal _ Hfq) as (frq & Efrq).
    destruct (float_of_string_literal _ Hbw) as (bw & Ebw).
    unfold formant_in_range in Hslot.
    destruct (setitem_in_range fs (digits_value (fr_index r) - 1) frq)
      as (fs1 & Efs & Lfs); [now rewrite Hfs|].
    destruct (setitem_in_range bs (digits_value (fr_index r) - 1) bw)
      as (bs1 & Ebs & Lbs); [now rewrite Hbs|].
    destruct (IH Hr' fs1 bs1) as (fs' & bs' & E & L1 & L2); [congruence..|].
    exists fs', bs'. split; [|now split].
    cbn [eval_formants]. rewrite Efrq, rbind_Ok, Efs, rbind_Ok.
    rewrite Ebw, rbind_Ok, Ebs, rbind_Ok. exact E.
Qed.

Lemma eval_frames_in_range (frs : list frame_record) :
  Forall wf_frame frs ->
  forall d, Forall (frame_in_range (Z.to_nat (maxnFormants d))) frs ->
  exists d', eval_frames d frs = Ok d' /\ nx d' = nx d /\
    maxnFormants d' = maxnFormants d /\
    length (t d') = length (t d) + length frs /\
    length (intensity d') = length (intensity d) + length frs /\
    length (formants d') = length (formants d) + length frs /\
    length (bandwidths d') = length (bandwidths d) + length frs.
Proof.
  induction 1 as [|fr frs (_ & Hv & Hrecs) _ IH]; intros d Hr.
  - exists d. cbn [eval_frames length]. rewrite !Nat.add_0_r. tauto.
  - apply Forall_cons in Hr as [([y Hy] & Hslots) Hr'].
    destruct (float_of_string_literal _ Hv) as (v & Ev).
    destruct (eval_formants_in_range _ _ Hrecs Hslots
                (replicate (Z.to_nat (maxnFormants d)) nan)
                (replicate (Z.to_nat (maxnFormants d)) nan))
      as (fs & bs & E & _); [apply length_replicate..|].
    cbn [eval_frames]. unfold int_mul_float. rewrite Hy, rbind_Ok.
    rewrite Ev, rbind_Ok, E, rbind_Ok.
    match goal with
    | |- context [eval_frames ?d1 frs] =>
        destruct (IH d1 Hr') as (d' & Ed & Hnx & Hmax & Lt & Li & Lf & Lb)
    end.
    exists d'. cbn [nx maxnFormants t intensity formants bandwidths] in *.
    rewrite length_app in Lt, Li, Lf, Lb. cbn [length] in *.
    repeat split; [exact Ed|congruence|congruence|lia..].
Qed.

Lemma eval_report_in_range (h : report_header) (frs : list frame_record)
    (nx_ maxn_ : Z) :
  wf_header h -> Forall wf_frame frs -> report_in_range h frs nx_ maxn_ ->
  exists d, eval_report h frs = Ok d /\ nx d = nx_ /\
    maxnFormants d = maxn_ /\
    length (t d) = length frs /\ length (intensity d) = length frs /\
    length (formants d) = length frs /\ length (bandwidths d) = length frs.
Proof.
  intros (Hxmin & Hxmax & _ & Hdx & Hx1 & _) Hwf
         ((a & Ea & Ha) & (b & Eb & Hb) & Hr).
  destruct (float_of_string_literal _ Hxmin) as (xmin_ & E1).
  destruct (float_of_string_literal _ Hxmax) as (xmax_ & E2).
  destruct (float_of_string_literal _ Hdx) as (dx_ & E3).
  destruct (float_of_string_literal _ Hx1) as (x1_ & E4).
  destruct (eval_frames_in_range frs Hwf
              (Data xmin_ xmax_ nx_ dx_ x1_ maxn_ [] [] [] []) Hr)
    as (d & Ed & Hnx & Hmax & Lt & Li & Lf & Lb).
  exists d. split; [|tauto].
  assert (float_of_string (h_nx h) = Ok a) as En
    by (unfold float_of_string; now rewrite Ea).
  assert (float_of_string (h_maxnFormants h) = Ok b) as Em
    by (unfold float_of_string; now rewrite Eb).
  unfold eval_report. rewrite E1, rbind_Ok, E2, rbind_Ok, En, rbind_Ok.
  rewrite E3, rbind_Ok, E4, rbind_Ok, Em, rbind_Ok.
  unfold int_of_float. rewrite Ha, rbind_Ok, Hb, rbind_Ok. exact Ed.
Qed.

(** A report written from complete records parses, whatever count its
    header declares. *)
Lemma complete_report_parses
    (h : report_header) (frs : list frame_record) (raw : list string)
    (nx_ maxn_ : Z) :
  wf_header h -> Forall wf_frame frs ->
  strip is_space3 <$> raw = report_lines h frs ->
  report_in_range h frs nx_ maxn_ ->
  exists d, from_praat_text raw = Ok d /\ eval_report h frs = Ok d /\
    nx d = nx_ /\
    length (t d) = length frs /\ length (intensity d) = length frs /\
    length (formants d) = length frs /\ length (bandwidths d) = length frs.
Proof.
  intros Hh Hwf Hraw Hr.
  destruct (eval_report_in_range h frs nx_ maxn_ Hh Hwf Hr)
    as (d & Ed & Hnx & _ & Lt & Li & Lf & Lb).
  exists d. rewrite (from_praat_text_render h frs raw Hh Hwf Hraw).
  tauto.
Qed.

(** ** Where a parse that succeeds has stopped *)

Lemma find_field_in_file (f : list string) (k : string) (st st' : cursor)
    (x : pyfloat) :
  self_i st < length f -> find_field f k st = Ok (x, st') ->
  self_i st' < length f.
Proof.
  intros Hin H. pose proof (find_field_spec f k st (or_introl Hin)) as Hs.
  rewrite H in Hs. tauto.
Qed.

Lemma read_scalars_in_file (f : list string) (d : data) (st' : cursor) :
  read_scalars f (Cursor 2 None) = Ok (d, st') ->
  self_i st' < length f /\ t d = [].
Proof.
  unfold read_scalars. intros H.
  apply M_bind_Ok_inv in H as (v1 & st1 & H1 & H).
  pose proof (find_field_spec f "xmin" (Cursor 2 None)
                (or_intror eq_refl)) as Hs.
  rewrite H1 in Hs. destruct Hs as (_ & _ & L1 & _).
  apply M_bind_Ok_inv in H as (v2 & st2 & H2 & H).
  pose proof (find_field_in_file _ _ _ _ _ L1 H2) as L2.
  apply M_bind_Ok_inv in H as (v3 & st3 & H3 & H).
  pose proof (find_field_in_file _ _ _ _ _ L2 H3) as L3.
  apply M_bind_Ok_inv in H as (v4 & st4 & H4 & H).
  pose proof (find_field_in_file _ _ _ _ _ L3 H4) as L4.
  apply M_bind_Ok_inv in H as (v5 & st5 & H5 & H).
  pose proof (find_field_in_file _ _ _ _ _ L4 H5) as L5.
  apply M_bind_Ok_inv in H as (v6 & st6 & H6 & H).
  pose proof (find_field_in_file _ _ _ _ _ L5 H6) as L6.
  apply M_bind_Ok_inv in H as (n & st7 & Hn & H).
  apply lift_Ok_inv in Hn as [_ ->].
  apply M_bind_Ok_inv in H as (m & st8 & Hm & H).
  apply lift_Ok_inv in Hm as [_ ->].
  injection H as <- <-. auto.
Qed.

(** The loop over the formants of a frame ends within the file, on the
    bound of the frame when it broke off, and otherwise with no formant
    marker left from the cursor on. *)
Lemma formant_loop_end fuel f nf fs bs st fs' bs' st' :
  formant_loop fuel f nf fs bs st = Ok ((fs', bs'), st') ->
  self_i st < length f ->
  self_i st' < length f /\
  (self_i st' = nf \/
   forall j l, self_i st' <= j -> f !! j = Some l ->
               re_match Re_formant l = None).
Proof.
  revert fs bs st. induction fuel as [|fuel IH]; intros fs bs st H Hin.
  - discriminate.
  - rewrite formant_loop_S in H.
    apply M_bind_Ok_inv in H as (r & st1 & Hfind & H).
    pose proof (find_marker_spec f Re_formant None st (or_intror eq_refl)) as Hs.
    rewrite Hfind in Hs. destruct r as [l|].
    + destruct Hs as (Htr & Hle & Hlt & Hl & (g & Hm & Hg & Hint) & Hbefore).
      rewrite Htr in H.
      apply M_bind_Ok_inv in H as (idx & st1' & Hidx & H).
      rewrite Hint in Hidx. injection Hidx as <- <-.
      apply M_bind_Ok_inv in H as (i & st1' & Hi & H).
      injection Hi as <- <-.
      destruct (nf <? self_i st1) eqn:Hbreak.
      * apply Nat.ltb_lt in Hbreak.
        apply M_bind_Ok_inv in H as ([] & st2 & Hset & H).
        injection Hset as <-. injection H as <- <- <-. simpl.
        split; [lia | now left].
      * apply M_bind_Ok_inv in H as (frq & st2 & Hfrq & H).
        pose proof (find_field_in_file _ _ _ _ _ Hlt Hfrq) as Hlt2.
        apply M_bind_Ok_inv in H as (fs1 & st2' & Hset1 & H).
        apply lift_Ok_inv in Hset1 as [_ ->].
        apply M_bind_Ok_inv in H as (bw & st3 & Hbw & H).
        pose proof (find_field_in_file _ _ _ _ _ Hlt2 Hbw) as Hlt3.
        apply M_bind_Ok_inv in H as (bs1 & st3' & Hset2 & H).
        apply lift_Ok_inv in Hset2 as [_ ->].
        exact (IH _ _ _ H Hlt3).
    + destruct Hs as (Hi & Hnone & _). simpl in H.
      injection H as <- <- <-. simpl in Hnone.
      split; [lia|]. right. intros j l Hj. apply Hnone. lia.
Qed.

(** The loop over the frames ends within the file with no frame marker
    left from the cursor on; unless it read no frame at all, no formant
    marker is left either. *)
Lemma frames_loop_end fuel f d st d' st' :
  frames_loop fuel f d st = Ok (d', st') -> self_i st < length f ->
  self_i st' < length f /\
  (forall j l, self_i st' <= j -> f !! j = Some l ->
               re_match Re_frames l = None) /\
  ((d' = d /\ self_i st' = self_i st) \/
   forall j l, self_i st' <= j -> f !! j = Some l ->
               re_match Re_formant l = None).
Proof.
  revert d st. induction fuel as [|fuel IH]; intros d st H Hin.
  - discriminate.
  - rewrite frames_loop_S in H.
    apply M_bind_Ok_inv in H as (r & st1 & Hfind & H).
    pose proof (find_marker_spec f Re_frames None st (or_introl eq_refl)) as Hs.
    rewrite Hfind in Hs. destruct r as [l|].
    + destruct Hs as (Htr & Hle & Hlt & Hl & (g & Hm & Hg & Hint) & _).
      rewrite Htr in H.
      apply M_bind_Ok_inv in H as (idx & st1' & Hidx & H).
      rewrite Hint in Hidx. injection Hidx as <- <-.
      apply M_bind_Ok_inv in H as (off & st1' & Hoff & H).
      apply lift_Ok_inv in Hoff as [Hoff ->].
      apply M_bind_Ok_inv in H as (v & st2 & Hv & H).
      pose proof (find_field_in_file _ _ _ _ _ Hlt Hv) as Hlt2.
      apply M_bind_Ok_inv in H as (i_frame & st2' & Hi & H).
      injection Hi as <- <-.
      apply M_bind_Ok_inv in H as (r3 & st3 & Hfind3 & H).
      apply M_bind_Ok_inv in H as (next_frame & st3' & Hnext & H).
      destruct (next_frame_spec _ _ _ _ _ _ _ eq_refl Hlt2 Hfind3 Hnext)
        as (-> & Hnf & _ & _ & Hmark).
      apply M_bind_Ok_inv in H as ([] & st4 & Hset & H).
      injection Hset as <-.
      apply M_bind_Ok_inv in H as (r5 & st5 & Hfind5 & H).
      pose proof (find_line_spec f Re_formant_array None
                    (Cursor (self_i st2) (last_match st3))) as Hs5.
      rewrite Hfind5 in Hs5. simpl in Hs5.
      assert (self_i st5 < length f) as Hlt5.
      { destruct r5 as [l5|].
        - destruct Hs5 as (_ & Hb & _). exact (lookup_lt_Some _ _ _ Hb).
        - destruct Hs5 as (-> & _). simpl. lia. }
      apply M_bind_Ok_inv in H as ([fs bs] & st6 & Hloop & H).
      destruct (formant_loop_end _ _ _ _ _ _ _ _ _ Hloop Hlt5)
        as [Hlt6 Hend6].
      destruct (IH _ _ H Hlt6) as (Hlt' & Hnone & Hrest).
      split; [exact Hlt'|]. split; [exact Hnone|]. right.
      destruct Hrest as [[_ Hst]|Hquiet]; [|exact Hquiet].
      rewrite Hst in *.
      destruct Hend6 as [Hbroke|Hquiet6].
      * exfalso. rewrite Hbroke in Hlt6, Hnone.
        destruct (Hmark Hlt6) as (ln & mn & Hln & Hmn).
        rewrite (Hnone next_frame ln) in Hmn; [discriminate|lia|exact Hln].
      * exact Hquiet6.
    + destruct Hs as (Hi & Hnone & _). simpl in H.
      injection H as <- <-. simpl in Hnone.
      split; [lia|]. split; [|left; split; [reflexivity | exact Hi]].
      intros j l Hj. apply Hnone. lia.
Qed.

(** A parse that succeeds has stopped on a line of the file from which on
    there is no frame marker, and no formant marker either unless no frame
    was read. *)
Lemma successful_parse_end (raw : list string) (d : data) :
  from_praat_text raw = Ok d ->
  exists c, c < length (strip is_space3 <$> raw) /\
    (forall j l, c <= j -> (strip is_space3 <$> raw) !! j = Some l ->
                 re_match Re_frames l = None) /\
    (t d = [] \/
     forall j l, c <= j -> (strip is_space3 <$> raw) !! j = Some l ->
                 re_match Re_formant l = None).
Proof.
  unfold from_praat_text, parse_lines.
  generalize (strip is_space3 <$> raw). intros f H.
  apply rbind_Ok_inv in H as (f0 & _ & H).
  destruct (negb (String.eqb f0 file_type_line)); [discriminate|].
  apply rbind_Ok_inv in H as (f1 & _ & H).
  destruct (negb (String.eqb f1 formant_class_line)); [discriminate|].
  apply rbind_Ok_inv in H as ([d' st'] & Hscan & H). injection H as ->.
  unfold scan_report in Hscan.
  apply M_bind_Ok_inv in Hscan as (d0 & st1 & Hd0 & H).
  destruct (read_scalars_in_file _ _ _ Hd0) as [L1 Ht0].
  apply M_bind_Ok_inv in H as (r & st2 & Hfind & H).
  assert (self_i st2 < length f) as L2.
  { pose proof (find_line_spec f Re_frames_array None st1) as Hs.
    rewrite Hfind in Hs. simpl in Hs. destruct r as [l|].
    - destruct Hs as (_ & Hb & _). exact (lookup_lt_Some _ _ _ Hb).
    - destruct Hs as (-> & _). exact L1. }
  destruct (frames_loop_end _ _ _ _ _ _ H L2) as (L' & Hnone & Hrest).
  exists (self_i st'). split; [exact L'|]. split; [exact Hnone|].
  destruct Hrest as [[-> _]|Hquiet]; [left; exact Ht0 | right; exact Hquiet].
Qed.


End FormantsReport.

(** * The exports of an object that has read nothing *)

Section FormantsExport.
Context `{FL : PyFloat}.
Import Formants.

(** C6: on an object that has read no report, [to_matlab_literal] raises
    ValueError with its message about an empty data set, whereas
    [to_matlab_mat] raises nothing of its own: it has no such test and
    calls [scipy.io.savemat] with the file name and [None] for the data. *)
Theorem formants_export_before_parse
    (str_float : pyfloat -> string) (str_int : Z -> string) :
  to_matlab_literal str_float str_int init =
    raise_msg ValueError
      "Trying to export an empty formant data set. Call an import method first (e.g. from_praat_text)." /\
  forall mat_filename,
    to_matlab_mat init mat_filename = Ok (Savemat mat_filename None true).
Proof. split; [reflexivity|]. intros mat_filename. reflexivity. Qed.

End FormantsExport.

(** * The formant properties on concrete reports *)

Section FormantsExamples.
Import Formants.
Import Fixtures.

Lemma formants_times_follow_marker_index_witness :
  from_praat_text fm_two_frames = Ok fm_two_frames_parsed /\
  exists marks : list (nat * Z),
    StronglySorted lt (fst <$> marks) /\
    Forall2 (fun mk tj =>
               (exists l g, (strip is_space3 <$> fm_two_frames) !! mk.1 = Some l /\
                  re_match Re_frames l = Some (Some g) /\
                  mk.2 = digits_value g) /\
               frame_time (x1 fm_two_frames_parsed) (dx fm_two_frames_parsed)
                 mk.2 = Ok tj)
            marks (t fm_two_frames_parsed) /\
    forall j mk tj, marks !! j = Some mk ->
      t fm_two_frames_parsed !! j = Some tj ->
      mk.2 = (Z.of_nat j + 1)%Z ->
      exists y, int_to_float (Z.of_nat j) = Some y /\
                tj = fadd (x1 fm_two_frames_parsed)
                       (fmul y (dx fm_two_frames_parsed)).
Proof.
  assert (from_praat_text fm_two_frames = Ok fm_two_frames_parsed) as Hp
    by (vm_compute; reflexivity).
  split; [exact Hp|].
  exact (formants_times_follow_marker_index _ _ Hp).
Defined.

(** A single frame marked [frames [5]:] is stamped [x1 + 4 * dx], where
    [x1 + 0 * dx] is [x1]; two frames marked 2 then 1 are stamped
    [x1 + dx] then [x1]. *)
Lemma formants_marker_index_counterexample :
  from_praat_text fm_frame_five = Ok fm_frame_five_parsed /\
  t fm_frame_five_parsed = [XNum (13 # 400)] /\
  int_mul_float 0 (dx fm_frame_five_parsed) = Ok (XNum 0) /\
  fadd (x1 fm_frame_five_parsed) (XNum 0) = XNum (1 # 80) /\
  XNum (13 # 400) <> XNum (1 # 80) /\
  from_praat_text fm_frames_swapped = Ok fm_frames_swapped_parsed /\
  t fm_frames_swapped_parsed = [XNum (7 # 400); XNum (1 # 80)].
Proof.
  split; [vm_compute; reflexivity|].
  split; [reflexivity|].
  split; [vm_compute; reflexivity|].
  split; [vm_compute; reflexivity|].
  split; [discriminate|].
  split; [vm_compute; reflexivity|reflexivity].
Qed.






End FormantsExamples.

(** * TextGrid: the line search, the ranges of the tiers, the display *)

Section TextGridSearch.
Context `{FL : PyFloat}.

(** [findLineSW] returns the first line of [content[start:end]] that starts
    with [line], with its index in [content]; it returns nothing exactly
    when no line of that slice starts with [line].  An [end] beyond the
    last line is the end of the file. *)
Theorem findLineSW_first_match (content : list string) (line : string)
    (start : nat) (end_ : option nat) :
  match TextGrid.findLineSW content line start end_ with
  | Some (i, l) =>
      start <= i < default (length content) end_ /\
      content !! i = Some l /\ startswith line l = true /\
      forall j l', start <= j < i -> content !! j = Some l' ->
                   startswith line l' = false
  | None =>
      forall j l', start <= j < default (length content) end_ ->
                   content !! j = Some l' -> startswith line l' = false
  end.
Proof.
  unfold TextGrid.findLineSW.
  set (stop := default (length content) end_).
  destruct (TextGrid.findLineSW_in line
              (take (stop - start) (drop start content)) start)
    as [[i l]|] eqn:H.
  - destruct (findLineSW_in_Some _ _ _ _ _ H) as (Hle & Hl & Hsw & Hbefore).
    apply lookup_take_Some in Hl as [Hl Hlt].
    rewrite lookup_drop in Hl.
    replace (start + (i - start)) with i in Hl by lia.
    split; [lia|]. split; [exact Hl|]. split; [exact Hsw|].
    intros j l' Hj Hl'. apply (Hbefore (j - start)); [lia|].
    rewrite lookup_take_lt by lia. rewrite lookup_drop.
    now replace (start + (j - start)) with j by lia.
  - apply findLineSW_in_None in H. rewrite Forall_lookup in H.
    intros j l' Hj Hl'. apply (H (j - start)).
    rewrite lookup_take_lt by lia. rewrite lookup_drop.
    now replace (start + (j - start)) with j by lia.
Qed.

End TextGridSearch.

Section TextGridRanges.
Context `{FL : PyFloat}.

Lemma find_items_chain content js :
  forall i idx idx',
  TextGrid.find_items content js i idx = Ok idx' ->
  exists new, idx' = idx ++ new /\ length new = length js /\
    forall k j, js !! k = Some j ->
      exists p, (i :: new) !! k = Some (Some p) /\
        new !! k = Some (fst <$> TextGrid.findLineSW content
                                   (TextGrid.item_marker (Z.of_nat j + 1))
                                   (p + 1) None).
Proof.
  induction js as [|j js IH]; intros i idx idx'; simpl.
  - intros [= <-]. exists []. rewrite app_nil_r.
    split; [reflexivity|]. split; [reflexivity|]. intros k j Hk.
    now rewrite lookup_nil in Hk.
  - destruct i as [i0|]; [|discriminate].
    intros H. destruct (IH _ _ _ H) as (new & -> & Hlen & Hnew).
    eexists (_ :: new). rewrite <- app_assoc. split; [reflexivity|].
    split; [simpl; now rewrite Hlen|].
    intros [|k] j' Hk; simpl in *.
    + injection Hk as <-. eauto.
    + exact (Hnew k j' Hk).
Qed.

Lemma all_found {A : Type} (l : list (option A)) :
  Forall is_Some l -> exists xs, l = Some <$> xs.
Proof.
  induction 1 as [|o l [x ->] _ [xs ->]]; [now exists []|].
  now exists (x :: xs).
Qed.

(** The tiers are located one after the other.  In a parse that succeeds,
    the marker of item 1 is the first line starting with it after the size
    line, the marker of every further item is the first line starting with
    it after the marker before; the range of a tier starts on the line
    after its marker and ends on the marker of the next tier, the range of
    the last tier at the end of the file. *)
Theorem textgrid_tier_ranges_chain (content : list string)
    (tg : TextGrid.textgrid) :
  TextGrid.parse content = Ok tg ->
  exists (i0 : nat) (ms : list nat),
    (exists l, TextGrid.findLineSW content "size = " 0 None = Some (i0, l)) /\
    length ms = Z.to_nat (TextGrid.size tg) /\
    (forall j p m, (i0 :: ms) !! j = Some p -> ms !! j = Some m ->
       p < m < length content /\
       TextGrid.marker_after content (Z.of_nat j + 1) p m) /\
    TextGrid.itemRanges tg =
      zip_with (fun m e => (m + 1, Some e)) ms
        (drop 1 (ms ++ [length content])).
Proof.
  intros Hp. destruct (parse_Ok_inv _ _ Hp) as (Hloc & Hlen & _).
  clear Hp. revert Hloc Hlen.
  generalize (TextGrid.size tg) (TextGrid.itemRanges tg). intros sz ranges.
  unfold TextGrid.locate_tiers.
  destruct (TextGrid.findLineSW content "Object class" 0 None)
    as [[ic lc]|]; [|discriminate].
  destruct (negb _); [discriminate|].
  destruct (TextGrid.findLineSW content "size = " 0 None)
    as [[i0 l0]|] eqn:Hsize; [|discriminate].
  destruct (int_of_string _ _) as [z| |]; simpl; try discriminate.
  destruct (TextGrid.find_items _ _ _ _) as [idx| |] eqn:Hidx; simpl;
    try discriminate.
  destruct (TextGrid.item_ranges _ _ _) as [rs| |] eqn:Hrs; simpl;
    try discriminate.
  intros [= -> ->] Hlen.
  destruct (find_items_chain _ _ _ _ _ Hidx) as (new & -> & Hnl & Hnew).
  simpl in *. rewrite range_length in Hnl.
  destruct (item_ranges_spec _ _ _ _ Hrs) as (rs' & -> & HF). simpl in *.
  assert (exists ms, new = Some <$> ms) as [ms ->].
  { apply all_found. apply Forall_lookup. intros k o Hk.
    assert (k < Z.to_nat sz) as Hlt
      by (rewrite <- Hnl; exact (lookup_lt_Some _ _ _ Hk)).
    destruct (Forall2_lookup_l _ _ _ k k HF) as (r & _ & a & Ha & _).
    { unfold TextGrid.range. now apply lookup_seq_lt. }
    rewrite lookup_app_l in Ha by lia. rewrite Hk in Ha.
    injection Ha as ->. eauto. }
  rewrite length_fmap in Hnl.
  exists i0, ms. split; [eauto|]. split; [exact Hnl|]. split.
  - intros j p m Hpj Hmj.
    assert (j < Z.to_nat sz) as Hlt
      by (rewrite <- Hnl; exact (lookup_lt_Some _ _ _ Hmj)).
    destruct (Hnew j j) as (p' & Hp' & Hfind).
    { unfold TextGrid.range. now apply lookup_seq_lt. }
    change (Some i0 :: (Some <$> ms)) with (Some <$> (i0 :: ms)) in Hp'.
    rewrite list_lookup_fmap, Hpj in Hp'. injection Hp' as <-.
    rewrite list_lookup_fmap, Hmj in Hfind. simpl in Hfind.
    destruct (TextGrid.findLineSW content _ (p + 1) None)
      as [[m' l]|] eqn:Hf; [|discriminate].
    injection Hfind as ->.
    destruct (findLineSW_Some _ _ _ _ _ Hf) as (Hle & Hl & _).
    apply lookup_lt_Some in Hl.
    split; [lia|]. exists l. exact Hf.
  - apply list_eq. intros k. rewrite lookup_zip_with.
    destruct (rs' !! k) as [r|] eqn:Hr.
    + destruct (Forall2_lookup_r _ _ _ _ _ HF Hr)
        as (j & Hj & a & Ha & Hr1 & Hr2).
      apply lookup_seq in Hj as [-> Hlt]. simpl in *.
      rewrite lookup_app_l in Ha by (rewrite length_fmap; lia).
      rewrite list_lookup_fmap in Ha.
      destruct (ms !! k) as [m|] eqn:Hm; [|discriminate].
      injection Ha as <-. simpl.
      rewrite lookup_drop. replace (1 + k) with (k + 1) by lia.
      change [Some (length content)] with (Some <$> [length content]) in Hr2.
      rewrite <- fmap_app, list_lookup_fmap in Hr2.
      destruct ((ms ++ [length content]) !! (k + 1)) as [e|];
        [|discriminate].
      simpl in *. destruct r as [r1 r2]. simpl in *. congruence.
    + apply lookup_ge_None in Hr.
      pose proof (Forall2_length _ _ _ HF) as HL.
      rewrite range_length in HL.
      rewrite (proj2 (lookup_ge_None ms k)) by lia. reflexivity.
Qed.

End TextGridRanges.

Section TextGridDisplay.
Context `{FL : PyFloat}.
Variable fmt_f : pyfloat -> string.

Lemma labels_loop_spec (ivs : list (list TextGrid.interval)) (j : nat)
    (tier : list TextGrid.interval) :
  ivs !! j = Some tier ->
  forall rest done_ s, tier = done_ ++ rest ->
  TextGrid.labels_loop fmt_f ivs j (seq (length done_) (length rest)) s =
  Ok (s +:+ TextGrid.flatten
              (imap (fun i iv => TextGrid.label_x fmt_f j (length done_ + i) iv
                                 +:+ TextGrid.label_text j (length done_ + i)
                                       iv) rest)).
Proof.
  intros Hj. induction rest as [|iv rest IH]; intros done_ s Ht.
  - simpl. now rewrite append_nil_r.
  - cbn [length seq TextGrid.labels_loop]. unfold getitem.
    rewrite Hj, rbind_Ok.
    assert (tier !! length done_ = Some iv) as ->.
    { rewrite Ht, lookup_app_r, Nat.sub_diag by lia. reflexivity. }
    rewrite rbind_Ok.
    specialize (IH (done_ ++ [iv])). rewrite length_app in IH.
    cbn [length] in IH. rewrite Nat.add_1_r in IH.
    rewrite IH by (rewrite Ht, <- app_assoc; reflexivity).
    f_equal. rewrite imap_cons. cbn [TextGrid.flatten foldr].
    rewrite Nat.add_0_r, !append_assoc.
    repeat apply (f_equal (String.append _)).
    apply (f_equal (foldr String.append EmptyString)).
    apply imap_ext. intros i x _. unfold compose.
    now replace (length done_ + S i) with (S (length done_) + i) by lia.
Qed.

Lemma tiers_loop_spec (ivs : list (list TextGrid.interval)) :
  forall rest done_ s, ivs = done_ ++ rest -> done_ <> [] ->
  TextGrid.tiers_loop fmt_f ivs (seq (length done_) (length rest)) s =
  Ok (s +:+ TextGrid.flatten
              (imap (fun j => TextGrid.tier_statements fmt_f (length done_ + j))
                    rest)).
Proof.
  induction rest as [|tier rest IH]; intros done_ s Hivs Hne.
  - simpl. now rewrite append_nil_r.
  - cbn [length seq TextGrid.tiers_loop].
    destruct (Nat.eqb_spec (length done_) 0) as [H0|_];
      [now destruct done_|].
    assert (ivs !! length done_ = Some tier) as Hj.
    { rewrite Hivs, lookup_app_r, Nat.sub_diag by lia. reflexivity. }
    unfold getitem. rewrite Hj, rbind_Ok.
    pose proof (labels_loop_spec ivs _ tier Hj tier [] s eq_refl) as HL.
    cbn [length Nat.add] in HL. rewrite HL, rbind_Ok. clear HL.
    specialize (IH (done_ ++ [tier])). rewrite length_app in IH.
    cbn [length] in IH. rewrite Nat.add_1_r in IH.
    rewrite IH; [|rewrite Hivs, <- app_assoc; reflexivity
                 |now destruct done_].
    f_equal. rewrite imap_cons. cbn [TextGrid.flatten foldr].
    rewrite Nat.add_0_r, !append_assoc. unfold TextGrid.tier_statements at 3.
    cbn [length Nat.add].
    repeat apply (f_equal (String.append _)).
    apply (f_equal (foldr String.append EmptyString)).
    apply imap_ext. intros i x _. unfold compose.
    now replace (length done_ + S i) with (S (length done_) + i) by lia.
Qed.

(** The display of a parsed TextGrid never raises.  It is the line
    [x = struct();], then [x.interval(1) = struct();] when there is a tier,
    then the two statements of every interval, tier after tier, numbered
    from 1 in the order of the lists. *)
Theorem textgrid_display_after_parse (content : list string)
    (tg : TextGrid.textgrid) :
  TextGrid.parse content = Ok tg ->
  TextGrid.matlabDisp fmt_f tg =
  Ok ("x = struct();" +:+ TextGrid.newline
      +:+ (if (0 <? TextGrid.size tg)%Z
           then "x.interval(1) = struct();" +:+ TextGrid.newline
           else EmptyString)
      +:+ TextGrid.all_statements fmt_f (TextGrid.intervals tg)) /\
  TextGrid.script fmt_f content = TextGrid.matlabDisp fmt_f tg.
Proof.
  intros Hp. split; [|unfold TextGrid.script; now rewrite Hp].
  destruct (parse_Ok_inv _ _ Hp) as (_ & _ & Hlen & _).
  unfold TextGrid.matlabDisp, TextGrid.range, TextGrid.all_statements.
  rewrite <- Hlen.
  destruct (TextGrid.intervals tg) as [|tier ivs] eqn:Hivs.
  - assert ((0 <? TextGrid.size tg)%Z = false) as ->.
    { simpl in Hlen. apply Z.ltb_ge. lia. }
    reflexivity.
  - assert ((0 <? TextGrid.size tg)%Z = true) as ->.
    { simpl in Hlen. apply Z.ltb_lt. lia. }
    cbn [length seq TextGrid.tiers_loop Nat.eqb].
    unfold getitem. cbn [lookup list_lookup]. rewrite rbind_Ok.
    match goal with
    | |- context [TextGrid.labels_loop _ _ _ _ ?s0] =>
        pose proof (labels_loop_spec (tier :: ivs) 0 tier eq_refl tier []
                      s0 eq_refl) as HL
    end.
    cbn [length Nat.add] in HL. rewrite HL, rbind_Ok. clear HL.
    rewrite (tiers_loop_spec (tier :: ivs) ivs [tier] _ eq_refl)
      by discriminate.
    f_equal.
Qed.

End TextGridDisplay.

(** * Formants: the line search and the fields of the header *)

Section FormantsFind.
Context `{FL : PyFloat}.
Import Formants.

Lemma search_hits (p : pattern) (ls : list string) :
  forall (k : nat) (lm : option match_object),
  match search p ls k lm with
  | (Some (k', l), lm') =>
      k <= k' /\ ls !! (k' - k) = Some l /\ hits p l = true /\
      (forall j l', j < k' - k -> ls !! j = Some l' -> hits p l' = false) /\
      lm' = match p with PRe r => re_match r l | PStr _ => lm end
  | (None, lm') =>
      Forall (fun l => hits p l = false) ls /\
      lm' = match p, ls with
            | PRe _, _ :: _ => None
            | _, _ => lm
            end
  end.
Proof.
  induction ls as [|x ls IH]; intros k lm; simpl.
  - destruct p; auto.
  - destruct p as [r|s].
    + destruct (re_match r x) as [m|] eqn:Hx.
      * rewrite Nat.sub_diag. simpl. rewrite Hx.
        repeat split; auto. intros j l' Hj. lia.
      * specialize (IH (S k) None).
        destruct (search (PRe r) ls (S k) None) as [[[k' l]|] lm'].
        -- destruct IH as (Hle & Hl & Hh & Hbefore & Hlm).
           replace (k' - k) with (S (k' - S k)) by lia.
           repeat split; auto; [lia|].
           intros [|j] l'; simpl.
           ++ intros _ [= <-]. now rewrite Hx.
           ++ intros Hj. apply Hbefore. lia.
        -- destruct IH as [HF Hlm]. split.
           ++ constructor; [simpl; now rewrite Hx | exact HF].
           ++ destruct ls; exact Hlm.
    + destruct (startswith s x) eqn:Hx.
      * rewrite Nat.sub_diag. simpl. repeat split; auto.
        intros j l' Hj. lia.
      * specialize (IH (S k) lm).
        destruct (search (PStr s) ls (S k) lm) as [[[k' l]|] lm'].
        -- destruct IH as (Hle & Hl & Hh & Hbefore & Hlm).
           replace (k' - k) with (S (k' - S k)) by lia.
           repeat split; auto; [lia|].
           intros [|j] l'; simpl.
           ++ now intros _ [= <-].
           ++ intros Hj. apply Hbefore. lia.
        -- destruct IH as [HF Hlm]. split; [|exact Hlm].
           constructor; [exact Hx | exact HF].
Qed.

(** [_find_line] never raises.  It returns the first line, at or after the
    line it starts from, that the pattern matches or that starts with the
    string, and leaves [self.i] on that line; when there is none it returns
    [False] and leaves [self.i] where it was.  A search for a string never
    touches [self.last_match]; a search for a pattern leaves there the match
    of the line returned, and [None] after a failure, unless it had no line
    to try, in which case the match of an earlier search stays. *)
Theorem find_line_first_match (f : list string) (p : pattern)
    (io : option nat) (st : cursor) :
  exists res st', _find_line f p io st = Ok (res, st') /\
    match res with
    | Some l =>
        default (self_i st) io <= self_i st' /\
        f !! self_i st' = Some l /\ hits p l = true /\
        forall j l', default (self_i st) io <= j < self_i st' ->
                     f !! j = Some l' -> hits p l' = false
    | None =>
        self_i st' = self_i st /\
        forall j l', default (self_i st) io <= j -> f !! j = Some l' ->
                     hits p l' = false
    end /\
    last_match st' =
      match p, res with
      | PStr _, _ => last_match st
      | PRe r, Some l => re_match r l
      | PRe _, None =>
          if decide (default (self_i st) io < length f) then None
          else last_match st
      end.
Proof.
  unfold _find_line. set (from := default (self_i st) io).
  pose proof (search_hits p (drop from f) from (last_match st)) as H.
  destruct (search p (drop from f) from (last_match st)) as [[[k l]|] lm'].
  - destruct H as (Hle & Hl & Hh & Hbefore & Hlm).
    exists (Some l), (Cursor k lm'). split; [reflexivity|]. simpl.
    rewrite lookup_drop in Hl.
    replace (from + (k - from)) with k in Hl by lia.
    split.
    + repeat split; auto.
      intros j l' Hj Hl'. apply (Hbefore (j - from)); [lia|].
      rewrite lookup_drop. now replace (from + (j - from)) with j by lia.
    + rewrite Hlm. now destruct p.
  - destruct H as [HF Hlm].
    exists None, (Cursor (self_i st) lm'). split; [reflexivity|]. simpl.
    split.
    + split; [reflexivity|]. intros j l' Hj Hl'.
      rewrite Forall_lookup in HF. apply (HF (j - from)).
      rewrite lookup_drop. now replace (from + (j - from)) with j by lia.
    + rewrite Hlm. destruct p as [r|s]; [|reflexivity].
      destruct (decide (from < length f)) as [Hlt|Hge].
      * destruct (drop from f) eqn:Hd; [|reflexivity].
        apply (f_equal length) in Hd. rewrite length_drop in Hd.
        simpl in Hd. lia.
      * rewrite drop_ge by lia. reflexivity.
Qed.

End FormantsFind.

Section FormantsHeader.
Context `{FL : PyFloat}.
Import Formants.

Lemma find_field_at (f : list string) (k : string) (st st' : cursor)
    (x : pyfloat) :
  cursor_ok f st -> find_field f k st = Ok (x, st') ->
  field_at f k (self_i st) (self_i st') x /\ self_i st' < length f.
Proof.
  intros Hok H. pose proof (find_field_spec f k st Hok) as Hs.
  rewrite H in Hs.
  destruct Hs as (_ & Hle & Hlt & (l & g & Hl & Hm & Hg & _) & Hbefore).
  split; [|exact Hlt]. split; [exact Hle|]. split; [|exact Hbefore].
  exists l, g. auto.
Qed.

Lemma field_lines_differ (f : list string) (k1 k2 : string)
    (from1 from2 i : nat) (x y : pyfloat) :
  (forall r1 r2, k1 +:+ r1 <> k2 +:+ r2) ->
  field_at f k1 from1 i x -> field_at f k2 from2 i y -> False.
Proof.
  intros Hne (_ & (l & g & Hl & Hm & _) & _) (_ & (l' & g' & Hl' & Hm' & _) & _).
  rewrite Hl in Hl'. injection Hl' as <-.
  apply re_kw_inv in Hm as [[r1 ->] _].
  apply re_kw_inv in Hm' as [[r2 H2] _].
  exact (Hne _ _ H2).
Qed.

Lemma read_scalars_fields (f : list string) (d : data) (st' : cursor) :
  read_scalars f (Cursor 2 None) = Ok (d, st') ->
  exists i1 i2 i3 i4 i5 i6 nx_ maxn_,
    field_at f "xmin" 2 i1 (xmin d) /\ field_at f "xmax" i1 i2 (xmax d) /\
    field_at f "nx" i2 i3 nx_ /\ field_at f "dx" i3 i4 (dx d) /\
    field_at f "x1" i4 i5 (x1 d) /\ field_at f "maxnFormants" i5 i6 maxn_ /\
    float_to_int nx_ = Some (nx d) /\
    float_to_int maxn_ = Some (maxnFormants d).
Proof.
  unfold read_scalars. intros H.
  assert (cursor_ok f (Cursor 2 None)) as Hok0 by (right; reflexivity).
  apply M_bind_Ok_inv in H as (v1 & st1 & H1 & H).
  destruct (find_field_at _ _ _ _ _ Hok0 H1) as [F1 L1].
  apply M_bind_Ok_inv in H as (v2 & st2 & H2 & H).
  destruct (find_field_at _ _ _ _ _ (or_introl L1) H2) as [F2 L2].
  apply M_bind_Ok_inv in H as (v3 & st3 & H3 & H).
  destruct (find_field_at _ _ _ _ _ (or_introl L2) H3) as [F3 L3].
  apply M_bind_Ok_inv in H as (v4 & st4 & H4 & H).
  destruct (find_field_at _ _ _ _ _ (or_introl L3) H4) as [F4 L4].
  apply M_bind_Ok_inv in H as (v5 & st5 & H5 & H).
  destruct (find_field_at _ _ _ _ _ (or_introl L4) H5) as [F5 L5].
  apply M_bind_Ok_inv in H as (v6 & st6 & H6 & H).
  destruct (find_field_at _ _ _ _ _ (or_introl L5) H6) as [F6 L6].
  apply M_bind_Ok_inv in H as (n & st7 & Hn & H).
  apply lift_Ok_inv in Hn as [Hn ->].
  apply M_bind_Ok_inv in H as (m & st8 & Hm & H).
  apply lift_Ok_inv in Hm as [Hm ->].
  injection H as <- <-. simpl in *.
  exists (self_i st1), (self_i st2), (self_i st3), (self_i st4),
         (self_i st5), (self_i st6), v3, v6.
  unfold int_of_float in Hn, Hm.
  destruct (float_to_int v3); [|discriminate].
  destruct (float_to_int v6); [|discriminate].
  injection Hn as ->. injection Hm as ->. tauto.
Qed.

(** The six fields of the header are read in the order [xmin], [xmax],
    [nx], [dx], [x1], [maxnFormants], each on the first line that carries it
    at or after the line of the field before, the first from line 2 on: so
    they stand on six lines in this order.  The values stored are the
    floats of the numbers written there, [nx] and [maxnFormants] converted
    to integers. *)
Theorem formants_header_fields_in_order (raw : list string) (d : data) :
  from_praat_text raw = Ok d ->
  exists i1 i2 i3 i4 i5 i6 nx_ maxn_,
    field_at (strip is_space3 <$> raw) "xmin" 2 i1 (xmin d) /\
    field_at (strip is_space3 <$> raw) "xmax" i1 i2 (xmax d) /\
    field_at (strip is_space3 <$> raw) "nx" i2 i3 nx_ /\
    field_at (strip is_space3 <$> raw) "dx" i3 i4 (dx d) /\
    field_at (strip is_space3 <$> raw) "x1" i4 i5 (x1 d) /\
    field_at (strip is_space3 <$> raw) "maxnFormants" i5 i6 maxn_ /\
    float_to_int nx_ = Some (nx d) /\
    float_to_int maxn_ = Some (maxnFormants d) /\
    2 <= i1 /\ i1 < i2 /\ i2 < i3 /\ i3 < i4 /\ i4 < i5 /\ i5 < i6.
Proof.
  unfold from_praat_text, parse_lines.
  generalize (strip is_space3 <$> raw). intros f H.
  apply rbind_Ok_inv in H as (f0 & _ & H).
  destruct (negb (String.eqb f0 file_type_line)); [discriminate|].
  apply rbind_Ok_inv in H as (f1 & _ & H).
  destruct (negb (String.eqb f1 formant_class_line)); [discriminate|].
  apply rbind_Ok_inv in H as ([d' st'] & Hscan & H). injection H as ->.
  unfold scan_report in Hscan.
  apply M_bind_Ok_inv in Hscan as (d0 & st1 & Hd0 & H).
  assert (cursor_ok f (Cursor 2 None)) as Hok0 by (right; reflexivity).
  pose proof (read_scalars_spec f _ Hok0) as Hs. rewrite Hd0 in Hs.
  destruct Hs as (Hok1 & _).
  apply M_bind_Ok_inv in H as (r & st2 & Hfind & H).
  assert (cursor_ok f st2) as Hok2.
  { pose proof (find_line_spec f Re_frames_array None st1) as Hs.
    rewrite Hfind in Hs. simpl in Hs. destruct r as [l|].
    - destruct Hs as (_ & Hb & _). left. exact (lookup_lt_Some _ _ _ Hb).
    - destruct (find_line_failed _ _ _ _ Hok1 Hfind) as (_ & Hb & _).
      right; exact Hb. }
  apply frames_loop_spec in H; [|exact Hok2].
  destruct H as (rows & Hext & _).
  destruct Hext as (E1 & E2 & E3 & E4 & E5 & E6 & _).
  destruct (read_scalars_fields _ _ _ Hd0)
    as (i1 & i2 & i3 & i4 & i5 & i6 & nx_ & maxn_ &
        F1 & F2 & F3 & F4 & F5 & F6 & Hnx & Hmaxn).
  rewrite <- E1, <- E2, <- E3, <- E4, <- E5, <- E6 in *.
  exists i1, i2, i3, i4, i5, i6, nx_, maxn_.
  repeat (split; [assumption|]).
  assert (forall k1 k2 a b c x y,
            (forall r1 r2, k1 +:+ r1 <> k2 +:+ r2) ->
            field_at f k1 a b x -> field_at f k2 b c y -> b < c) as Hlt.
  { intros k1 k2 a b c x y Hne Fa Fb.
    destruct (decide (b = c)) as [<-|Hbc].
    - destruct (field_lines_differ _ _ _ _ _ _ _ _ Hne Fa Fb).
    - destruct Fb as [Hle _]. lia. }
  split; [exact (proj1 F1)|].
  split; [apply (Hlt "xmin" "xmax" _ _ _ _ _
                  ltac:(intros r1 r2; simpl; discriminate) F1 F2)|].
  split; [apply (Hlt "xmax" "nx" _ _ _ _ _
                  ltac:(intros r1 r2; simpl; discriminate) F2 F3)|].
  split; [apply (Hlt "nx" "dx" _ _ _ _ _
                  ltac:(intros r1 r2; simpl; discriminate) F3 F4)|].
  split; [apply (Hlt "dx" "x1" _ _ _ _ _
                  ltac:(intros r1 r2; simpl; discriminate) F4 F5)|].
  apply (Hlt "x1" "maxnFormants" _ _ _ _ _
                  ltac:(intros r1 r2; simpl; discriminate) F5 F6).
Qed.

End FormantsHeader.

(** * Formants: the lines a frame is read from *)

Section FormantsWindows.
Context `{FL : PyFloat}.
Import Formants.

Lemma formant_loop_readings fuel f nf fs bs st fs' bs' st' :
  formant_loop fuel f nf fs bs st = Ok ((fs', bs'), st') ->
  length bs = length fs -> cursor_ok f st ->
  exists rds : list reading,
    fs' = store_all rd_frequency rds fs /\
    bs' = store_all rd_bandwidth rds bs /\
    Forall (fun r => self_i st <= rd_line r <= nf /\
                     reading_ok f (length fs) r) rds.
Proof.
  revert fs bs st. induction fuel as [|fuel IH]; intros fs bs st H Hlen Hok.
  - discriminate.
  - rewrite formant_loop_S in H.
    apply M_bind_Ok_inv in H as (r & st1 & Hfind & H).
    pose proof (find_marker_spec f Re_formant None st (or_intror eq_refl)) as Hs.
    rewrite Hfind in Hs. destruct r as [l|].
    + destruct Hs as (Htr & Hle & Hlt & Hl & (g & Hm & Hg & Hint) & Hbefore).
      rewrite Htr in H. simpl in Hle.
      apply M_bind_Ok_inv in H as (idx & st1' & Hidx & H).
      rewrite Hint in Hidx. injection Hidx as <- <-.
      apply M_bind_Ok_inv in H as (i & st1' & Hi & H).
      injection Hi as <- <-.
      destruct (nf <? self_i st1) eqn:Hbreak.
      * apply M_bind_Ok_inv in H as ([] & st2 & Hset & H).
        injection Hset as <-. injection H as <- <- <-.
        exists []. repeat split; constructor.
      * apply Nat.ltb_ge in Hbreak.
        apply M_bind_Ok_inv in H as (frq & st2 & Hfrq & H).
        destruct (find_field_at _ _ _ _ _ (or_introl Hlt) Hfrq) as [Ffrq Hlt2].
        apply M_bind_Ok_inv in H as (fs1 & st2' & Hset1 & H).
        apply lift_Ok_inv in Hset1 as [Hset1 ->].
        apply setitem_Ok_inv in Hset1 as (k0 & Hslot & ->).
        apply M_bind_Ok_inv in H as (bw & st3 & Hbw & H).
        destruct (find_field_at _ _ _ _ _ (or_introl Hlt2) Hbw) as [Fbw Hlt3].
        apply M_bind_Ok_inv in H as (bs1 & st3' & Hset2 & H).
        apply lift_Ok_inv in Hset2 as [Hset2 ->].
        apply setitem_Ok_inv in Hset2 as (k0' & Hslot' & ->).
        rewrite Hlen in Hslot'. rewrite Hslot in Hslot'.
        injection Hslot' as <-.
        apply IH in H; [| rewrite !length_insert; exact Hlen
                        | left; exact Hlt3].
        destruct H as (rds & -> & -> & HF).
        rewrite length_insert in HF.
        exists (Reading (self_i st1) k0 (self_i st2) frq (self_i st3) bw
                  :: rds).
        split; [reflexivity|]. split; [reflexivity|].
        constructor.
        -- simpl. split; [lia|]. split; [exists l, g; auto|]. auto.
        -- eapply Forall_impl; [exact HF|]. simpl.
           intros r [Hr1 Hr2]. split; [|exact Hr2].
           destruct Ffrq as [Ha _]. destruct Fbw as [Hb _]. lia.
    + simpl in H. injection H as <- <- <-.
      exists []. repeat split; constructor.
Qed.

Lemma frames_loop_windows fuel f d st d' st' :
  frames_loop fuel f d st = Ok (d', st') -> cursor_ok f st ->
  exists ws : list frame_window,
    intensity d' = intensity d ++ (w_intensity <$> ws) /\
    formants d' =
      formants d ++ (w_formants (Z.to_nat (maxnFormants d)) <$> ws) /\
    bandwidths d' =
      bandwidths d ++ (w_bandwidths (Z.to_nat (maxnFormants d)) <$> ws) /\
    Forall (frame_window_ok f (Z.to_nat (maxnFormants d))) ws /\
    StronglySorted (fun w w' => w_next w <= w_line w') ws /\
    Forall (fun w => self_i st <= w_line w) ws.
Proof.
  revert d st. induction fuel as [|fuel IH]; intros d st H Hok.
  - discriminate.
  - rewrite frames_loop_S in H.
    apply M_bind_Ok_inv in H as (r & st1 & Hfind & H).
    pose proof (find_marker_spec f Re_frames None st (or_introl eq_refl)) as Hs.
    rewrite Hfind in Hs. destruct r as [l|].
    + destruct Hs as (Htr & Hle & Hlt & Hl & (g & Hm & Hg & Hint) & _).
      rewrite Htr in H. simpl in Hle.
      apply M_bind_Ok_inv in H as (idx & st1' & Hidx & H).
      rewrite Hint in Hidx. injection Hidx as <- <-.
      apply M_bind_Ok_inv in H as (off & st1' & Hoff & H).
      apply lift_Ok_inv in Hoff as [Hoff ->].
      apply M_bind_Ok_inv in H as (v & st2 & Hv & H).
      destruct (find_field_at _ _ _ _ _ (or_introl Hlt) Hv) as [Fint Hlt2].
      pose proof Fint as (Hle2 & (l2 & g2 & Hl2 & Hm2 & Hp2) & _).
      apply M_bind_Ok_inv in H as (i_frame & st2' & Hi & H).
      injection Hi as <- <-.
      apply M_bind_Ok_inv in H as (r3 & st3 & Hfind3 & H).
      apply M_bind_Ok_inv in H as (next_frame & st3' & Hnext & H).
      destruct (next_frame_spec _ _ _ _ _ _ _ eq_refl Hlt2 Hfind3 Hnext)
        as (-> & Hnf & _ & Hquiet & Hmark).
      apply M_bind_Ok_inv in H as ([] & st4 & Hset & H).
      injection Hset as <-.
      apply M_bind_Ok_inv in H as (r5 & st5 & Hfind5 & H).
      pose proof (find_line_spec f Re_formant_array None
                    (Cursor (self_i st2) (last_match st3))) as Hs5.
      rewrite Hfind5 in Hs5. simpl in Hs5.
      assert (self_i st2 <= self_i st5 /\ self_i st5 < length f) as [Hle5 Hlt5].
      { destruct r5 as [l5|].
        - destruct Hs5 as (Ha & Hb & _). split; [exact Ha|].
          exact (lookup_lt_Some _ _ _ Hb).
        - destruct Hs5 as (-> & _). simpl. lia. }
      apply M_bind_Ok_inv in H as ([fs bs] & st6 & Hloop & H).
      destruct (formant_loop_readings _ _ _ _ _ _ _ _ _ Hloop)
        as (rds & Hfs6 & Hbs6 & HF);
        [now rewrite !length_replicate | left; exact Hlt5 |].
      apply formant_loop_spec in Hloop;
        [| now rewrite !length_replicate | left; exact Hlt5 | lia].
      destruct Hloop as (_ & _ & _ & _ & _ & _ & Hprog & Hok6).
      rewrite length_replicate in HF.
      apply IH in H; [|exact Hok6].
      destruct H as (ws & Hi & Hfs & Hbs & HFws & Hsorted & Hge).
      simpl in Hi, Hfs, Hbs, HFws.
      set (w := Window (self_i st1) (self_i st2) next_frame v rds).
      (* a line cannot open a frame and carry another record *)
      assert (forall r j l' m m',
                f !! j = Some l' -> re_match Re_frames l' = Some m ->
                re_match r l' = Some m' ->
                r = Re_kw "intensity" \/ r = Re_formant -> False) as Hdiff.
      { intros r j l' m m' _ Hm1 Hm1' [->| ->].
        - eapply (re_match_disjoint Re_frames (Re_kw "intensity") l');
            [reflexivity | reflexivity | | exact Hm1 | exact Hm1'].
          discriminate.
        - apply re_match_keyword in Hm1 as [a ->].
          apply re_match_keyword in Hm1' as [b Hb]. simpl in Hb.
          discriminate. }
      exists (w :: ws). rewrite <- !app_assoc in Hi, Hfs, Hbs.
      split; [exact Hi|].
      split; [rewrite Hfs, Hfs6; reflexivity|].
      split; [rewrite Hbs, Hbs6; reflexivity|].
      split; [|split].
      * constructor; [|exact HFws]. unfold frame_window_ok. simpl.
        split; [exists l, g; auto|]. split; [exact Fint|].
        split; [lia|]. split; [exact Hquiet|].
        split; [intros Hn; destruct (Hmark Hn) as (ln & mn & Hln & Hmn);
                destruct mn as [gn|];
                [exists ln, gn; auto
                |apply match_indexed_inv in Hmn as (_ & gn' & Hgn & _);
                 discriminate]|].
        apply Forall_forall. intros rd Hrd.
        rewrite Forall_forall in HF. destruct (HF rd Hrd) as [Hr1 Hr2].
        split; [|exact Hr2].
        destruct Hr2 as ((lr & gr & Hlr & Hmr & _) & _).
        split.
        -- destruct (decide (rd_line rd = self_i st2)) as [Heq|]; [|lia].
           exfalso. rewrite Heq, Hl2 in Hlr. injection Hlr as <-.
           apply re_match_keyword in Hm2 as [a Ha].
           apply re_match_keyword in Hmr as [b Hb].
           rewrite Ha in Hb. simpl in Hb. discriminate.
        -- destruct (decide (rd_line rd = next_frame)) as [Heq|]; [|lia].
           exfalso. pose proof (lookup_lt_Some _ _ _ Hlr) as Hlt'.
           rewrite Heq in Hlt'.
           destruct (Hmark Hlt') as (ln & mn & Hln & Hmn).
           rewrite Heq, Hln in Hlr. injection Hlr as <-.
           exact (Hdiff Re_formant _ _ _ _ Hln Hmn Hmr (or_intror eq_refl)).
      * constructor; [exact Hsorted|]. simpl.
        apply Forall_forall. intros w' Hw'.
        rewrite Forall_forall in Hge, HFws.
        specialize (Hge w' Hw'). destruct (HFws w' Hw') as [(lw & gw & Hlw & Hmw) _].
        destruct (decide (next_frame <= w_line w')) as [|Hlow]; [assumption|].
        exfalso.
        assert (self_i st2 <= w_line w') as Hp
          by (destruct Hprog as [Hprog|Hprog]; lia).
        destruct (decide (w_line w' = self_i st2)) as [Heq|Hne].
        -- rewrite Heq, Hl2 in Hlw. injection Hlw as <-.
           exact (Hdiff _ _ _ _ _ Hl2 Hmw Hm2 (or_introl eq_refl)).
        -- rewrite (Hquiet (w_line w') lw) in Hmw; [discriminate|lia|exact Hlw].
      * constructor; [simpl; lia|].
        assert (self_i st1 <= self_i st6) as Hadv
          by (destruct Hprog as [Hprog|Hprog]; lia).
        eapply Forall_impl; [exact Hge|]. simpl. intros w' Hw'. lia.
    + simpl in H. injection H as <- <-.
      exists []. simpl. rewrite !app_nil_r.
      repeat split; constructor.
Qed.

(** Every frame of a successful parse is read from a window of lines of
    its own.  Its intensity is the number on the first intensity line from
    its marker on.  Its window ends at the first frame marker after that
    line, or at the end of the file, and the windows of successive frames
    do not overlap.  Its two arrays are [maxnFormants] NaNs into which the
    frequency and the bandwidth of each formant sub-record read for it
    have been stored, in order, at the position the index of the
    sub-record denotes.  Every sub-record read for the frame has its
    marker inside the window, after the intensity line: one beyond the
    next frame marker is never stored in the frame. *)
Theorem formants_frame_windows (raw : list string) (d : data) :
  from_praat_text raw = Ok d ->
  exists ws : list frame_window,
    length ws = length (t d) /\
    intensity d = w_intensity <$> ws /\
    formants d = w_formants (Z.to_nat (maxnFormants d)) <$> ws /\
    bandwidths d = w_bandwidths (Z.to_nat (maxnFormants d)) <$> ws /\
    Forall (frame_window_ok (strip is_space3 <$> raw)
              (Z.to_nat (maxnFormants d))) ws /\
    StronglySorted (fun w w' => w_next w <= w_line w') ws.
Proof.
  intros Hp.
  assert (length (formants d) = length (t d)) as Hlen.
  { destruct (from_praat_text_Ok_inv _ _ Hp)
      as (_ & _ & rows & -> & _ & -> & _).
    now rewrite !length_fmap. }
  revert Hp Hlen. unfold from_praat_text, parse_lines.
  generalize (strip is_space3 <$> raw). intros f H Hlen.
  apply rbind_Ok_inv in H as (f0 & _ & H).
  destruct (negb (String.eqb f0 file_type_line)); [discriminate|].
  apply rbind_Ok_inv in H as (f1 & _ & H).
  destruct (negb (String.eqb f1 formant_class_line)); [discriminate|].
  apply rbind_Ok_inv in H as ([d' st'] & Hscan & H). injection H as ->.
  unfold scan_report in Hscan.
  apply M_bind_Ok_inv in Hscan as (d0 & st1 & Hd0 & H).
  assert (cursor_ok f (Cursor 2 None)) as Hok0 by (right; reflexivity).
  pose proof (read_scalars_spec f _ Hok0) as Hs. rewrite Hd0 in Hs.
  destruct Hs as (Hok1 & _ & _ & Hfs0 & Hbs0 & Hi0).
  apply M_bind_Ok_inv in H as (r & st2 & Hfind & H).
  assert (cursor_ok f st2) as Hok2.
  { pose proof (find_line_spec f Re_frames_array None st1) as Hs.
    rewrite Hfind in Hs. simpl in Hs. destruct r as [l|].
    - destruct Hs as (_ & Hb & _). left. exact (lookup_lt_Some _ _ _ Hb).
    - destruct (find_line_failed _ _ _ _ Hok1 Hfind) as (_ & Hb & _).
      right; exact Hb. }
  pose proof (frames_loop_spec _ _ _ _ _ _ H Hok2) as (rows & Hext & _).
  destruct Hext as (_ & _ & _ & _ & _ & Hmax & _).
  destruct (frames_loop_windows _ _ _ _ _ _ H Hok2)
    as (ws & Hi & Hfs & Hbs & HF & Hsorted & _).
  rewrite Hi0 in Hi. rewrite Hfs0 in Hfs. rewrite Hbs0 in Hbs.
  simpl in Hi, Hfs, Hbs. rewrite <- Hmax in HF, Hfs, Hbs.
  exists ws. rewrite <- Hlen, Hfs, length_fmap.
  repeat (split; [reflexivity || assumption|]). exact Hsorted.
Qed.

End FormantsWindows.

(** * Formants: the literal of a parsed report, and padded lines *)

Section FormantsLiteral.
Context `{FL : PyFloat}.
Import Formants.
Variable str_float : pyfloat -> string.
Variable str_int : Z -> string.

(** After a successful parse, [to_matlab_literal] raises IndexError when
    the report has no frame, [_list_to_matlab_string] reading [a[0]] of the
    empty list of times; with a frame or more it returns the [struct(...)]
    call listing the ten fields in the order the parser created them, the
    lists between brackets with [,] between numbers and [;] between the
    rows of the two tables. *)
Theorem formants_literal_after_parse (raw : list string) (d : data) :
  from_praat_text raw = Ok d ->
  to_matlab_literal str_float str_int (Object (Some d)) =
  match t d with
  | [] => raise_builtin IndexError
  | _ :: _ =>
      Ok ("struct("
          +:+ join ","
                [ "'xmin'"; str_float (xmin d);
                  "'xmax'"; str_float (xmax d);
                  "'nx'"; str_int (nx d);
                  "'dx'"; str_float (dx d);
                  "'x1'"; str_float (x1 d);
                  "'maxnFormants'"; str_int (maxnFormants d);
                  "'t'"; "[" +:+ join "," (str_float <$> t d) +:+ "]";
                  "'formants'";
                  "[" +:+ join ";" ((fun x => join "," (str_float <$> x))
                                     <$> formants d) +:+ "]";
                  "'bandwidths'";
                  "[" +:+ join ";" ((fun x => join "," (str_float <$> x))
                                     <$> bandwidths d) +:+ "]";
                  "'intensity'";
                  "[" +:+ join "," (str_float <$> intensity d) +:+ "]" ]
          +:+ ")")
  end.
Proof.
  intros Hp.
  destruct (from_praat_text_Ok_inv _ _ Hp)
    as (_ & _ & rows & Ht & Hi & Hfs & Hbs & _).
  unfold to_matlab_literal, items. cbn [self_data].
  rewrite Ht, Hi, Hfs, Hbs.
  destruct rows as [|row rows]; reflexivity.
Qed.

End FormantsLiteral.

Section FormantsPadding.
Context `{FL : PyFloat}.
Import Formants.

Lemma lstrip_blank_app (p : ascii -> bool) (a s : string) :
  all_chars p a = true -> lstrip p (a +:+ s) = lstrip p s.
Proof.
  induction a as [|c a IH]; simpl; [reflexivity|].
  intros H. apply andb_true_iff in H as [-> H]. auto.
Qed.

Lemma rstrip_blank (p : ascii -> bool) (b : string) :
  all_chars p b = true -> rstrip p b = EmptyString.
Proof.
  induction b as [|c b IH]; simpl; [reflexivity|].
  intros H. apply andb_true_iff in H as [-> H]. now rewrite IH.
Qed.

Lemma rstrip_app_blank (p : ascii -> bool) (s b : string) :
  all_chars p b = true -> rstrip p (s +:+ b) = rstrip p s.
Proof.
  intros Hb. induction s as [|c s IH]; simpl.
  - now apply rstrip_blank.
  - now rewrite IH.
Qed.

Lemma lstrip_app (p : ascii -> bool) (s b : string) :
  lstrip p (s +:+ b) =
  if all_chars p s then lstrip p b else lstrip p s +:+ b.
Proof.
  induction s as [|c s IH]; simpl; [reflexivity|].
  destruct (p c); simpl; [exact IH | reflexivity].
Qed.

Lemma lstrip_all (p : ascii -> bool) (s : string) :
  all_chars p s = true -> lstrip p s = EmptyString.
Proof.
  induction s as [|c s IH]; simpl; [reflexivity|].
  intros H. apply andb_true_iff in H as [-> H]. auto.
Qed.

Lemma strip_padded (l l' : string) :
  padded l l' -> strip is_space3 l' = strip is_space3 l.
Proof.
  intros (a & b & Ha & Hb & ->). unfold strip.
  rewrite lstrip_blank_app by exact Ha.
  rewrite lstrip_app. destruct (all_chars is_space3 l) eqn:Hl.
  - rewrite (lstrip_all _ b Hb), (lstrip_all _ l Hl). reflexivity.
  - now apply rstrip_app_blank.
Qed.

(** Whitespace at the ends of the lines is of no consequence: a report
    whose lines are those of another with blanks, tabs or line ends added
    in front or behind parses to the same data, or raises the same
    exception. *)
Theorem formants_parse_ignores_padding (raw raw' : list string) :
  Forall2 padded raw raw' -> from_praat_text raw' = from_praat_text raw.
Proof.
  intros HF. unfold from_praat_text. f_equal.
  induction HF as [|l l' raw raw' Hl _ IH]; [reflexivity|].
  cbn [fmap list_fmap]. f_equal; [now apply strip_padded | exact IH].
Qed.

End FormantsPadding.

(** * Formants: running Praat *)

Section FormantsPraat.
Context `{FL : PyFloat}.
Import Formants.
Variable praat_path : string.
Variable praat_script : string.
Variable module_file : string.
Variable splitext : string -> string * string.
Variable str_float : pyfloat -> string.
Variable run : list string -> Z * string * string.
Variable read_lines : string -> option (list string).

Lemma dict_get_set (k k' : string) (v : arg) (d : dict) :
  dict_get k (dict_set k' v d) =
  if String.eqb k' k then Some v else dict_get k d.
Proof.
  induction d as [|[k0 v0] d IH]; simpl.
  - destruct (String.eqb k' k); reflexivity.
  - destruct (String.eqb_spec k0 k') as [->|Hne]; simpl.
    + destruct (String.eqb k' k); reflexivity.
    + destruct (String.eqb_spec k0 k) as [->|Hne'].
      * destruct (String.eqb_spec k' k) as [->|]; [contradiction|reflexivity].
      * exact IH.
Qed.

Lemma dict_get_merge (k : string) (ds : dict) :
  forall args : dict,
  dict_get k
    (foldl (fun args kv =>
              match dict_get kv.1 args with
              | Some _ => args
              | None => dict_set kv.1 kv.2 args
              end) args ds) =
  match dict_get k args with
  | Some v => Some v
  | None => dict_get k ds
  end.
Proof.
  induction ds as [|[k0 v0] ds IH]; intros args; simpl.
  - now destruct (dict_get k args).
  - rewrite IH. destruct (dict_get k0 args) as [v1|] eqn:Hk0.
    + destruct (dict_get k args) eqn:Hk; [reflexivity|].
      destruct (String.eqb_spec k0 k) as [->|]; [congruence|reflexivity].
    + rewrite dict_get_set.
      destruct (String.eqb_spec k0 k) as [->|]; [now rewrite Hk0|].
      reflexivity.
Qed.

(** The options with their defaults: the file name is the one given, every
    other key is the keyword argument when there is one, the default
    otherwise. *)
Lemma with_defaults_get (wav_filename : arg) (kwargs : dict) (k : string) :
  dict_get k (with_defaults (dict_set "filename" wav_filename kwargs)) =
  if String.eqb "filename" k then Some wav_filename
  else option_value kwargs k.
Proof.
  unfold with_defaults. rewrite dict_get_merge, dict_get_set.
  destruct (String.eqb "filename" k); reflexivity.
Qed.

Lemma call_with_options (args : dict) (filename method : string)
    (timestep nformants maxfreq wlen : arg) (cmd : list string) :
  dict_get "filename" args = Some (AStr filename) ->
  dict_get "method" args = Some (AStr method) ->
  dict_get "timestep" args = Some timestep ->
  dict_get "nformants" args = Some nformants ->
  dict_get "maxfreq" args = Some maxfreq ->
  dict_get "wlen" args = Some wlen ->
  cmd = [ praat_path; "--run"; praat_script_name module_file; filename;
          (splitext filename).1 +:+ ".formant"; method;
          str str_float timestep; str str_float nformants;
          str str_float maxfreq; str str_float wlen ] ->
  call praat_path praat_script module_file splitext str_float run args
    = ([WriteFile (praat_script_name module_file) praat_script; Popen cmd],
       Returned ((splitext filename).1 +:+ ".formant")
         (run cmd).1.1 (run cmd).1.2 (run cmd).2).
Proof.
  intros Hf Hm Ht Hn Hx Hw ->.
  unfold call. rewrite Hf. unfold command. rewrite Hm, Ht, Hn, Hx, Hw.
  destruct (run _) as [[c o] e]. reflexivity.
Qed.

(** [call] raises ValueError, before it does anything, when the options
    hold no file name.  With a file name that is a string it writes the
    script file first; it then raises KeyError for the first of [method],
    [timestep], [nformants], [maxfreq] and [wlen] that is missing, without
    starting Praat.  With all of them, and a method that is a string, it
    starts Praat on the command built from them and returns the name of the
    formant file with whatever the process returned: a return code that is
    not zero is no error to [call]. *)
Theorem call_needs_its_options (args : dict) :
  (dict_get "filename" args = None ->
   call praat_path praat_script module_file splitext str_float run args
     = ([], NoFilename)) /\
  (forall filename before k after,
     dict_get "filename" args = Some (AStr filename) ->
     option_keys = before ++ k :: after ->
     Forall (fun k' => is_Some (dict_get k' args)) before ->
     dict_get k args = None ->
     call praat_path praat_script module_file splitext str_float run args
       = ([WriteFile (praat_script_name module_file) praat_script],
          KeyError k)) /\
  (forall filename method timestep nformants maxfreq wlen cmd,
     dict_get "filename" args = Some (AStr filename) ->
     dict_get "method" args = Some (AStr method) ->
     dict_get "timestep" args = Some timestep ->
     dict_get "nformants" args = Some nformants ->
     dict_get "maxfreq" args = Some maxfreq ->
     dict_get "wlen" args = Some wlen ->
     cmd = [ praat_path; "--run"; praat_script_name module_file; filename;
             (splitext filename).1 +:+ ".formant"; method;
             str str_float timestep; str str_float nformants;
             str str_float maxfreq; str str_float wlen ] ->
     call praat_path praat_script module_file splitext str_float run args
       = ([WriteFile (praat_script_name module_file) praat_script;
           Popen cmd],
          Returned ((splitext filename).1 +:+ ".formant")
            (run cmd).1.1 (run cmd).1.2 (run cmd).2)).
Proof.
  split; [|split].
  - intros H. unfold call. now rewrite H.
  - intros filename before k after Hf Hkeys Hbefore Hk.
    unfold call. rewrite Hf. unfold command.
    assert (forall k', k' ∈ before -> is_Some (dict_get k' args)) as Hb
      by (now apply Forall_forall).
    unfold option_keys in Hkeys.
    destruct before as [|b1 before]; injection Hkeys as <- Hkeys;
      [now rewrite Hk|].
    destruct (Hb "method" ltac:(left)) as [v1 ->].
    destruct before as [|b2 before]; injection Hkeys as <- Hkeys;
      [now rewrite Hk|].
    destruct (Hb "timestep" ltac:(right; left)) as [v2 ->].
    destruct before as [|b3 before]; injection Hkeys as <- Hkeys;
      [now rewrite Hk|].
    destruct (Hb "nformants" ltac:(right; right; left)) as [v3 ->].
    destruct before as [|b4 before]; injection Hkeys as <- Hkeys;
      [now rewrite Hk|].
    destruct (Hb "maxfreq" ltac:(right; right; right; left)) as [v4 ->].
    destruct before as [|b5 before]; injection Hkeys as <- Hkeys;
      [now rewrite Hk|].
    destruct before; discriminate.
  - apply call_with_options.
Qed.

(** [from_wav_file] always gets as far as starting Praat when the file
    name is a string and the method, if given, is one: no option is ever
    missing.  The command carries the file name given, even against a
    keyword argument [filename], and every option as the keyword argument
    when there is one, as the default otherwise.  The report is then read
    from the formant file whatever the process returned: the return code
    is not looked at. *)
Theorem from_wav_file_runs_praat (wav_filename : string) (kwargs : dict) :
  (forall v, dict_get "method" kwargs = Some v -> exists m, v = AStr m) ->
  exists method timestep nformants maxfreq wlen cmd,
    option_value kwargs "method" = Some (AStr method) /\
    option_value kwargs "timestep" = Some timestep /\
    option_value kwargs "nformants" = Some nformants /\
    option_value kwargs "maxfreq" = Some maxfreq /\
    option_value kwargs "wlen" = Some wlen /\
    cmd = [ praat_path; "--run"; praat_script_name module_file;
            wav_filename; (splitext wav_filename).1 +:+ ".formant"; method;
            str str_float timestep; str str_float nformants;
            str str_float maxfreq; str str_float wlen ] /\
    from_wav_file praat_path praat_script module_file splitext str_float
      run read_lines (AStr wav_filename) kwargs =
    ([WriteFile (praat_script_name module_file) praat_script; Popen cmd],
     match read_lines ((splitext wav_filename).1 +:+ ".formant") with
     | Some lines => Parsed (from_praat_text lines)
     | None => CannotOpen
     end).
Proof.
  intros Hmethod.
  assert (exists m, option_value kwargs "method" = Some (AStr m)) as [m Hm].
  { unfold option_value. destruct (dict_get "method" kwargs) as [v|] eqn:Hv.
    - destruct (Hmethod v eq_refl) as [m ->]. eauto.
    - simpl. eauto. }
  assert (forall k, k ∈ ["timestep"; "nformants"; "maxfreq"; "wlen"] ->
            is_Some (option_value kwargs k)) as Hopt.
  { intros k Hk. unfold option_value.
    destruct (dict_get k kwargs); [eauto|].
    repeat (apply elem_of_cons in Hk as [->|Hk]; [simpl; eauto|]).
    now apply elem_of_nil in Hk. }
  destruct (Hopt "timestep" ltac:(left)) as [ts Hts].
  destruct (Hopt "nformants" ltac:(right; left)) as [nf Hnf].
  destruct (Hopt "maxfreq" ltac:(right; right; left)) as [mf Hmf].
  destruct (Hopt "wlen" ltac:(right; right; right; left)) as [wl Hwl].
  eexists m, ts, nf, mf, wl, _.
  repeat (split; [eassumption || reflexivity|]).
  unfold from_wav_file.
  set (args := with_defaults (dict_set "filename" (AStr wav_filename) kwargs)).
  pose proof (call_with_options args) as Hcall.
  assert (forall k v, String.eqb "filename" k = false ->
            option_value kwargs k = Some v -> dict_get k args = Some v)
    as Hget.
  { intros k v Hk Hv. unfold args. now rewrite with_defaults_get, Hk. }
  assert (dict_get "filename" args = Some (AStr wav_filename)) as Hf
    by (unfold args; now rewrite with_defaults_get).
  rewrite (Hcall wav_filename m ts nf mf wl _ Hf
             (Hget "method" _ eq_refl Hm) (Hget "timestep" _ eq_refl Hts)
             (Hget "nformants" _ eq_refl Hnf) (Hget "maxfreq" _ eq_refl Hmf)
             (Hget "wlen" _ eq_refl Hwl) eq_refl).
  now destruct (read_lines _).
Qed.

Lemma call_vars (ns : namespace) (cmd : list string) :
  cmd = [ praat_path; "--run"; praat_script_name module_file;
          ns_filename ns; (splitext (ns_filename ns)).1 +:+ ".formant";
          ns_method ns; str str_float (ns_timestep ns);
          str str_float (ns_nformants ns); str str_float (ns_maxfreq ns);
          str str_float (ns_wlen ns) ] ->
  call praat_path praat_script module_file splitext str_float run (vars ns)
    = ([WriteFile (praat_script_name module_file) praat_script; Popen cmd],
       Returned ((splitext (ns_filename ns)).1 +:+ ".formant")
         (run cmd).1.1 (run cmd).1.2 (run cmd).2).
Proof.
  intros Hcmd.
  now apply (call_with_options (vars ns) (ns_filename ns) (ns_method ns)
               (ns_timestep ns) (ns_nformants ns) (ns_maxfreq ns)
               (ns_wlen ns) cmd).
Qed.

(** The program run from the command line looks at the return code, which
    [from_wav_file] does not.  When Praat returns a code that is not zero
    it raises without opening the formant file.  With the export format
    [none] it prints the name of the formant file without opening it.
    With the format [matfile] and a report that parses, it calls [savemat]
    with the data parsed, under the name given or the name of the formant
    file followed by [.mat].  However it ends, [savemat] is never called
    with [None]: the data it receives come from a parse that succeeded. *)
Theorem main_exports_what_it_parsed (ns : namespace) :
  exists cmd,
    cmd = [ praat_path; "--run"; praat_script_name module_file;
            ns_filename ns; (splitext (ns_filename ns)).1 +:+ ".formant";
            ns_method ns; str str_float (ns_timestep ns);
            str str_float (ns_nformants ns); str str_float (ns_maxfreq ns);
            str str_float (ns_wlen ns) ] /\
    ((run cmd).1.1 <> 0%Z ->
     main praat_path praat_script module_file splitext str_float run
       read_lines ns
     = ([Did (WriteFile (praat_script_name module_file) praat_script);
         Did (Popen cmd)],
        ExtractionFailed (run cmd).2)) /\
    ((run cmd).1.1 = 0%Z -> ns_export ns = "none" ->
     main praat_path praat_script module_file splitext str_float run
       read_lines ns
     = ([Did (WriteFile (praat_script_name module_file) praat_script);
         Did (Popen cmd);
         Print ((splitext (ns_filename ns)).1 +:+ ".formant")],
        Finished)) /\
    (forall lines d,
       (run cmd).1.1 = 0%Z -> ns_export ns = "matfile" ->
       read_lines ((splitext (ns_filename ns)).1 +:+ ".formant") = Some lines ->
       from_praat_text lines = Ok d ->
       main praat_path praat_script module_file splitext str_float run
         read_lines ns
       = ([Did (WriteFile (praat_script_name module_file) praat_script);
           Did (Popen cmd);
           Export (Savemat
                     (default (((splitext (ns_filename ns)).1 +:+ ".formant")
                               +:+ ".mat") (ns_exportfile ns))
                     (Some d) true);
           Print (default (((splitext (ns_filename ns)).1 +:+ ".formant")
                           +:+ ".mat") (ns_exportfile ns))],
          Finished)) /\
    (forall name mdict compress,
       Export (Savemat name mdict compress)
         ∈ (main praat_path praat_script module_file splitext str_float run
              read_lines ns).1 ->
       exists lines d,
         read_lines ((splitext (ns_filename ns)).1 +:+ ".formant")
           = Some lines /\
         from_praat_text lines = Ok d /\ mdict = Some d).
Proof.
  eexists. split; [reflexivity|].
  set (cmd := [praat_path; _; _; _; _; _; _; _; _; _]).
  set (ff := (splitext (ns_filename ns)).1 +:+ ".formant").
  unfold main. rewrite (call_vars ns cmd eq_refl). fold ff.
  split; [|split; [|split]].
  - intros Hc. apply Z.eqb_neq in Hc. now rewrite Hc.
  - intros Hc He. apply Z.eqb_eq in Hc. now rewrite Hc, He.
  - intros lines d Hc He Hl Hd. apply Z.eqb_eq in Hc.
    rewrite Hc, Hl, Hd. unfold export_parsed. rewrite He. reflexivity.
  - intros name mdict compress.
    destruct (negb _); [simpl; intros H|].
    { repeat (apply elem_of_cons in H as [H|H]; [discriminate|]).
      now apply elem_of_nil in H. }
    destruct (String.eqb (ns_export ns) "none"); [simpl; intros H|].
    { repeat (apply elem_of_cons in H as [H|H]; [discriminate|]).
      now apply elem_of_nil in H. }
    destruct (read_lines ff) as [lines|]; [|simpl; intros H].
    2:{ repeat (apply elem_of_cons in H as [H|H]; [discriminate|]).
        now apply elem_of_nil in H. }
    destruct (from_praat_text lines) as [d| |] eqn:Hd;
      [|simpl; intros H..].
    2,3: repeat (apply elem_of_cons in H as [H|H]; [discriminate|]);
         now apply elem_of_nil in H.
    unfold export_parsed.
    destruct (String.eqb (ns_export ns) "matlabliteral").
    { destruct (to_matlab_literal _ _ _); simpl; intros H;
        repeat (apply elem_of_cons in H as [H|H]; [discriminate|]);
        now apply elem_of_nil in H. }
    destruct (String.eqb (ns_export ns) "matfile").
    { unfold to_matlab_mat. simpl. intros H.
      apply elem_of_cons in H as [H|H]; [discriminate|].
      apply elem_of_cons in H as [H|H]; [discriminate|].
      apply elem_of_cons in H as [H|H].
      - injection H as -> -> ->. eauto.
      - repeat (apply elem_of_cons in H as [H|H]; [discriminate|]).
        now apply elem_of_nil in H. }
    destruct (String.eqb (ns_export ns) "json"); [simpl; intros H|].
    { repeat (apply elem_of_cons in H as [H|H]; [discriminate|]).
      now apply elem_of_nil in H. }
    destruct (String.eqb (ns_export ns) "jsonfile"); simpl; intros H;
      repeat (apply elem_of_cons in H as [H|H]; [discriminate|]);
      now apply elem_of_nil in H.
Qed.

End FormantsPraat.

(** * The further properties on concrete files *)

Section FurtherExamples.
Import Fixtures.

Lemma textgrid_tier_ranges_chain_witness :
  TextGrid.parse tg_two_tiers = Ok tg_two_tiers_parsed /\
  exists (i0 : nat) (ms : list nat),
    (exists l, TextGrid.findLineSW tg_two_tiers "size = " 0 None
               = Some (i0, l)) /\
    length ms = Z.to_nat (TextGrid.size tg_two_tiers_parsed) /\
    (forall j p m, (i0 :: ms) !! j = Some p -> ms !! j = Some m ->
       p < m < length tg_two_tiers /\
       TextGrid.marker_after tg_two_tiers (Z.of_nat j + 1) p m) /\
    TextGrid.itemRanges tg_two_tiers_parsed =
      zip_with (fun m e => (m + 1, Some e)) ms
        (drop 1 (ms ++ [length tg_two_tiers])).
Proof.
  assert (TextGrid.parse tg_two_tiers = Ok tg_two_tiers_parsed) as Hp
    by (vm_compute; reflexivity).
  split; [exact Hp|].
  exact (textgrid_tier_ranges_chain _ _ Hp).
Defined.

Lemma textgrid_display_after_parse_witness :
  TextGrid.parse tg_two_tiers = Ok tg_two_tiers_parsed /\
  TextGrid.matlabDisp six_decimals tg_two_tiers_parsed =
  Ok ("x = struct();" +:+ TextGrid.newline
      +:+ (if (0 <? TextGrid.size tg_two_tiers_parsed)%Z
           then "x.interval(1) = struct();" +:+ TextGrid.newline
           else EmptyString)
      +:+ TextGrid.all_statements six_decimals
            (TextGrid.intervals tg_two_tiers_parsed)) /\
  TextGrid.script six_decimals tg_two_tiers
    = TextGrid.matlabDisp six_decimals tg_two_tiers_parsed.
Proof.
  assert (TextGrid.parse tg_two_tiers = Ok tg_two_tiers_parsed) as Hp
    by (vm_compute; reflexivity).
  split; [exact Hp|].
  exact (textgrid_display_after_parse six_decimals _ _ Hp).
Defined.

Import Formants.

Lemma formants_header_fields_in_order_witness :
  from_praat_text fm_two_frames = Ok fm_two_frames_parsed /\
  exists i1 i2 i3 i4 i5 i6 nx_ maxn_,
    field_at (strip is_space3 <$> fm_two_frames) "xmin" 2 i1
      (xmin fm_two_frames_parsed) /\
    field_at (strip is_space3 <$> fm_two_frames) "xmax" i1 i2
      (xmax fm_two_frames_parsed) /\
    field_at (strip is_space3 <$> fm_two_frames) "nx" i2 i3 nx_ /\
    field_at (strip is_space3 <$> fm_two_frames) "dx" i3 i4
      (dx fm_two_frames_parsed) /\
    field_at (strip is_space3 <$> fm_two_frames) "x1" i4 i5
      (x1 fm_two_frames_parsed) /\
    field_at (strip is_space3 <$> fm_two_frames) "maxnFormants" i5 i6 maxn_ /\
    float_to_int nx_ = Some (nx fm_two_frames_parsed) /\
    float_to_int maxn_ = Some (maxnFormants fm_two_frames_parsed) /\
    2 <= i1 /\ i1 < i2 /\ i2 < i3 /\ i3 < i4 /\ i4 < i5 /\ i5 < i6.
Proof.
  assert (from_praat_text fm_two_frames = Ok fm_two_frames_parsed) as Hp
    by (vm_compute; reflexivity).
  split; [exact Hp|].
  exact (formants_header_fields_in_order _ _ Hp).
Defined.

Lemma formants_frame_windows_witness :
  from_praat_text fm_two_frames = Ok fm_two_frames_parsed /\
  exists ws : list frame_window,
    length ws = length (t fm_two_frames_parsed) /\
    intensity fm_two_frames_parsed = w_intensity <$> ws /\
    formants fm_two_frames_parsed
      = w_formants (Z.to_nat (maxnFormants fm_two_frames_parsed)) <$> ws /\
    bandwidths fm_two_frames_parsed
      = w_bandwidths (Z.to_nat (maxnFormants fm_two_frames_parsed)) <$> ws /\
    Forall (frame_window_ok (strip is_space3 <$> fm_two_frames)
              (Z.to_nat (maxnFormants fm_two_frames_parsed))) ws /\
    StronglySorted (fun w w' => w_next w <= w_line w') ws.
Proof.
  assert (from_praat_text fm_two_frames = Ok fm_two_frames_parsed) as Hp
    by (vm_compute; reflexivity).
  split; [exact Hp|].
  exact (formants_frame_windows _ _ Hp).
Defined.

Lemma formants_literal_after_parse_witness :
  from_praat_text fm_two_frames = Ok fm_two_frames_parsed /\
  exists s,
    to_matlab_literal six_decimals fmt_d (Object (Some fm_two_frames_parsed))
      = Ok s /\
    startswith "struct('xmin',0.000000,'xmax',1.500000,'nx',2," s = true.
Proof.
  assert (from_praat_text fm_two_frames = Ok fm_two_frames_parsed) as Hp
    by (vm_compute; reflexivity).
  split; [exact Hp|].
  eexists. split.
  - exact (formants_literal_after_parse six_decimals fmt_d _ _ Hp).
  - vm_compute. reflexivity.
Defined.

Lemma formants_parse_ignores_padding_witness :
  Forall2 padded fm_two_frames_bare fm_two_frames /\
  from_praat_text fm_two_frames = Ok fm_two_frames_parsed /\
  from_praat_text fm_two_frames_bare = Ok fm_two_frames_parsed.
Proof.
  assert (Forall2 padded fm_two_frames_bare fm_two_frames) as HF.
  { repeat (constructor;
            [exists "    ", (" " +:+ nl); repeat split|]).
    constructor. }
  assert (from_praat_text fm_two_frames = Ok fm_two_frames_parsed) as Hp
    by (vm_compute; reflexivity).
  split; [exact HF|]. split; [exact Hp|].
  rewrite <- (formants_parse_ignores_padding _ _ HF). exact Hp.
Defined.

Lemma from_wav_file_runs_praat_witness :
  (forall v, dict_get "method" wav_kwargs = Some v -> exists m, v = AStr m) /\
  from_wav_file "/usr/bin/praat" "script" "get_formants.py" split_extension
    six_decimals (fun _ => (1%Z, EmptyString, "failed"))
    (fun _ => Some fm_two_frames) (AStr "sound.wav") wav_kwargs =
  ([WriteFile "get_formants.praat" "script";
    Popen ["/usr/bin/praat"; "--run"; "get_formants.praat"; "sound.wav";
           "sound.formant"; "burg"; "0.010000"; "5"; "5500"; "0.025000"]],
   Parsed (from_praat_text fm_two_frames)).
Proof.
  assert (forall v, dict_get "method" wav_kwargs = Some v ->
                    exists m, v = AStr m) as Hm
    by (intros v Hv; vm_compute in Hv; discriminate).
  split; [exact Hm|].
  destruct (from_wav_file_runs_praat (FL := exact_float)
              "/usr/bin/praat" "script"
              "get_formants.py" split_extension six_decimals
              (fun _ => (1%Z, EmptyString, "failed"))
              (fun _ => Some fm_two_frames) "sound.wav" wav_kwargs Hm)
    as (method & timestep & nformants & maxfreq & wlen & cmd &
        H1 & H2 & H3 & H4 & H5 & -> & ->).
  vm_compute in H1, H2, H3, H4, H5.
  injection H1 as <-. injection H2 as <-. injection H3 as <-.
  injection H4 as <-. injection H5 as <-.
  reflexivity.
Defined.

End FurtherExamples.

(** * TextGrid: the lines taken for interval headers *)

Section TextGridHeaders.

Lemma spaces_indent (a : string) :
  span (is_char " ") a = (a, EmptyString) -> a = indent (String.length a).
Proof.
  induction a as [|c a IH]; simpl; [reflexivity|].
  unfold is_char at 1. destruct (Ascii.eqb_spec c " ") as [->|]; [|discriminate].
  destruct (span (is_char " ") a) as [a' b'] eqn:E.
  intros [= -> ->]. f_equal. now apply IH.
Qed.

(** The lines [reIntervals] matches are exactly those that begin with one
    or more spaces followed by the word intervals, a space, an opening
    bracket, one or more digits, a closing bracket and a colon.  Whatever
    follows is accepted, and so is any number between the brackets; a line
    that does not begin with a space is no header. *)
Theorem interval_header_shape (l : string) :
  reIntervals_match l = true <->
  exists n ds rest, all_digits ds = true /\
    l = indent (S n) +:+ "intervals [" +:+ ds +:+ "]:" +:+ rest.
Proof.
  split.
  - unfold reIntervals_match.
    destruct (span (is_char " ") l) as [[|c a] r] eqn:Hsp; [discriminate|].
    destruct (expect "intervals [" r) as [r1|] eqn:He1; [|discriminate].
    destruct (span is_digit r1) as [[|d ds] r2] eqn:Hd; [discriminate|].
    destruct (expect "]:" r2) as [r3|] eqn:He2; [|discriminate].
    intros _.
    pose proof (spaces_indent _ (span_fst_idem _ _ _ _ Hsp)) as Ha.
    exists (String.length a), (String d ds), r3.
    split; [exact (all_digits_of_span _ _ _ _ Hd)|].
    apply span_append in Hsp. apply span_append in Hd.
    apply expect_Some in He1, He2.
    rewrite Hsp, He1, Hd, He2. simpl in Ha. rewrite Ha at 1.
    reflexivity.
  - intros (n & ds & rest & Hds & ->).
    now apply reIntervals_match_any_index.
Qed.

End TextGridHeaders.
